(** * E-commerce dashboard: the data pipeline of [dashboard/dashboard.py]

    A shallow embedding of the data loader, the four aggregation
    functions ([prepare_monthly_data], [prepare_category_data],
    [prepare_rfm_data], [prepare_delivery_data]), the on-time rate, the
    payment and review blocks and the order in which the script puts
    elements on the page or stops with an exception, followed by the
    properties the specification states about them.  The aggregation
    functions are given twice: as functions from the table to the
    derived table, and as the sequence of pandas calls of their body on
    a store of frames.

    Conventions of the embedding.
    - A pandas [datetime64[ns]] cell is [option Z]: nanoseconds since the
      Unix epoch, [None] for [NaT].  The five timestamp columns are
      nullable, as the loader leaves blank cells null.
    - A float cell that can be [NaN] is an [option]; finite floats are
      exact rationals ([Q]), so IEEE rounding is abstracted away while
      the choice of rows that enter a sum, a count or a ratio is kept.
    - The identifier, category, payment and price cells of an order line
      are populated (section 3 of the specification lists only the
      delivery timestamp and the review score as optional).
    - A data frame is the list of its rows in file order, together with
      the one fact about its header the script looks at: whether the
      [review_score] column exists.
    - Library calls are given the meaning pandas documents for them:
      [groupby] sorts the groups by key and keeps row order inside a
      group, a monthly [Grouper] makes one bin per calendar month from
      the first to the last month with data, [sort_values] rearranges
      the rows into key order, reductions skip null cells.

    The first part of the file holds the definitions, the second part
    the lemmas and theorems. *)

From Stdlib Require Import ZArith QArith Qreduction List String Bool Lia.
From Stdlib Require Import Permutation Sorted OrderedTypeEx DecimalString.
Import ListNotations.

Local Open Scope string_scope.
Local Open Scope list_scope.
Local Open Scope Z_scope.

(* ===================================================================== *)
(** ** Calendar arithmetic on timestamps *)
(* ===================================================================== *)

Module Calendar.

Definition ns_per_day : Z := 86400 * 1000000000.

(** [Timedelta.days]: whole days, rounded towards minus infinity. *)
Definition days_of_ns (ns : Z) : Z := ns / ns_per_day.

(** Proleptic Gregorian date of a day number counted from 1970-01-01. *)
Definition civil_from_days (d : Z) : Z * Z * Z :=
  let z := d + 719468 in
  let era := z / 146097 in
  let doe := z - era * 146097 in
  let yoe := (doe - doe / 1460 + doe / 36524 - doe / 146096) / 365 in
  let doy := doe - (365 * yoe + yoe / 4 - yoe / 100) in
  let mp := (5 * doy + 2) / 153 in
  let day := doy - (153 * mp + 2) / 5 + 1 in
  let m := if mp <? 10 then mp + 3 else mp - 9 in
  let y := yoe + era * 400 + (if m <=? 2 then 1 else 0) in
  (y, m, day).

Definition days_from_civil (y m d : Z) : Z :=
  let y' := if m <=? 2 then y - 1 else y in
  let era := y' / 400 in
  let yoe := y' - era * 400 in
  let mp := if 2 <? m then m - 3 else m + 9 in
  let doy := (153 * mp + 2) / 5 + d - 1 in
  let doe := yoe * 365 + yoe / 4 - yoe / 100 + doy in
  era * 146097 + doe - 719468.

(** A timestamp written as a civil date and a time of day. *)
Definition mk_ts (y m d hh mm ss : Z) : Z :=
  (days_from_civil y m d * 86400 + hh * 3600 + mm * 60 + ss) * 1000000000.

(** The month a timestamp falls in, as [12 * year + (month - 1)].
    [pd.Grouper(freq='M')] labels the bin with the last day of that
    month; the bin itself is the calendar month. *)
Definition month_index (ts : Z) : Z :=
  let '(y, m, _) := civil_from_days (days_of_ns ts) in 12 * y + (m - 1).

Definition month_of_year_month (y m : Z) : Z := 12 * y + (m - 1).

End Calendar.

(* ===================================================================== *)
(** ** The order-line table *)
(* ===================================================================== *)

Record OrderLine : Type := mkOrderLine {
  order_id : string;
  customer_id : string;
  product_category_name_english : string;
  price : Q;
  payment_type : string;
  payment_value : Q;
  review_score : option Z;
  order_purchase_timestamp : option Z;
  order_approved_at : option Z;
  order_delivered_carrier_date : option Z;
  order_delivered_customer_date : option Z;
  order_estimated_delivery_date : option Z;
  customer_state : string
}.

Record DataFrame : Type := mkDataFrame {
  has_review_score : bool;
  rows : list OrderLine
}.

(* ===================================================================== *)
(** ** Series reductions *)
(* ===================================================================== *)

(** [Series.nunique()] on a populated string column. *)
Definition nunique (l : list string) : nat := List.length (nodup string_dec l).

(** [Series.sum()]: the cells are added in row order, starting from 0. *)
Definition qsum (l : list Q) : Q := fold_left Qplus l 0%Q.

(** [Series.max()] on a timestamp column: [NaT] cells are skipped, and
    the result is [NaT] when no cell is left. *)
Definition ts_max2 (acc x : option Z) : option Z :=
  match acc, x with
  | Some a, Some b => Some (Z.max a b)
  | Some a, None => Some a
  | None, _ => x
  end.

Definition ts_max (l : list (option Z)) : option Z := fold_left ts_max2 l None.

(** [Series.min()], [Series.max()] and [Series.mean()] on a float column:
    [None] is the [NaN] an empty column gives. *)
Definition q_min (a b : Q) : Q := if Qle_bool a b then a else b.
Definition q_max (a b : Q) : Q := if Qle_bool a b then b else a.

Definition qmin_list (l : list Q) : option Q :=
  match l with
  | [] => None
  | x :: l' => Some (fold_left q_min l' x)
  end.

Definition qmax_list (l : list Q) : option Q :=
  match l with
  | [] => None
  | x :: l' => Some (fold_left q_max l' x)
  end.

Definition qmean (l : list Q) : option Q :=
  match l with
  | [] => None
  | _ :: _ => Some (qsum l / inject_Z (Z.of_nat (List.length l)))%Q
  end.

(* ===================================================================== *)
(** ** [groupby] on a string key and [sort_values] *)
(* ===================================================================== *)

Section GroupBy.

Context {A : Type}.
Variable key : A -> string.

(** One row enters the group of its key.  Groups are kept in
    increasing key order (the default [sort=True]); inside a group the
    rows keep their order in the frame. *)
Fixpoint bucket_add (r : A) (gs : list (string * list A))
  : list (string * list A) :=
  match gs with
  | [] => [(key r, [r])]
  | (k, g) :: gs' =>
      match String.compare (key r) k with
      | Eq => (k, g ++ [r]) :: gs'
      | Lt => (key r, [r]) :: gs
      | Gt => (k, g) :: bucket_add r gs'
      end
  end.

Definition groupby_from (gs : list (string * list A)) (l : list A)
  : list (string * list A) :=
  fold_left (fun acc r => bucket_add r acc) l gs.

Definition groupby (l : list A) : list (string * list A) :=
  groupby_from [] l.

(** The rows of a frame that carry key [k], in frame order. *)
Definition rows_with (k : string) (l : list A) : list A :=
  filter (fun r => key r =? k)%string l.

End GroupBy.

Section SortValues.

Context {A : Type}.
Variable le : A -> A -> bool.

Fixpoint insert_sorted (x : A) (l : list A) : list A :=
  match l with
  | [] => [x]
  | y :: l' => if le x y then x :: l else y :: insert_sorted x l'
  end.

(** Ascending sort.  Rows with equal keys are left here in their
    relative order; pandas does not promise an order among them. *)
Definition sort_ascending (l : list A) : list A :=
  fold_right insert_sorted [] l.

(** [sort_values(ascending=...)].  For a descending sort pandas
    reverses the rows, sorts them ascending and reverses the result. *)
Definition sort_values (ascending : bool) (l : list A) : list A :=
  if ascending then sort_ascending l else rev (sort_ascending (rev l)).

End SortValues.

(** [DataFrame.head(n)]. *)
Definition head {A : Type} (n : nat) (l : list A) : list A := firstn n l.

(* ===================================================================== *)
(** ** Monthly trend aggregator *)
(* ===================================================================== *)

Module Monthly.
Record Row : Type := mkRow {
  order_date : Z;
  order_count : nat;
  revenue : Q
}.
End Monthly.

Definition purchase_month (r : OrderLine) : option Z :=
  option_map Calendar.month_index (order_purchase_timestamp r).

(** Months of the rows that have a purchase timestamp; rows whose key is
    [NaT] are left out of the grouping. *)
Fixpoint months_present (l : list OrderLine) : list Z :=
  match l with
  | [] => []
  | r :: l' =>
      match purchase_month r with
      | Some m => m :: months_present l'
      | None => months_present l'
      end
  end.

(** The bins of a monthly [Grouper]: every month from the first month
    with data to the last one, months without data included. *)
Definition month_bins (ms : list Z) : list Z :=
  match ms with
  | [] => []
  | m :: ms' =>
      let lo := fold_left Z.min ms' m in
      let hi := fold_left Z.max ms' m in
      map (fun i => lo + Z.of_nat i) (seq 0 (Z.to_nat (hi - lo + 1)))
  end.

Definition in_month (b : Z) (r : OrderLine) : bool :=
  match purchase_month r with
  | Some m => m =? b
  | None => false
  end.

(** The monthly table the call returns; [monthly_data] below says on
    which tables it returns. *)
Definition prepare_monthly_data (df : DataFrame) : list Monthly.Row :=
  map (fun b =>
         let g := filter (in_month b) (rows df) in
         {| Monthly.order_date := b;
            Monthly.order_count := nunique (map order_id g);
            Monthly.revenue := qsum (map price g) |})
      (month_bins (months_present (rows df))).

(* ===================================================================== *)
(** ** Category aggregator *)
(* ===================================================================== *)

Module Category.
Record Stat : Type := mkStat {
  product_category_name_english : string;
  order_count : nat;
  item_count : nat;
  min_price : option Q;
  avg_price : option Q;
  max_price : option Q;
  total_sales : Q
}.
End Category.

(** [df.groupby("product_category_name_english")["price"].sum()]. *)
Definition category_price_sum (df : DataFrame) : list (string * Q) :=
  map (fun kg => (fst kg, qsum (map price (snd kg))))
      (groupby product_category_name_english (rows df)).

Definition le_by_price (a b : string * Q) : bool := Qle_bool (snd a) (snd b).

Definition le_by_total_sales (a b : Category.Stat) : bool :=
  Qle_bool (Category.total_sales a) (Category.total_sales b).

Definition category_agg (df : DataFrame) : list Category.Stat :=
  map (fun kg =>
         let prices := map price (snd kg) in
         {| Category.product_category_name_english := fst kg;
            Category.order_count := nunique (map order_id (snd kg));
            Category.item_count := List.length prices;
            Category.min_price := qmin_list prices;
            Category.avg_price := qmean prices;
            Category.max_price := qmax_list prices;
            Category.total_sales := qsum prices |})
      (groupby product_category_name_english (rows df)).

Definition top_categories (df : DataFrame) : list (string * Q) :=
  head 10 (sort_values le_by_price false (category_price_sum df)).

Definition bottom_categories (df : DataFrame) : list (string * Q) :=
  head 10 (sort_values le_by_price true (category_price_sum df)).

Definition category_stats (df : DataFrame) : list Category.Stat :=
  sort_values le_by_total_sales false (category_agg df).

Definition prepare_category_data (df : DataFrame)
  : list (string * Q) * list (string * Q) * list Category.Stat :=
  (top_categories df, bottom_categories df, category_stats df).

(* ===================================================================== *)
(** ** Customer RFM aggregator *)
(* ===================================================================== *)

Module Rfm.
(** The grouped frame before the recency column is added. *)
Record Agg : Type := mkAgg {
  agg_customer_id : string;
  last_purchase_date : option Z;
  agg_frequency : nat;
  agg_monetary : Q
}.

Record Row : Type := mkRow {
  customer_id : string;
  frequency : nat;
  monetary : Q;
  recency : option Z
}.
End Rfm.

Definition rfm_agg (df : DataFrame) : list Rfm.Agg :=
  map (fun kg =>
         {| Rfm.agg_customer_id := fst kg;
            Rfm.last_purchase_date :=
              ts_max (map order_purchase_timestamp (snd kg));
            Rfm.agg_frequency := nunique (map order_id (snd kg));
            Rfm.agg_monetary := qsum (map price (snd kg)) |})
      (groupby customer_id (rows df)).

(** [(recent_date - x).days]; the difference with a [NaT] is [NaT], whose
    [days] is [NaN]. *)
Definition days_between (recent_date x : option Z) : option Z :=
  match recent_date, x with
  | Some a, Some b => Some (Calendar.days_of_ns (a - b))
  | _, _ => None
  end.

Definition prepare_rfm_data (df : DataFrame) : list Rfm.Row :=
  let rfm_df := rfm_agg df in
  let recent_date := ts_max (map order_purchase_timestamp (rows df)) in
  map (fun a =>
         {| Rfm.customer_id := Rfm.agg_customer_id a;
            Rfm.frequency := Rfm.agg_frequency a;
            Rfm.monetary := Rfm.agg_monetary a;
            Rfm.recency := days_between recent_date (Rfm.last_purchase_date a) |})
      rfm_df.

(* ===================================================================== *)
(** ** Delivery performance aggregator *)
(* ===================================================================== *)

Module Delivery.
Record Row : Type := mkRow {
  line : OrderLine;
  actual_delivery_time : option Z;
  estimated_delivery_time : option Z;
  delivery_difference : option Z
}.
End Delivery.

(** [dropna(subset=['order_delivered_customer_date'])]. *)
Definition dropna_delivered (l : list OrderLine) : list OrderLine :=
  filter (fun r => match order_delivered_customer_date r with
                   | Some _ => true
                   | None => false
                   end) l.

(** [drop_duplicates(subset=['order_id'])]: the first row of every order
    identifier is kept. *)
Fixpoint drop_duplicates_from (seen : list string) (l : list OrderLine)
  : list OrderLine :=
  match l with
  | [] => []
  | r :: l' =>
      if existsb (String.eqb (order_id r)) seen
      then drop_duplicates_from seen l'
      else r :: drop_duplicates_from (order_id r :: seen) l'
  end.

Definition drop_duplicates (l : list OrderLine) : list OrderLine :=
  drop_duplicates_from [] l.

(** Subtraction of two numeric cells; [NaN] propagates. *)
Definition cell_sub (a b : option Z) : option Z :=
  match a, b with
  | Some x, Some y => Some (x - y)
  | _, _ => None
  end.

Definition prepare_delivery_data (df : DataFrame) : list Delivery.Row :=
  let orders_delivery_df := drop_duplicates (dropna_delivered (rows df)) in
  map (fun r =>
         let actual :=
           days_between (order_delivered_customer_date r)
                        (order_purchase_timestamp r) in
         let estimated :=
           days_between (order_estimated_delivery_date r)
                        (order_purchase_timestamp r) in
         {| Delivery.line := r;
            Delivery.actual_delivery_time := actual;
            Delivery.estimated_delivery_time := estimated;
            Delivery.delivery_difference := cell_sub estimated actual |})
      orders_delivery_df.

(* ===================================================================== *)
(** ** Overview metrics and the payment breakdown *)
(* ===================================================================== *)

Definition total_orders (all_df : DataFrame) : nat :=
  nunique (map order_id (rows all_df)).

Definition total_revenue (all_df : DataFrame) : Q :=
  qsum (map price (rows all_df)).

(** [delivery_data['delivery_difference'] >= 0]: a comparison with [NaN]
    is [False]. *)
Definition ge0 (c : option Z) : bool :=
  match c with
  | Some d => 0 <=? d
  | None => false
  end.

(** Sum and mean of a boolean series ([True] counts 1); the mean of an
    empty series is [NaN]. *)
Definition bool_sum (l : list bool) : Z :=
  fold_left (fun acc (b : bool) => if b then acc + 1 else acc) l 0.

Definition bool_mean (l : list bool) : option Q :=
  match l with
  | [] => None
  | _ :: _ => Some (inject_Z (bool_sum l) / inject_Z (Z.of_nat (List.length l)))%Q
  end.

Definition on_time_delivery_rate (delivery_data : list Delivery.Row)
  : option Q :=
  option_map (fun m => (m * 100)%Q)
    (bool_mean (map (fun d => ge0 (Delivery.delivery_difference d))
                    delivery_data)).

Module Payment.
Record Row : Type := mkRow {
  payment_type : string;
  order_id : nat;
  payment_value : Q
}.
End Payment.

Definition payment_methods (all_df : DataFrame) : list Payment.Row :=
  map (fun kg =>
         {| Payment.payment_type := fst kg;
            Payment.order_id := nunique (map order_id (snd kg));
            Payment.payment_value := qsum (map payment_value (snd kg)) |})
      (groupby payment_type (rows all_df)).

(* ===================================================================== *)
(** ** Exceptions *)
(* ===================================================================== *)

(** A Python exception, identified by the name of its class. *)
Inductive Exn : Type := exception (class_name : string).

Inductive Result (A : Type) : Type :=
| Ok (a : A)
| Raise (e : Exn).

Arguments Ok {A} a.
Arguments Raise {A} e.

Definition bind {A B : Type} (m : Result A) (k : A -> Result B) : Result B :=
  match m with
  | Ok a => k a
  | Raise e => Raise e
  end.

Notation "x <- m ;; k" := (bind m (fun x => k))
  (at level 61, m at next level, right associativity).

(* ===================================================================== *)
(** ** Review scores *)
(* ===================================================================== *)

(** [all_df['review_score']]: a [KeyError] when the column is missing. *)
Definition get_review_score (all_df : DataFrame) : Result (list (option Z)) :=
  if has_review_score all_df
  then Ok (map review_score (rows all_df))
  else Raise (exception "KeyError").

Fixpoint dropna {A : Type} (l : list (option A)) : list A :=
  match l with
  | [] => []
  | Some v :: l' => v :: dropna l'
  | None :: l' => dropna l'
  end.

(** Distinct values in order of first appearance. *)
Fixpoint unique_from (seen l : list Z) : list Z :=
  match l with
  | [] => []
  | x :: l' =>
      if existsb (Z.eqb x) seen
      then unique_from seen l'
      else x :: unique_from (x :: seen) l'
  end.

Definition le_by_count (a b : Z * nat) : bool := Nat.leb (snd a) (snd b).
Definition le_by_score (a b : Z * nat) : bool := Z.leb (fst a) (fst b).

(** [Series.value_counts()]: the non-null values with the number of rows
    that hold them, most frequent first. *)
Definition value_counts (col : list (option Z)) : list (Z * nat) :=
  let vs := dropna col in
  sort_values le_by_count false
    (map (fun v => (v, count_occ Z.eq_dec vs v)) (unique_from [] vs)).

(** [pd.DataFrame({'score': range(1, 6), 'count': [0, 0, 0, 0, 0]})]. *)
Definition placeholder_distribution : list (Z * nat) :=
  combine (map Z.of_nat (seq 1 5)) [0%nat; 0%nat; 0%nat; 0%nat; 0%nat].

(** Lines 128-134: [review_distribution] and [avg_review_score]. *)
Definition review_block (all_df : DataFrame)
  : Result (list (Z * nat) * option Q) :=
  if has_review_score all_df then
    col <- get_review_score all_df ;;
    col' <- get_review_score all_df ;;
    Ok (value_counts col, qmean (map inject_Z (dropna col')))
  else
    Ok (placeholder_distribution, Some 0%Q).

(* ===================================================================== *)
(** ** Data loader *)
(* ===================================================================== *)

(** What [pd.read_csv('main_data.csv')] finds on disk.  [Parsed] holds
    the table of a file with a header line, which may have no data row;
    its timestamp cells stand for the text of the cell, blank or a
    well-formed date. *)
Inductive CsvFile : Type :=
| Missing
| Unreadable
| NoColumns
| Parsed (df : DataFrame).

Definition read_csv (file : CsvFile) : Result DataFrame :=
  match file with
  | Missing => Raise (exception "FileNotFoundError")
  | Unreadable => Raise (exception "PermissionError")
  | NoColumns => Raise (exception "EmptyDataError")
  | Parsed df => Ok df
  end.

(** [pd.to_datetime] on one cell: a blank cell becomes [NaT].  The dates
    of the file are taken to lie in the range of [datetime64[ns]]. *)
Definition to_datetime (cell : option Z) : option Z :=
  match cell with
  | Some ns => Some ns
  | None => None
  end.

Definition convert_datetime_columns (r : OrderLine) : OrderLine :=
  {| order_id := order_id r;
     customer_id := customer_id r;
     product_category_name_english := product_category_name_english r;
     price := price r;
     payment_type := payment_type r;
     payment_value := payment_value r;
     review_score := review_score r;
     order_purchase_timestamp := to_datetime (order_purchase_timestamp r);
     order_approved_at := to_datetime (order_approved_at r);
     order_delivered_carrier_date := to_datetime (order_delivered_carrier_date r);
     order_delivered_customer_date := to_datetime (order_delivered_customer_date r);
     order_estimated_delivery_date := to_datetime (order_estimated_delivery_date r);
     customer_state := customer_state r |}.

Definition load_data (file : CsvFile) : Result DataFrame :=
  df <- read_csv file ;;
  Ok {| has_review_score := has_review_score df;
        rows := map convert_datetime_columns (rows df) |}.

Definition DataLoadError : Exn := exception "DataLoadError".

(* ===================================================================== *)
(** ** The script: tables and metrics computed before a section is drawn *)
(* ===================================================================== *)

(** Line 110.  The call [prepare_monthly_data(all_df)] returns the
    monthly table except on a table that has rows none of which has a
    purchase timestamp: there it raises [AttributeError]. *)
Definition monthly_data_returns (all_df : DataFrame) : bool :=
  match rows all_df, months_present (rows all_df) with
  | _ :: _, [] => false
  | _, _ => true
  end.

Definition monthly_data (all_df : DataFrame) : Result (list Monthly.Row) :=
  if monthly_data_returns all_df
  then Ok (prepare_monthly_data all_df)
  else Raise (exception "AttributeError").

(** Line 118: [avg_order_value = total_revenue / total_orders], a
    division of two scalars.  The order count is zero only for a table
    without rows; [read_csv] types the columns of such a table as
    objects, both operands are then Python integers and the division
    raises. *)
Definition avg_order_value (all_df : DataFrame) : Result Q :=
  match total_orders all_df with
  | O => Raise (exception "ZeroDivisionError")
  | S _ =>
      Ok (total_revenue all_df / inject_Z (Z.of_nat (total_orders all_df)))%Q
  end.

(** Lines 110-125.  The category, RFM and delivery tables, the two
    totals, the on-time rate and the payment breakdown are computed
    between the two steps below; none of them raises. *)
Definition prepare_block (all_df : DataFrame)
  : Result (list Monthly.Row * Q) :=
  monthly <- monthly_data all_df ;;
  avg <- avg_order_value all_df ;;
  Ok (monthly, avg).

(* ===================================================================== *)
(** ** The script: what is put on the page *)
(* ===================================================================== *)

Inductive NavSection : Type :=
| Overview
| SalesRevenueTrends
| ProductCategoryAnalysis
| CustomerAnalysis
| AdditionalInsights.

(** The Streamlit calls of the script, in the order they are made.  A
    chart is named by its title; the review charts carry their data. *)
Inductive Element : Type :=
| set_page_config
| spinner
| title
| markdown
| sidebar_radio
| header (section : NavSection)
| subheader (text : string)
| metric (label : string)
| date_input
| multiselect
| selectbox (label : string)
| plotly_chart (chart_title : string)
| dataframe
| overview_review_chart (data : list (Z * nat)) (average : option Q)
| insights_review_chart (data : list (Z * nat)).

(** Lines 185-198. *)
Definition render_overview_reviews
  (review_distribution : list (Z * nat)) (avg_review_score : option Q)
  : list Element :=
  [ subheader "Customer Review Scores";
    overview_review_chart (sort_values le_by_score true review_distribution)
                          avg_review_score ].

(** Lines 504-523. *)
Definition render_insights_reviews
  (all_df : DataFrame) (review_distribution : list (Z * nat))
  : list Element :=
  if has_review_score all_df then
    [ subheader "Customer Review Analysis";
      insights_review_chart (sort_values le_by_score true review_distribution) ]
  else [].

Definition render_section (options : NavSection) (all_df : DataFrame)
  (review_distribution : list (Z * nat)) (avg_review_score : option Q)
  : list Element :=
  match options with
  | Overview =>
      [ header Overview;
        metric "Total Orders"; metric "Total Revenue";
        metric "Avg. Order Value"; metric "On-time Delivery";
        subheader "Top 5 Product Categories";
        plotly_chart "Best Performing Categories";
        subheader "Payment Methods";
        plotly_chart "Orders by Payment Method" ]
      ++ render_overview_reviews review_distribution avg_review_score
  | SalesRevenueTrends =>
      [ header SalesRevenueTrends;
        subheader "Select Time Period"; date_input;
        subheader "Monthly Order Count";
        plotly_chart "Number of Orders per Month";
        subheader "Monthly Revenue";
        plotly_chart "Total Revenue per Month";
        subheader "Average Order Value";
        plotly_chart "Average Order Value per Month" ]
  | ProductCategoryAnalysis =>
      [ header ProductCategoryAnalysis;
        subheader "Top Performing Categories";
        plotly_chart "Best Performing Categories by Total Sales";
        subheader "Worst Performing Categories";
        plotly_chart "Worst Performing Categories by Total Sales";
        subheader "Category Performance Details";
        multiselect; dataframe ]
  | CustomerAnalysis =>
      [ header CustomerAnalysis;
        subheader "Customer Distribution by State";
        plotly_chart "Number of Customers by State (Top 10)";
        subheader "Customer RFM Analysis";
        metric "Avg. Recency (days)";
        subheader "Top Customers by Recency";
        plotly_chart "Top 5 Customers by Recency (Lower is Better)";
        metric "Avg. Frequency (orders)";
        subheader "Top Customers by Frequency";
        plotly_chart "Top 5 Customers by Order Frequency";
        metric "Avg. Monetary Value";
        subheader "Top Customers by Spending";
        plotly_chart "Top 5 Customers by Total Spending";
        subheader "RFM Relationship";
        selectbox "Select X-axis"; selectbox "Select Y-axis";
        plotly_chart "Relationship between the selected axes" ]
  | AdditionalInsights =>
      [ header AdditionalInsights;
        subheader "Delivery Performance";
        metric "On-time Delivery Rate";
        plotly_chart "Average Delivery Times";
        plotly_chart "Delivery Performance (Estimated vs. Actual)";
        subheader "Payment Method Analysis";
        plotly_chart "Orders by Payment Method";
        plotly_chart "Revenue by Payment Method" ]
      ++ render_insights_reviews all_df review_distribution
  end.

(** The page elements that belong to the dashboard proper: everything
    but the page configuration and the loading spinner. *)
Definition is_dashboard_element (e : Element) : bool :=
  match e with
  | set_page_config | spinner => false
  | _ => true
  end.

(** The whole script.  It returns what was put on the page and whether
    the run ended normally.  No exception is caught anywhere: one raised
    by [read_csv], by the tables and metrics of lines 110-125 or by the
    look-up of the review column ends the run with what is on the page
    at that point. *)
Definition main (file : CsvFile) (options : NavSection)
  : list Element * Result unit :=
  let shown := [set_page_config; spinner] in
  match load_data file with
  | Raise e => (shown, Raise e)
  | Ok all_df =>
      let shown := shown ++ [title; markdown; sidebar_radio] in
      match prepare_block all_df with
      | Raise e => (shown, Raise e)
      | Ok _ =>
          match review_block all_df with
          | Raise e => (shown, Raise e)
          | Ok (review_distribution, avg_review_score) =>
              (shown
                 ++ render_section options all_df review_distribution
                                   avg_review_score
                 ++ [markdown; markdown],
               Ok tt)
          end
      end
  end.

(* ===================================================================== *)
(** ** [st.cache_data] *)
(* ===================================================================== *)

Definition Q_eq_dec (a b : Q) : {a = b} + {a <> b}.
Proof. decide equality; [apply Pos.eq_dec | apply Z.eq_dec]. Defined.

Definition OrderLine_eq_dec (a b : OrderLine) : {a = b} + {a <> b}.
Proof.
  decide equality;
    try apply string_dec; try apply Q_eq_dec;
    try (decide equality; apply Z.eq_dec).
Defined.

Definition DataFrame_eq_dec (a b : DataFrame) : {a = b} + {a <> b}.
Proof.
  decide equality; [apply (list_eq_dec OrderLine_eq_dec) | apply bool_dec].
Defined.

Section CacheData.

Context {Out : Type}.
Variable f : DataFrame -> Out.

(** The memo table of one decorated function: the frames it was
    called on, each with the table computed for it. *)
Definition Cache : Type := list (DataFrame * Out).

Fixpoint cache_lookup (df : DataFrame) (c : Cache) : option Out :=
  match c with
  | [] => None
  | (k, v) :: c' =>
      if DataFrame_eq_dec k df then Some v else cache_lookup df c'
  end.

(** A call of the decorated function: a hit returns the stored table,
    a miss runs the function and stores its result. *)
Definition cache_data (c : Cache) (df : DataFrame) : Out * Cache :=
  match cache_lookup df c with
  | Some v => (v, c)
  | None => let v := f df in (v, (df, v) :: c)
  end.

(** Every stored table is the one the function computes for its key. *)
Definition coherent (c : Cache) : Prop :=
  forall k v, In (k, v) c -> v = f k.

(** The memo table after the calls of a session, oldest first. *)
Definition cache_after (calls : list DataFrame) : Cache :=
  fold_left (fun c df => snd (cache_data c df)) calls [].

End CacheData.

(* ===================================================================== *)
(** ** The aggregators as they run: frames as objects *)
(* ===================================================================== *)

(** A pandas frame is an object.  A method such as [dropna],
    [sort_values] or [reset_index] returns a new frame; an assignment to
    a column, an assignment to [columns] and a call with [inplace=True]
    change the frame they are applied to.  The functions above give the
    table each aggregator computes.  Here the body of each aggregator is
    followed statement by statement on a store of frames, so that what a
    call changes, and what a second call finds, can be stated. *)

Definition Ref : Type := nat.

(** The frames the aggregators handle.  An [OrderFrame] holds the
    columns of the file and, once they have been assigned, the three
    columns the delivery aggregator adds.  A [MonthlyFrame] has its
    [month_name] column once it has been assigned; an [RfmFrame] has its
    [last_purchase_date] column until it is dropped and its [recency]
    column once it has been assigned. *)
Inductive Frame : Type :=
| OrderFrame (df : DataFrame)
    (actual_delivery_time estimated_delivery_time delivery_difference
       : option (list (option Z)))
| MonthlyFrame (l : list Monthly.Row) (month_name : option (list string))
| PriceFrame (l : list (string * Q))
| StatsFrame (l : list Category.Stat)
| RfmFrame (l : list Rfm.Agg) (last_purchase_date : bool)
    (recency : option (list (option Z))).

(** The store: the frame behind every reference handed out so far. *)
Definition Store : Type := list Frame.

Definition St (A : Type) : Type := Store -> Result (A * Store).

Definition ret {A : Type} (a : A) : St A := fun s => Ok (a, s).

Definition lift {A : Type} (m : Result A) : St A :=
  fun s => match m with
           | Ok a => Ok (a, s)
           | Raise e => Raise e
           end.

Definition bind_st {A B : Type} (m : St A) (k : A -> St B) : St B :=
  fun s => match m s with
           | Ok (a, s') => k a s'
           | Raise e => Raise e
           end.

Notation "x <~ m ;; k" := (bind_st m (fun x => k))
  (at level 61, m at next level, right associativity).

Fixpoint store_update (r : Ref) (f : Frame) (s : Store) : option Store :=
  match s, r with
  | [], _ => None
  | _ :: s', O => Some (f :: s')
  | g :: s', S r' => option_map (cons g) (store_update r' f s')
  end.

Definition new_frame (f : Frame) : St Ref :=
  fun s => Ok (List.length s, s ++ [f]).

Definition get_frame (r : Ref) : St Frame :=
  fun s => match nth_error s r with
           | Some f => Ok (f, s)
           | None => Raise (exception "ReferenceError")
           end.

Definition set_frame (r : Ref) (f : Frame) : St unit :=
  fun s => match store_update r f s with
           | Some s' => Ok (tt, s')
           | None => Raise (exception "ReferenceError")
           end.

(** A method that returns a new frame. *)
Definition method (m : Frame -> Result Frame) (r : Ref) : St Ref :=
  f <~ get_frame r ;;
  f' <~ lift (m f) ;;
  new_frame f'.

(** An assignment into a frame, or a method called with [inplace=True]. *)
Definition in_place (m : Frame -> Result Frame) (r : Ref) : St unit :=
  f <~ get_frame r ;;
  f' <~ lift (m f) ;;
  set_frame r f'.

(** A reduction of a frame to a scalar. *)
Definition scalar {A : Type} (m : Frame -> Result A) (r : Ref) : St A :=
  f <~ get_frame r ;;
  lift (m f).

(** *** What the pandas calls do to one frame

    A call that names a column the frame does not have raises
    [KeyError]. *)

(** The rows of a column that a boolean mask keeps. *)
Definition keep_rows {A : Type} (mask : list bool) (col : list A) : list A :=
  map snd (filter fst (combine mask col)).

Definition delivered (r : OrderLine) : bool :=
  match order_delivered_customer_date r with
  | Some _ => true
  | None => false
  end.

(** [dropna(subset=['order_delivered_customer_date'])]. *)
Definition dropna_frame (f : Frame) : Result Frame :=
  match f with
  | OrderFrame d a e x =>
      let mask := map delivered (rows d) in
      Ok (OrderFrame {| has_review_score := has_review_score d;
                        rows := dropna_delivered (rows d) |}
                     (option_map (keep_rows mask) a)
                     (option_map (keep_rows mask) e)
                     (option_map (keep_rows mask) x))
  | _ => Raise (exception "KeyError")
  end.

(** The mask of [drop_duplicates(subset=['order_id'])]: the first row of
    every order identifier. *)
Fixpoint first_of_order_from (seen : list string) (l : list OrderLine)
  : list bool :=
  match l with
  | [] => []
  | r :: l' =>
      if existsb (String.eqb (order_id r)) seen
      then false :: first_of_order_from seen l'
      else true :: first_of_order_from (order_id r :: seen) l'
  end.

Definition drop_duplicates_frame (f : Frame) : Result Frame :=
  match f with
  | OrderFrame d a e x =>
      let mask := first_of_order_from [] (rows d) in
      Ok (OrderFrame {| has_review_score := has_review_score d;
                        rows := drop_duplicates (rows d) |}
                     (option_map (keep_rows mask) a)
                     (option_map (keep_rows mask) e)
                     (option_map (keep_rows mask) x))
  | _ => Raise (exception "KeyError")
  end.

(** [(f['order_delivered_customer_date'] - f['order_purchase_timestamp']).dt.days]
    assigned to [f['actual_delivery_time']]. *)
Definition set_actual_delivery_time (f : Frame) : Result Frame :=
  match f with
  | OrderFrame d _ e x =>
      Ok (OrderFrame d
            (Some (map (fun r => days_between (order_delivered_customer_date r)
                                              (order_purchase_timestamp r))
                       (rows d)))
            e x)
  | _ => Raise (exception "KeyError")
  end.

Definition set_estimated_delivery_time (f : Frame) : Result Frame :=
  match f with
  | OrderFrame d a _ x =>
      Ok (OrderFrame d a
            (Some (map (fun r => days_between (order_estimated_delivery_date r)
                                              (order_purchase_timestamp r))
                       (rows d)))
            x)
  | _ => Raise (exception "KeyError")
  end.

(** [f['estimated_delivery_time'] - f['actual_delivery_time']] assigned
    to [f['delivery_difference']]: both columns are read from the frame. *)
Definition set_delivery_difference (f : Frame) : Result Frame :=
  match f with
  | OrderFrame d (Some a) (Some e) _ =>
      Ok (OrderFrame d (Some a) (Some e)
            (Some (map (fun ea => cell_sub (fst ea) (snd ea)) (combine e a))))
  | _ => Raise (exception "KeyError")
  end.

(** [groupby(pd.Grouper(key='order_purchase_timestamp', freq='M')).agg(...)]. *)
Definition groupby_month_agg (f : Frame) : Result Frame :=
  match f with
  | OrderFrame d _ _ _ =>
      if monthly_data_returns d
      then Ok (MonthlyFrame (prepare_monthly_data d) None)
      else Raise (exception "AttributeError")
  | _ => Raise (exception "KeyError")
  end.

(** [reset_index()]: the index becomes a column of a new frame.  The
    rows of a frame are kept here with their key, so the rows stay as
    they are. *)
Definition reset_index (f : Frame) : Result Frame := Ok f.

(** An assignment to [columns]: the labels change, the cells do not. *)
Definition set_columns (f : Frame) : Result Frame := Ok f.

Definition month_names : list string :=
  [ "January"; "February"; "March"; "April"; "May"; "June"; "July";
    "August"; "September"; "October"; "November"; "December" ].

(** [strftime('%B %Y')] of the label of a month bin. *)
Definition strftime_B_Y (order_date : Z) : string :=
  nth (Z.to_nat (order_date mod 12)) month_names ""
  ++ " " ++ NilZero.string_of_int (Z.to_int (order_date / 12)).

(** [f['order_date'].dt.strftime('%B %Y')] assigned to [f['month_name']]. *)
Definition set_month_name (f : Frame) : Result Frame :=
  match f with
  | MonthlyFrame l _ =>
      Ok (MonthlyFrame l
            (Some (map (fun row => strftime_B_Y (Monthly.order_date row)) l)))
  | _ => Raise (exception "KeyError")
  end.

(** [groupby("product_category_name_english")["price"].sum()]. *)
Definition groupby_category_price_sum (f : Frame) : Result Frame :=
  match f with
  | OrderFrame d _ _ _ => Ok (PriceFrame (category_price_sum d))
  | _ => Raise (exception "KeyError")
  end.

(** [sort_values(ascending=...)] on the series of sums. *)
Definition sort_values_price (ascending : bool) (f : Frame) : Result Frame :=
  match f with
  | PriceFrame l => Ok (PriceFrame (sort_values le_by_price ascending l))
  | _ => Raise (exception "KeyError")
  end.

(** [head(n)]. *)
Definition head_frame (n : nat) (f : Frame) : Result Frame :=
  match f with
  | OrderFrame d a e x =>
      Ok (OrderFrame {| has_review_score := has_review_score d;
                        rows := head n (rows d) |}
                     (option_map (head n) a) (option_map (head n) e)
                     (option_map (head n) x))
  | MonthlyFrame l names => Ok (MonthlyFrame (head n l) (option_map (head n) names))
  | PriceFrame l => Ok (PriceFrame (head n l))
  | StatsFrame l => Ok (StatsFrame (head n l))
  | RfmFrame l b r => Ok (RfmFrame (head n l) b (option_map (head n) r))
  end.

(** [groupby("product_category_name_english").agg({...})]. *)
Definition groupby_category_agg (f : Frame) : Result Frame :=
  match f with
  | OrderFrame d _ _ _ => Ok (StatsFrame (category_agg d))
  | _ => Raise (exception "KeyError")
  end.

(** [sort_values(by="total_sales", ascending=False)]. *)
Definition sort_values_total_sales (f : Frame) : Result Frame :=
  match f with
  | StatsFrame l => Ok (StatsFrame (sort_values le_by_total_sales false l))
  | _ => Raise (exception "KeyError")
  end.

(** [groupby(by="customer_id", as_index=False).agg({...})]. *)
Definition groupby_customer_agg (f : Frame) : Result Frame :=
  match f with
  | OrderFrame d _ _ _ => Ok (RfmFrame (rfm_agg d) true None)
  | _ => Raise (exception "KeyError")
  end.

(** [f["order_purchase_timestamp"].max()]. *)
Definition purchase_timestamp_max (f : Frame) : Result (option Z) :=
  match f with
  | OrderFrame d _ _ _ => Ok (ts_max (map order_purchase_timestamp (rows d)))
  | _ => Raise (exception "KeyError")
  end.

(** [f["last_purchase_date"].apply(lambda x: (recent_date - x).days)]
    assigned to [f["recency"]]. *)
Definition set_recency (recent_date : option Z) (f : Frame) : Result Frame :=
  match f with
  | RfmFrame l true _ =>
      Ok (RfmFrame l true
            (Some (map (fun a => days_between recent_date
                                              (Rfm.last_purchase_date a)) l)))
  | _ => Raise (exception "KeyError")
  end.

(** [drop("last_purchase_date", axis=1, inplace=True)]. *)
Definition drop_last_purchase_date (f : Frame) : Result Frame :=
  match f with
  | RfmFrame l true r => Ok (RfmFrame l false r)
  | _ => Raise (exception "KeyError")
  end.

(** *** The four aggregators, statement by statement *)

(** Lines 52-60. *)
Definition prepare_monthly_data_st (df : Ref) : St Ref :=
  grouped <~ method groupby_month_agg df ;;
  monthly_orders_df <~ method reset_index grouped ;;
  _ <~ in_place set_columns monthly_orders_df ;;
  _ <~ in_place set_month_name monthly_orders_df ;;
  ret monthly_orders_df.

(** Lines 64-77. *)
Definition prepare_category_data_st (df : Ref) : St (Ref * Ref * Ref) :=
  sums <~ method groupby_category_price_sum df ;;
  sorted <~ method (sort_values_price false) sums ;;
  indexed <~ method reset_index sorted ;;
  top_categories <~ method (head_frame 10) indexed ;;
  sums <~ method groupby_category_price_sum df ;;
  sorted <~ method (sort_values_price true) sums ;;
  indexed <~ method reset_index sorted ;;
  bottom_categories <~ method (head_frame 10) indexed ;;
  category_stats <~ method groupby_category_agg df ;;
  _ <~ in_place set_columns category_stats ;;
  sorted <~ method sort_values_total_sales category_stats ;;
  category_stats <~ method reset_index sorted ;;
  ret (top_categories, bottom_categories, category_stats).

(** Lines 81-95. *)
Definition prepare_rfm_data_st (df : Ref) : St Ref :=
  rfm_df <~ method groupby_customer_agg df ;;
  _ <~ in_place set_columns rfm_df ;;
  recent_date <~ scalar purchase_timestamp_max df ;;
  _ <~ in_place (set_recency recent_date) rfm_df ;;
  _ <~ in_place drop_last_purchase_date rfm_df ;;
  ret rfm_df.

(** Lines 99-107. *)
Definition prepare_delivery_data_st (df : Ref) : St Ref :=
  delivered_df <~ method dropna_frame df ;;
  orders_delivery_df <~ method drop_duplicates_frame delivered_df ;;
  _ <~ in_place set_actual_delivery_time orders_delivery_df ;;
  _ <~ in_place set_estimated_delivery_time orders_delivery_df ;;
  _ <~ in_place set_delivery_difference orders_delivery_df ;;
  ret orders_delivery_df.

(** *** The tables behind the references an aggregator returns *)

Definition monthly_table (s : Store) (r : Ref)
  : option (list Monthly.Row * list string) :=
  match nth_error s r with
  | Some (MonthlyFrame l (Some names)) => Some (l, names)
  | _ => None
  end.

Definition price_table (s : Store) (r : Ref) : option (list (string * Q)) :=
  match nth_error s r with
  | Some (PriceFrame l) => Some l
  | _ => None
  end.

Definition stats_table (s : Store) (r : Ref) : option (list Category.Stat) :=
  match nth_error s r with
  | Some (StatsFrame l) => Some l
  | _ => None
  end.

Definition category_tables (s : Store) (r : Ref * Ref * Ref)
  : option (list (string * Q) * list (string * Q) * list Category.Stat) :=
  let '(top, bottom, stats) := r in
  match price_table s top, price_table s bottom, stats_table s stats with
  | Some t, Some b, Some c => Some (t, b, c)
  | _, _, _ => None
  end.

(** The RFM frame as returned: [last_purchase_date] dropped, [recency]
    in place. *)
Definition rfm_table (s : Store) (r : Ref) : option (list Rfm.Row) :=
  match nth_error s r with
  | Some (RfmFrame l false (Some rec)) =>
      Some (map (fun ar =>
                   {| Rfm.customer_id := Rfm.agg_customer_id (fst ar);
                      Rfm.frequency := Rfm.agg_frequency (fst ar);
                      Rfm.monetary := Rfm.agg_monetary (fst ar);
                      Rfm.recency := snd ar |})
                (combine l rec))
  | _ => None
  end.

(** The delivery frame as returned: the order lines with the three
    added columns. *)
Definition delivery_table (s : Store) (r : Ref) : option (list Delivery.Row) :=
  match nth_error s r with
  | Some (OrderFrame d (Some a) (Some e) (Some x)) =>
      Some (map (fun c =>
                   {| Delivery.line := fst c;
                      Delivery.actual_delivery_time := fst (snd c);
                      Delivery.estimated_delivery_time := fst (snd (snd c));
                      Delivery.delivery_difference := snd (snd (snd c)) |})
                (combine (rows d) (combine a (combine e x))))
  | _ => None
  end.

(** The [month_name] column of the monthly table. *)
Definition month_name_column (df : DataFrame) : list string :=
  map (fun row => strftime_B_Y (Monthly.order_date row))
      (prepare_monthly_data df).

(** Every frame of [s] is still in [s'], behind the same reference and
    with the same cells. *)
Definition frames_kept (s s' : Store) : Prop :=
  forall r f, nth_error s r = Some f -> nth_error s' r = Some f.

(** An aggregator called twice on the frame behind [df]: both calls
    return, each hands out the table [t] (the first one still does after
    the second call), and no frame that existed before a call is changed
    by it. *)
Definition returns_same_table_twice {R V : Type}
           (aggregator : Ref -> St R) (table : Store -> R -> option V)
           (df : Ref) (s : Store) (t : V) : Prop :=
  exists out1 s1 out2 s2,
    aggregator df s = Ok (out1, s1)
    /\ aggregator df s1 = Ok (out2, s2)
    /\ table s1 out1 = Some t
    /\ table s2 out2 = Some t
    /\ table s2 out1 = Some t
    /\ frames_kept s s1
    /\ frames_kept s1 s2.

(* ===================================================================== *)
(** ** Sample tables *)
(* ===================================================================== *)

(** Order O1 has two lines in January 2017 and was delivered early; O2
    (March 2017) was delivered late; O3 (March 2017) is not delivered
    yet and has no review.  February 2017 has no order. *)
Definition line_O1a : OrderLine :=
  {| order_id := "O1"; customer_id := "C1";
     product_category_name_english := "toys"; price := 10%Q;
     payment_type := "credit_card"; payment_value := 15%Q;
     review_score := Some 5;
     order_purchase_timestamp := Some (Calendar.mk_ts 2017 1 5 10 0 0);
     order_approved_at := Some (Calendar.mk_ts 2017 1 5 10 30 0);
     order_delivered_carrier_date := Some (Calendar.mk_ts 2017 1 6 9 0 0);
     order_delivered_customer_date := Some (Calendar.mk_ts 2017 1 12 15 0 0);
     order_estimated_delivery_date := Some (Calendar.mk_ts 2017 1 20 0 0 0);
     customer_state := "SP" |}.

Definition line_O1b : OrderLine :=
  {| order_id := "O1"; customer_id := "C1";
     product_category_name_english := "toys"; price := 5%Q;
     payment_type := "credit_card"; payment_value := 15%Q;
     review_score := Some 5;
     order_purchase_timestamp := Some (Calendar.mk_ts 2017 1 5 10 0 0);
     order_approved_at := Some (Calendar.mk_ts 2017 1 5 10 30 0);
     order_delivered_carrier_date := Some (Calendar.mk_ts 2017 1 6 9 0 0);
     order_delivered_customer_date := Some (Calendar.mk_ts 2017 1 12 15 0 0);
     order_estimated_delivery_date := Some (Calendar.mk_ts 2017 1 20 0 0 0);
     customer_state := "SP" |}.

Definition line_O2 : OrderLine :=
  {| order_id := "O2"; customer_id := "C2";
     product_category_name_english := "toys"; price := 20%Q;
     payment_type := "boleto"; payment_value := 22%Q;
     review_score := Some 4;
     order_purchase_timestamp := Some (Calendar.mk_ts 2017 3 10 8 0 0);
     order_approved_at := Some (Calendar.mk_ts 2017 3 11 8 0 0);
     order_delivered_carrier_date := Some (Calendar.mk_ts 2017 3 13 8 0 0);
     order_delivered_customer_date := Some (Calendar.mk_ts 2017 4 2 12 0 0);
     order_estimated_delivery_date := Some (Calendar.mk_ts 2017 3 25 0 0 0);
     customer_state := "RJ" |}.

Definition line_O3 : OrderLine :=
  {| order_id := "O3"; customer_id := "C3";
     product_category_name_english := "books"; price := 30%Q;
     payment_type := "voucher"; payment_value := 30%Q;
     review_score := None;
     order_purchase_timestamp := Some (Calendar.mk_ts 2017 3 20 18 0 0);
     order_approved_at := None;
     order_delivered_carrier_date := None;
     order_delivered_customer_date := None;
     order_estimated_delivery_date := Some (Calendar.mk_ts 2017 4 10 0 0 0);
     customer_state := "MG" |}.

Definition sample_lines : list OrderLine :=
  [line_O1a; line_O1b; line_O2; line_O3].

Definition sample_df : DataFrame :=
  {| has_review_score := true; rows := sample_lines |}.

(** A line whose purchase timestamp cell is blank. *)
Definition line_O9 : OrderLine :=
  {| order_id := "O9"; customer_id := "C9";
     product_category_name_english := "toys"; price := 10%Q;
     payment_type := "boleto"; payment_value := 10%Q;
     review_score := None;
     order_purchase_timestamp := None;
     order_approved_at := None;
     order_delivered_carrier_date := None;
     order_delivered_customer_date := None;
     order_estimated_delivery_date := None;
     customer_state := "SP" |}.

(** The sample table with one more customer, none of whose lines has a
    purchase timestamp. *)
Definition undated_customer_df : DataFrame :=
  {| has_review_score := true; rows := sample_lines ++ [line_O9] |}.

(** A table in which no order has been delivered yet. *)
Definition undelivered_df : DataFrame :=
  {| has_review_score := true; rows := [line_O3] |}.

(** A file with a header line and no data row. *)
Definition header_only_file : CsvFile :=
  Parsed {| has_review_score := true; rows := [] |}.

(** One customer with purchases ten days apart, the later one being the
    latest purchase of the table. *)
Definition two_purchases_df : DataFrame :=
  {| has_review_score := false;
     rows :=
       [ {| order_id := "A1"; customer_id := "C1";
            product_category_name_english := "toys"; price := 7%Q;
            payment_type := "boleto"; payment_value := 7%Q;
            review_score := None;
            order_purchase_timestamp := Some (Calendar.mk_ts 2018 5 1 9 0 0);
            order_approved_at := None;
            order_delivered_carrier_date := None;
            order_delivered_customer_date := None;
            order_estimated_delivery_date := None;
            customer_state := "SP" |};
         {| order_id := "A2"; customer_id := "C1";
            product_category_name_english := "books"; price := 8%Q;
            payment_type := "boleto"; payment_value := 8%Q;
            review_score := None;
            order_purchase_timestamp := Some (Calendar.mk_ts 2018 5 11 9 0 0);
            order_approved_at := None;
            order_delivered_carrier_date := None;
            order_delivered_customer_date := None;
            order_estimated_delivery_date := None;
            customer_state := "SP" |} ] |}.

(* ===================================================================== *)
(** ** Vocabulary of the statements *)
(* ===================================================================== *)

(** The rows of a frame whose purchase falls in month [b]. *)
Definition falls_in_month (r : OrderLine) (b : Z) : Prop :=
  exists ts, order_purchase_timestamp r = Some ts /\ Calendar.month_index ts = b.

Definition month_lines (df : DataFrame) (b : Z) : list OrderLine :=
  filter (in_month b) (rows df).

(** [n] is the number of distinct cells of [l]. *)
Definition distinct_count (l : list string) (n : nat) : Prop :=
  exists ids, NoDup ids /\ (forall o, In o ids <-> In o l) /\ n = List.length ids.

(** The purchase timestamps of one customer, and of the whole table. *)
Definition purchases_of (df : DataFrame) (c : string) : list (option Z) :=
  map order_purchase_timestamp (rows_with customer_id c (rows df)).

Definition all_purchases (df : DataFrame) : list (option Z) :=
  map order_purchase_timestamp (rows df).

(** Recency is a non-negative number of days for every customer. *)
Definition recency_always_nonnegative (df : DataFrame) : Prop :=
  forall row, In row (prepare_rfm_data df) ->
              exists d, Rfm.recency row = Some d /\ 0 <= d.

(** The retained delivery rows that count as on time. *)
Definition on_time_rows (delivery_data : list Delivery.Row) : list Delivery.Row :=
  filter (fun d => ge0 (Delivery.delivery_difference d)) delivery_data.

(** The on-time rate is the percentage of on-time rows among the
    retained rows, a number between 0 and 100. *)
Definition on_time_rate_is_percentage (df : DataFrame) : Prop :=
  let delivery_data := prepare_delivery_data df in
  exists rate : Q,
    on_time_delivery_rate delivery_data = Some rate
    /\ (rate == 100 * inject_Z (Z.of_nat (List.length (on_time_rows delivery_data)))
                / inject_Z (Z.of_nat (List.length delivery_data)))%Q
    /\ (0 <= rate)%Q /\ (rate <= 100)%Q.

(** The per-category sums ranked in one direction, before [head(10)]. *)
Definition category_ranking (df : DataFrame) (ascending : bool)
  : list (string * Q) :=
  sort_values le_by_price ascending (category_price_sum df).

(** The order lines of one category. *)
Definition lines_of_category (df : DataFrame) (c : string) : list OrderLine :=
  rows_with product_category_name_english c (rows df).

Definition has_zero_rows (file : CsvFile) : Prop :=
  file = NoColumns \/ exists df, file = Parsed df /\ rows df = [].

(** Loading a missing, unreadable or empty file fails with
    [DataLoadError], and nothing of the dashboard is put on the page. *)
Definition load_fails_without_dashboard (file : CsvFile) : Prop :=
  file = Missing \/ file = Unreadable \/ has_zero_rows file ->
  load_data file = Raise DataLoadError
  /\ forall options,
      filter is_dashboard_element (fst (main file options)) = [].


(* ===================================================================== *)
(** ** Customer states *)
(* ===================================================================== *)

Module State.
Record Row : Type := mkRow {
  state : string;
  customer_count : nat
}.
End State.





(* ===================================================================== *)
(** ** Sales and revenue trends: the date-range filter *)
(* ===================================================================== *)

(** The label of a month bin, as pandas shows it: the last day of the
    month, here as a day number counted from 1970-01-01. *)
Definition month_end_day (b : Z) : Z :=
  let y := b / 12 in
  let m := b mod 12 + 1 in
  (if m =? 12
   then Calendar.days_from_civil (y + 1) 1 1
   else Calendar.days_from_civil y (m + 1) 1) - 1.

(** [monthly_data['order_date'].dt.date] of one row. *)
Definition order_date_date (row : Monthly.Row) : Z :=
  month_end_day (Monthly.order_date row).

(** [Series.min()] and [Series.max()] of a column of dates. *)
Definition date_min (l : list Z) : option Z :=
  match l with
  | [] => None
  | d :: l' => Some (fold_left Z.min l' d)
  end.

Definition date_max (l : list Z) : option Z :=
  match l with
  | [] => None
  | d :: l' => Some (fold_left Z.max l' d)
  end.

(** Lines 212-219.  [date_range] is what the date picker returns: no,
    one or two dates. *)
Definition filtered_monthly_data (date_range : list Z)
           (monthly_data : list Monthly.Row) : list Monthly.Row :=
  match date_range with
  | [start_date; end_date] =>
      filter (fun row => (start_date <=? order_date_date row)
                         && (order_date_date row <=? end_date))
             monthly_data
  | _ => monthly_data
  end.




(* ===================================================================== *)
(** ** Product category analysis: the category filter *)
(* ===================================================================== *)

Section CategoryFilter.

(** [Series.round(2)]; its value on a given float is not fixed here. *)
Variable round2 : Q -> Q.

(** Lines 302-304. *)
Definition display_category_stats (stats : list Category.Stat)
  : list Category.Stat :=
  map (fun r =>
         {| Category.product_category_name_english :=
              Category.product_category_name_english r;
            Category.order_count := Category.order_count r;
            Category.item_count := Category.item_count r;
            Category.min_price := Category.min_price r;
            Category.avg_price := option_map round2 (Category.avg_price r);
            Category.max_price := Category.max_price r;
            Category.total_sales := round2 (Category.total_sales r) |})
      stats.

(** [Series.isin(selected_categories)] on one name. *)
Definition isin (selected_categories : list string) (name : string) : bool :=
  existsb (String.eqb name) selected_categories.

(** Lines 313-316: an empty selection shows every category. *)
Definition filtered_stats (selected_categories : list string)
           (stats : list Category.Stat) : list Category.Stat :=
  match selected_categories with
  | [] => display_category_stats stats
  | _ :: _ =>
      filter (fun r => isin selected_categories
                            (Category.product_category_name_english r))
             (display_category_stats stats)
  end.

End CategoryFilter.

(** Line 310: the selection the multi-select starts with. *)
Definition default_selected_categories (stats : list Category.Stat)
  : list string :=
  map Category.product_category_name_english (head 5 stats).

(* ===================================================================== *)
(** ** Customer analysis: top customers and the scatter plot *)
(* ===================================================================== *)

(** A null recency sorts after every number ([na_position='last']). *)
Definition le_by_recency (a b : Rfm.Row) : bool :=
  match Rfm.recency a, Rfm.recency b with
  | Some x, Some y => x <=? y
  | Some _, None => true
  | None, Some _ => false
  | None, None => true
  end.

Definition le_by_frequency (a b : Rfm.Row) : bool :=
  Nat.leb (Rfm.frequency a) (Rfm.frequency b).

Definition le_by_monetary (a b : Rfm.Row) : bool :=
  Qle_bool (Rfm.monetary a) (Rfm.monetary b).

(** Lines 351, 367 and 383. *)
Definition top_recency (rfm_data : list Rfm.Row) : list Rfm.Row :=
  head 5 (sort_values le_by_recency true rfm_data).

Definition top_frequency (rfm_data : list Rfm.Row) : list Rfm.Row :=
  head 5 (sort_values le_by_frequency false rfm_data).

Definition top_monetary (rfm_data : list Rfm.Row) : list Rfm.Row :=
  head 5 (sort_values le_by_monetary false rfm_data).

(** The options of the two axis pickers. *)
Inductive Axis : Type := recency | frequency | monetary.

Definition Axis_eqb (a b : Axis) : bool :=
  match a, b with
  | recency, recency | frequency, frequency | monetary, monetary => true
  | _, _ => false
  end.

(** Lines 408-409. *)
Definition scatter_color (x_axis y_axis : Axis) : Axis :=
  if negb (Axis_eqb y_axis monetary) && negb (Axis_eqb x_axis monetary)
  then monetary else frequency.

Definition scatter_size (x_axis y_axis : Axis) : Axis :=
  if negb (Axis_eqb y_axis frequency) && negb (Axis_eqb x_axis frequency)
  then frequency else monetary.

(* ===================================================================== *)
(** ** Additional insights: the review percentages *)
(* ===================================================================== *)

(** Line 509: [review_distribution['count'].sum()]. *)
Definition total_reviews (review_distribution : list (Z * nat)) : nat :=
  fold_left Nat.add (map snd review_distribution) 0%nat.

(** The non-null cells of the review column. *)
Definition review_scores (all_df : DataFrame) : list Z :=
  dropna (map review_score (rows all_df)).

(** The lines with a purchase timestamp. *)
Definition has_purchase_timestamp (r : OrderLine) : bool :=
  match order_purchase_timestamp r with
  | Some _ => true
  | None => false
  end.

(* ===================================================================== *)
(** ** Proof helpers *)
(* ===================================================================== *)

(** Membership of a row in a table computed from concrete data. *)
Ltac find_row :=
  vm_compute; repeat (first [left; reflexivity | right]).

(* ===================================================================== *)
(** ** Checks of the calendar on known dates *)
(* ===================================================================== *)

Example civil_epoch : Calendar.civil_from_days 0 = (1970, 1, 1).
Proof. reflexivity. Qed.

Example civil_2017_01_01 : Calendar.civil_from_days 17167 = (2017, 1, 1).
Proof. reflexivity. Qed.

Example civil_leap_day : Calendar.civil_from_days (Calendar.days_from_civil 2016 2 29) = (2016, 2, 29).
Proof. reflexivity. Qed.

(** Day numbers and civil dates agree on every seventeenth day from 1970
    to 2039. *)
Example civil_roundtrip_1970_2039 :
  forallb (fun i =>
             let d := 17 * Z.of_nat i in
             let '(y, m, dd) := Calendar.civil_from_days d in
             (Calendar.days_from_civil y m dd =? d)
             && (1 <=? m) && (m <=? 12) && (1 <=? dd) && (dd <=? 31))
          (seq 0 1500)
  = true.
Proof. vm_compute. reflexivity. Qed.

Example month_boundary :
  Calendar.month_index (Calendar.mk_ts 2017 1 31 23 59 59) = Calendar.month_of_year_month 2017 1 /\
  Calendar.month_index (Calendar.mk_ts 2017 2 1 0 0 0) = Calendar.month_of_year_month 2017 2.
Proof. split; reflexivity. Qed.

(* ===================================================================== *)
(** ** Distinct counts *)
(* ===================================================================== *)

Section Nunique.

Lemma nodup_length_le (l : list string) :
  (List.length (nodup string_dec l) <= List.length l)%nat.
Proof.
  induction l as [|x l IH]; simpl; [lia|].
  destruct (in_dec string_dec x l); simpl; lia.
Qed.

Lemma nodup_length_eq (l : list string) :
  List.length (nodup string_dec l) = List.length l -> NoDup l.
Proof.
  induction l as [|x l IH]; simpl; intros H; [constructor|].
  destruct (in_dec string_dec x l) as [Hin|Hnin]; simpl in H.
  - pose proof (nodup_length_le l). lia.
  - constructor; [exact Hnin | apply IH; lia].
Qed.

Lemma nunique_le (l : list string) : (nunique l <= List.length l)%nat.
Proof. apply nodup_length_le. Qed.

Lemma nunique_lt (l : list string) :
  ~ NoDup l -> (nunique l < List.length l)%nat.
Proof.
  intros Hdup. unfold nunique.
  pose proof (nodup_length_le l) as Hle.
  destruct (Nat.eq_dec (List.length (nodup string_dec l)) (List.length l)) as [E|E].
  - exfalso. apply Hdup. now apply nodup_length_eq.
  - lia.
Qed.

(** [nunique] is the size of a duplicate-free enumeration of the cells. *)
Lemma nunique_enumerates (l : list string) :
  exists ids, NoDup ids /\ (forall o, In o ids <-> In o l)
              /\ nunique l = List.length ids.
Proof.
  exists (nodup string_dec l). split; [apply NoDup_nodup|].
  split; [intros o; apply nodup_In | reflexivity].
Qed.

(** Any duplicate-free enumeration of the cells has that size. *)
Lemma nunique_unique (l ids : list string) :
  NoDup ids -> (forall o, In o ids <-> In o l) ->
  nunique l = List.length ids.
Proof.
  intros Hnd Hin. unfold nunique.
  apply Nat.le_antisymm; apply NoDup_incl_length;
    try apply NoDup_nodup; try assumption;
    intros o Ho.
  - apply Hin. now apply nodup_In in Ho.
  - apply nodup_In. now apply Hin.
Qed.

End Nunique.

(* ===================================================================== *)
(** ** Monthly trend aggregator *)
(* ===================================================================== *)

Lemma in_month_iff (b : Z) (r : OrderLine) :
  in_month b r = true <-> falls_in_month r b.
Proof.
  unfold in_month, purchase_month, falls_in_month.
  destruct (order_purchase_timestamp r) as [ts|]; simpl.
  - rewrite Z.eqb_eq. split.
    + intros H. now exists ts.
    + intros [ts' [E H]]. now inversion E; subst.
  - split; [discriminate | intros [ts [E _]]; discriminate].
Qed.

Lemma month_lines_In (df : DataFrame) (b : Z) (r : OrderLine) :
  In r (month_lines df b) <-> In r (rows df) /\ falls_in_month r b.
Proof.
  unfold month_lines. rewrite filter_In. now rewrite in_month_iff.
Qed.

Lemma prepare_monthly_data_row (df : DataFrame) (row : Monthly.Row) :
  In row (prepare_monthly_data df) ->
  Monthly.order_count row
    = nunique (map order_id (month_lines df (Monthly.order_date row)))
  /\ Monthly.revenue row
    = qsum (map price (month_lines df (Monthly.order_date row))).
Proof.
  unfold prepare_monthly_data. rewrite in_map_iff.
  intros [b [<- _]]. simpl. split; reflexivity.
Qed.

(** C1.  In every month bucket of the monthly aggregate the order count
    is the number of distinct order identifiers whose purchase timestamp
    falls in that month: it is the length of any duplicate-free list of
    exactly those identifiers.  It never exceeds the number of order
    lines of the month, and is strictly smaller as soon as one order of
    the month has more than one line. *)
Theorem monthly_order_count_is_distinct_count
  (df : DataFrame) (row : Monthly.Row) :
  In row (prepare_monthly_data df) ->
  (forall ids : list string,
      NoDup ids ->
      (forall o, In o ids <->
                 exists r, In r (rows df) /\ order_id r = o
                           /\ falls_in_month r (Monthly.order_date row)) ->
      Monthly.order_count row = List.length ids)
  /\ (exists ids : list string,
         NoDup ids
         /\ (forall o, In o ids <->
                       exists r, In r (rows df) /\ order_id r = o
                                 /\ falls_in_month r (Monthly.order_date row))
         /\ Monthly.order_count row = List.length ids)
  /\ (Monthly.order_count row
      <= List.length (month_lines df (Monthly.order_date row)))%nat
  /\ (~ NoDup (map order_id (month_lines df (Monthly.order_date row))) ->
      (Monthly.order_count row
       < List.length (month_lines df (Monthly.order_date row)))%nat).
Proof.
  intros Hrow.
  destruct (prepare_monthly_data_row df row Hrow) as [Hcount _].
  set (b := Monthly.order_date row) in *.
  assert (Hmem : forall o,
             In o (map order_id (month_lines df b)) <->
             exists r, In r (rows df) /\ order_id r = o /\ falls_in_month r b).
  { intros o. rewrite in_map_iff. split.
    - intros [r [E Hr]]. apply month_lines_In in Hr. exists r. tauto.
    - intros [r [Hr [E Hm]]]. exists r. split; [exact E|].
      apply month_lines_In. tauto. }
  repeat split.
  - intros ids Hnd Hids. rewrite Hcount. apply nunique_unique; [exact Hnd|].
    intros o. rewrite Hids. symmetry. apply Hmem.
  - destruct (nunique_enumerates (map order_id (month_lines df b)))
      as [ids [Hnd [Hin Hlen]]].
    exists ids. split; [exact Hnd|]. split; [|congruence].
    intros o. rewrite Hin. apply Hmem.
  - rewrite Hcount. etransitivity; [apply nunique_le|].
    now rewrite length_map.
  - intros Hdup. rewrite Hcount.
    rewrite <- (length_map order_id). now apply nunique_lt.
Qed.

Lemma monthly_order_count_is_distinct_count_witness :
  let row := {| Monthly.order_date := Calendar.month_of_year_month 2017 1;
                Monthly.order_count := 1;
                Monthly.revenue := 15%Q |} in
  In row (prepare_monthly_data sample_df)
  /\ List.length (month_lines sample_df (Monthly.order_date row)) = 2%nat
  /\ (Monthly.order_count row
      < List.length (month_lines sample_df (Monthly.order_date row)))%nat.
Proof.
  intros row.
  assert (Hin : In row (prepare_monthly_data sample_df))
    by find_row.
  split; [exact Hin|]. split; [reflexivity|].
  apply (monthly_order_count_is_distinct_count sample_df row Hin).
  vm_compute. intros Hnd. inversion Hnd as [|x l Hx _]; subst.
  apply Hx. left. reflexivity.
Defined.

(** *** Which months get a row *)

Lemma fold_min_le (l : list Z) :
  forall a, fold_left Z.min l a <= a
            /\ forall x, In x l -> fold_left Z.min l a <= x.
Proof.
  induction l as [|y l IH]; intros a; simpl; [split; [lia | tauto]|].
  destruct (IH (Z.min a y)) as [H1 H2]. split; [lia|].
  intros x [<-|Hx]; [lia | now apply H2].
Qed.

Lemma fold_max_ge (l : list Z) :
  forall a, a <= fold_left Z.max l a
            /\ forall x, In x l -> x <= fold_left Z.max l a.
Proof.
  induction l as [|y l IH]; intros a; simpl; [split; [lia | tauto]|].
  destruct (IH (Z.max a y)) as [H1 H2]. split; [lia|].
  intros x [<-|Hx]; [lia | now apply H2].
Qed.

Lemma month_bins_cover (ms : list Z) (m : Z) : In m ms -> In m (month_bins ms).
Proof.
  destruct ms as [|m0 ms]; [tauto|]. intros Hm. unfold month_bins.
  set (lo := fold_left Z.min ms m0). set (hi := fold_left Z.max ms m0).
  assert (Hlo : lo <= m).
  { destruct (fold_min_le ms m0) as [H1 H2].
    destruct Hm as [<-|Hm]; [exact H1 | now apply H2]. }
  assert (Hhi : m <= hi).
  { destruct (fold_max_ge ms m0) as [H1 H2].
    destruct Hm as [<-|Hm]; [exact H1 | now apply H2]. }
  apply in_map_iff. exists (Z.to_nat (m - lo)). split; [lia|].
  apply in_seq. lia.
Qed.

Lemma months_present_In (l : list OrderLine) (r : OrderLine) (m : Z) :
  In r l -> purchase_month r = Some m -> In m (months_present l).
Proof.
  induction l as [|x l IH]; simpl; [tauto|].
  intros [->|Hr] Hm.
  - rewrite Hm. now left.
  - destruct (purchase_month x); [right|]; now apply IH.
Qed.

(** Every line with a purchase timestamp is counted in the row of its
    month. *)
Lemma prepare_monthly_data_covers (df : DataFrame) (r : OrderLine) (ts : Z) :
  In r (rows df) -> order_purchase_timestamp r = Some ts ->
  exists row, In row (prepare_monthly_data df)
              /\ Monthly.order_date row = Calendar.month_index ts
              /\ In r (month_lines df (Monthly.order_date row)).
Proof.
  intros Hr Hts.
  assert (Hm : purchase_month r = Some (Calendar.month_index ts))
    by (unfold purchase_month; now rewrite Hts).
  eexists. split; [|split].
  - unfold prepare_monthly_data. apply in_map.
    apply month_bins_cover. eapply months_present_In; eassumption.
  - reflexivity.
  - simpl. apply month_lines_In. split; [exact Hr|]. now exists ts.
Qed.

(** A month the data skips: no order, so no line and no revenue. *)
Lemma prepare_monthly_data_empty_month (df : DataFrame) (row : Monthly.Row) :
  In row (prepare_monthly_data df) ->
  Monthly.order_count row = 0%nat ->
  month_lines df (Monthly.order_date row) = []
  /\ Monthly.revenue row = 0%Q.
Proof.
  intros Hin Hzero.
  destruct (prepare_monthly_data_row df row Hin) as [Hcount Hrev].
  rewrite Hzero in Hcount.
  assert (E : month_lines df (Monthly.order_date row) = []).
  { destruct (month_lines df (Monthly.order_date row)) as [|r l]; [reflexivity|].
    exfalso. unfold nunique in Hcount.
    assert (Hr : In (order_id r) (nodup string_dec (map order_id (r :: l))))
      by (apply nodup_In; now left).
    destruct (nodup string_dec (map order_id (r :: l))); [exact Hr | discriminate]. }
  split; [exact E|]. rewrite Hrev, E. reflexivity.
Qed.

Example sample_monthly_data :
  prepare_monthly_data sample_df
  = [ {| Monthly.order_date := Calendar.month_of_year_month 2017 1;
         Monthly.order_count := 1; Monthly.revenue := 15%Q |};
      {| Monthly.order_date := Calendar.month_of_year_month 2017 2;
         Monthly.order_count := 0; Monthly.revenue := 0%Q |};
      {| Monthly.order_date := Calendar.month_of_year_month 2017 3;
         Monthly.order_count := 2; Monthly.revenue := 50%Q |} ].
Proof. vm_compute. reflexivity. Qed.

(* ===================================================================== *)
(** ** [groupby]: the groups partition the rows by key *)
(* ===================================================================== *)

Section GroupByFacts.

Context {A : Type}.
Variable key : A -> string.

Local Abbreviation slt := String_as_OT.lt.
Local Abbreviation keys gs := (map fst gs).

Lemma compare_Lt (a b : string) : String.compare a b = Lt -> slt a b.
Proof. apply String_as_OT.cmp_lt. Qed.

Lemma compare_Gt (a b : string) : String.compare a b = Gt -> slt b a.
Proof.
  intros H. apply String_as_OT.cmp_lt. unfold String_as_OT.cmp.
  rewrite String.compare_antisym, H. reflexivity.
Qed.

Lemma slt_neq (a b : string) : slt a b -> a <> b.
Proof. intros H E. exact (String_as_OT.lt_not_eq _ _ H E). Qed.

Lemma rows_with_app (k : string) (l1 l2 : list A) :
  rows_with key k (l1 ++ l2) = rows_with key k l1 ++ rows_with key k l2.
Proof. apply filter_app. Qed.

Lemma rows_with_In (k : string) (l : list A) (r : A) :
  In r (rows_with key k l) <-> In r l /\ key r = k.
Proof.
  unfold rows_with. rewrite filter_In. now rewrite String.eqb_eq.
Qed.

Lemma rows_with_none (k : string) (l : list A) :
  (forall r, In r l -> key r <> k) -> rows_with key k l = [].
Proof.
  intros H. destruct (rows_with key k l) as [|r g] eqn:E; [reflexivity|].
  assert (Hr : In r (rows_with key k l)) by (rewrite E; now left).
  apply rows_with_In in Hr. destruct Hr as [Hr Hk]. now elim (H r Hr).
Qed.

Lemma bucket_add_keys (r : A) (gs : list (string * list A)) (k : string) :
  In k (keys (bucket_add key r gs)) <-> k = key r \/ In k (keys gs).
Proof.
  induction gs as [|[k0 g0] gs IH]; simpl.
  - intuition congruence.
  - destruct (String.compare (key r) k0) eqn:C; simpl.
    + apply String.compare_eq_iff in C. intuition congruence.
    + intuition congruence.
    + rewrite IH. intuition congruence.
Qed.

Lemma bucket_add_sorted (r : A) (gs : list (string * list A)) :
  StronglySorted slt (keys gs) ->
  StronglySorted slt (keys (bucket_add key r gs)).
Proof.
  induction gs as [|[k0 g0] gs IH]; simpl; intros Hs.
  - repeat constructor.
  - apply StronglySorted_inv in Hs. destruct Hs as [Hs Hall].
    destruct (String.compare (key r) k0) eqn:C; simpl.
    + now constructor.
    + apply compare_Lt in C. constructor; [now constructor|].
      constructor; [exact C|].
      eapply Forall_impl; [|exact Hall].
      intros k Hk. eapply String_as_OT.lt_trans; eassumption.
    + apply compare_Gt in C. constructor; [now apply IH|].
      apply Forall_forall. intros k Hk.
      apply bucket_add_keys in Hk. destruct Hk as [->|Hk]; [exact C|].
      rewrite Forall_forall in Hall. now apply Hall.
Qed.

(** Where an entry of the updated grouping comes from. *)
Lemma bucket_add_entry (r : A) (gs : list (string * list A))
      (k : string) (g : list A) :
  StronglySorted slt (keys gs) ->
  In (k, g) (bucket_add key r gs) ->
  (k = key r /\ ((exists g0, In (k, g0) gs /\ g = g0 ++ [r])
                 \/ (~ In k (keys gs) /\ g = [r])))
  \/ (k <> key r /\ In (k, g) gs).
Proof.
  induction gs as [|[k0 g0] gs IH]; simpl; intros Hs Hin.
  - destruct Hin as [E|[]]. inversion E; subst. left. split; [reflexivity|].
    right. split; [tauto | reflexivity].
  - apply StronglySorted_inv in Hs. destruct Hs as [Hs Hall].
    rewrite Forall_forall in Hall.
    destruct (String.compare (key r) k0) eqn:C; simpl in Hin.
    + apply String.compare_eq_iff in C.
      destruct Hin as [E|Hin].
      * inversion E; subst. left. split; [reflexivity|]. left.
        exists g0. split; [now left | reflexivity].
      * right. split; [|now right].
        assert (Hk : In k (keys gs)) by (apply in_map_iff; now exists (k, g)).
        apply Hall in Hk. apply slt_neq in Hk. congruence.
    + apply compare_Lt in C.
      destruct Hin as [E|Hin].
      * inversion E; subst. left. split; [reflexivity|]. right.
        split; [|reflexivity].
        intros [E'|Hk]; [apply slt_neq in C; congruence|].
        apply Hall in Hk.
        exact (slt_neq _ _ (String_as_OT.lt_trans _ _ _ C Hk) eq_refl).
      * right. split; [|exact Hin].
        destruct Hin as [E|Hin].
        -- inversion E; subst. intros E'. apply slt_neq in C. congruence.
        -- assert (Hk : In k (keys gs))
             by (apply in_map_iff; now exists (k, g)).
           apply Hall in Hk. intros E'. subst k.
           exact (slt_neq _ _ (String_as_OT.lt_trans _ _ _ C Hk) eq_refl).
    + apply compare_Gt in C.
      destruct Hin as [E|Hin].
      * inversion E; subst. right. split; [|now left].
        now apply slt_neq.
      * destruct (IH Hs Hin) as [[Ek [[g1 [H1 H2]]|[H1 H2]]]|[Nk H1]].
        -- left. split; [exact Ek|]. left. exists g1. split; [now right | exact H2].
        -- left. split; [exact Ek|]. right. split; [|exact H2].
           intros [E'|Hk]; [|now apply H1].
           subst. simpl in C. now apply slt_neq in C.
        -- right. split; [exact Nk | now right].
Qed.

(** The grouping [gs] is the grouping of the rows [l]. *)
Record grouped (gs : list (string * list A)) (l : list A) : Prop := {
  grouped_sorted : StronglySorted slt (keys gs);
  grouped_rows : forall k g, In (k, g) gs -> g = rows_with key k l /\ g <> [];
  grouped_keys : forall r, In r l -> In (key r) (keys gs)
}.

Lemma grouped_nil : grouped [] [].
Proof. split; simpl; [constructor | tauto | tauto]. Qed.

Lemma grouped_add (gs : list (string * list A)) (l : list A) (r : A) :
  grouped gs l -> grouped (bucket_add key r gs) (l ++ [r]).
Proof.
  intros [Hs Hrows Hkeys]. split.
  - now apply bucket_add_sorted.
  - intros k g Hin. rewrite rows_with_app.
    destruct (bucket_add_entry r gs k g Hs Hin)
      as [[Ek [[g0 [H0 ->]]|[Hnone ->]]]|[Nk H0]].
    + destruct (Hrows k g0 H0) as [-> _]. subst k. split.
      * unfold rows_with at 3. simpl. now rewrite String.eqb_refl.
      * intros E. apply app_eq_nil in E. destruct E; discriminate.
    + subst k. split; [|discriminate].
      rewrite rows_with_none.
      * unfold rows_with. simpl. now rewrite String.eqb_refl.
      * intros r' Hr' E. apply Hnone. rewrite <- E. now apply Hkeys.
    + destruct (Hrows k g H0) as [-> Hne]. split; [|exact Hne].
      unfold rows_with at 3. simpl.
      destruct (String.eqb_spec (key r) k) as [E|_]; [congruence|].
      now rewrite app_nil_r.
  - intros r' Hr'. apply bucket_add_keys.
    apply in_app_or in Hr'. destruct Hr' as [Hr'|[->|[]]]; [right | now left].
    now apply Hkeys.
Qed.

Lemma grouped_from (l2 : list A) :
  forall gs l1, grouped gs l1 -> grouped (groupby_from key gs l2) (l1 ++ l2).
Proof.
  induction l2 as [|r l2 IH]; intros gs l1 H; simpl.
  - now rewrite app_nil_r.
  - replace (l1 ++ r :: l2) with ((l1 ++ [r]) ++ l2)
      by (now rewrite <- app_assoc).
    apply IH. now apply grouped_add.
Qed.

Lemma groupby_grouped (l : list A) : grouped (groupby key l) l.
Proof. exact (grouped_from l [] [] grouped_nil). Qed.

Lemma groupby_rows (l : list A) (k : string) (g : list A) :
  In (k, g) (groupby key l) -> g = rows_with key k l.
Proof. intros H. now apply (grouped_rows _ _ (groupby_grouped l)). Qed.

Lemma groupby_key_of_row (l : list A) (k : string) (g : list A) :
  In (k, g) (groupby key l) -> exists r, In r l /\ key r = k.
Proof.
  intros H. destruct (grouped_rows _ _ (groupby_grouped l) k g H) as [-> Hne].
  destruct (rows_with key k l) as [|r g'] eqn:E; [congruence|].
  exists r. apply (rows_with_In k l r). rewrite E. now left.
Qed.

Lemma groupby_has_key (l : list A) (r : A) :
  In r l -> In (key r, rows_with key (key r) l) (groupby key l).
Proof.
  intros Hr.
  pose proof (grouped_keys _ _ (groupby_grouped l) r Hr) as Hk.
  apply in_map_iff in Hk. destruct Hk as [[k g] [E Hin]]. simpl in E. subst k.
  now rewrite <- (groupby_rows l _ _ Hin).
Qed.

Lemma sorted_keys_NoDup (ks : list string) :
  StronglySorted slt ks -> NoDup ks.
Proof.
  induction 1 as [|k ks Hs IH Hall]; constructor; [|exact IH].
  intros Hin. rewrite Forall_forall in Hall.
  exact (slt_neq _ _ (Hall _ Hin) eq_refl).
Qed.

Lemma groupby_keys_NoDup (l : list A) : NoDup (keys (groupby key l)).
Proof. apply sorted_keys_NoDup. apply (grouped_sorted _ _ (groupby_grouped l)). Qed.

End GroupByFacts.

(** Every row of an aggregate over [groupby] belongs to a key that
    occurs in the frame, and is computed from all the rows of that key. *)
Lemma groupby_map_In {A B : Type} (key : A -> string)
      (f : string * list A -> B) (l : list A) (b : B) :
  In b (map f (groupby key l)) <->
  exists k, (exists r, In r l /\ key r = k) /\ b = f (k, rows_with key k l).
Proof.
  rewrite in_map_iff. split.
  - intros [[k g] [<- Hin]]. exists k. split.
    + eapply groupby_key_of_row; eassumption.
    + now rewrite (groupby_rows key l k g Hin).
  - intros [k [[r [Hr <-]] ->]]. exists (key r, rows_with key (key r) l).
    split; [reflexivity | now apply groupby_has_key].
Qed.

Lemma groupby_map_unique {A B : Type} (key : A -> string)
      (f : string * list A -> B) (kb : B -> string) (l : list A) :
  (forall kg, kb (f kg) = fst kg) ->
  forall b1 b2, In b1 (map f (groupby key l)) -> In b2 (map f (groupby key l)) ->
                kb b1 = kb b2 -> b1 = b2.
Proof.
  intros Hkb b1 b2 H1 H2 E.
  apply groupby_map_In in H1. destruct H1 as [k1 [_ ->]].
  apply groupby_map_In in H2. destruct H2 as [k2 [_ ->]].
  rewrite !Hkb in E. simpl in E. now subst.
Qed.

Lemma distinct_count_nunique (l : list string) : distinct_count l (nunique l).
Proof.
  destruct (nunique_enumerates l) as [ids [H1 [H2 H3]]].
  exists ids. auto.
Qed.

(* ===================================================================== *)
(** ** Payment-method breakdown *)
(* ===================================================================== *)

(** C10.  For every payment type that occurs in the table,
    [payment_methods] has exactly one row; it reports the number of
    distinct order identifiers among the lines paid that way and the sum
    of their [payment_value] cells.  That sum is not the sum of [price]:
    on the sample data the two differ. *)
Theorem payment_methods_by_type (all_df : DataFrame) (t : string) :
  (exists r, In r (rows all_df) /\ payment_type r = t) ->
  let paid := rows_with payment_type t (rows all_df) in
  (exists row,
      In row (payment_methods all_df)
      /\ Payment.payment_type row = t
      /\ (forall row', In row' (payment_methods all_df) ->
                       Payment.payment_type row' = t -> row' = row)
      /\ distinct_count (map order_id paid) (Payment.order_id row)
      /\ Payment.payment_value row = qsum (map payment_value paid))
  /\ (exists df row,
         In row (payment_methods df)
         /\ ~ (Payment.payment_value row
               == qsum (map price (rows_with payment_type
                                             (Payment.payment_type row)
                                             (rows df))))%Q).
Proof.
  intros Hpresent paid. split.
  - set (f := fun kg : string * list OrderLine =>
                {| Payment.payment_type := fst kg;
                   Payment.order_id := nunique (map order_id (snd kg));
                   Payment.payment_value := qsum (map payment_value (snd kg)) |}).
    exists (f (t, paid)). split; [|split; [reflexivity|split]].
    + unfold payment_methods. apply groupby_map_In. exists t. now split.
    + intros row' Hin Ht.
      apply (groupby_map_unique payment_type f Payment.payment_type (rows all_df));
        try assumption; try reflexivity.
      apply groupby_map_In. exists t. now split.
    + split; [apply distinct_count_nunique | reflexivity].
  - exists sample_df.
    exists {| Payment.payment_type := "credit_card";
              Payment.order_id := 1;
              Payment.payment_value := 30%Q |}.
    split; [find_row|].
    vm_compute. discriminate.
Qed.

Lemma payment_methods_by_type_witness :
  (exists r, In r (rows sample_df) /\ payment_type r = "credit_card")
  /\ exists row,
      In row (payment_methods sample_df)
      /\ Payment.payment_type row = "credit_card"
      /\ distinct_count
           (map order_id (rows_with payment_type "credit_card" (rows sample_df)))
           (Payment.order_id row)
      /\ Payment.payment_value row
         = qsum (map payment_value
                     (rows_with payment_type "credit_card" (rows sample_df))).
Proof.
  assert (Hpresent : exists r, In r (rows sample_df)
                               /\ payment_type r = "credit_card").
  { eexists. split; [left; reflexivity | reflexivity]. }
  split; [exact Hpresent|].
  destruct (payment_methods_by_type sample_df "credit_card" Hpresent)
    as [[row [Hin [Ht [_ [Hn Hv]]]]] _].
  exists row. repeat split; assumption.
Defined.

(* ===================================================================== *)
(** ** Customer RFM aggregator *)
(* ===================================================================== *)

Section TsMax.

Lemma ts_max_from (l : list (option Z)) :
  forall acc,
    match fold_left ts_max2 l acc with
    | Some m =>
        (acc = Some m \/ In (Some m) l)
        /\ (forall a, acc = Some a -> a <= m)
        /\ (forall x, In (Some x) l -> x <= m)
    | None => acc = None /\ forall c, In c l -> c = None
    end.
Proof.
  induction l as [|c l IH]; intros acc; simpl.
  - destruct acc as [a|]; [|tauto].
    split; [now left|]. split; [|tauto].
    intros a' E. inversion E. lia.
  - specialize (IH (ts_max2 acc c)).
    destruct (fold_left ts_max2 l (ts_max2 acc c)) as [m|].
    + destruct IH as [Hm [Hacc Hl]].
      destruct acc as [a|], c as [b|]; simpl in *.
      * pose proof (Hacc _ eq_refl) as Hab.
        repeat split.
        -- destruct Hm as [E|Hm]; [|tauto]. inversion E as [E'].
           destruct (Z.max_spec a b) as [[_ ->]|[_ ->]]; auto.
        -- intros a' E. inversion E; subst. lia.
        -- intros x [E|Hx]; [inversion E; subst; lia | now apply Hl].
      * repeat split; try tauto.
        intros x [E|Hx]; [discriminate | now apply Hl].
      * pose proof (Hacc _ eq_refl) as Hb.
        repeat split; try tauto; try discriminate.
        intros x [E|Hx]; [inversion E; subst; exact Hb | now apply Hl].
      * repeat split; try tauto; try discriminate.
        intros x [E|Hx]; [discriminate | now apply Hl].
    + destruct IH as [Hacc Hl].
      destruct acc as [a|], c as [b|]; simpl in *; try discriminate.
      split; [reflexivity|]. intros c [<-|Hc]; [reflexivity | now apply Hl].
Qed.

Lemma ts_max_In (l : list (option Z)) (m : Z) :
  ts_max l = Some m -> In (Some m) l.
Proof.
  unfold ts_max. intros E. pose proof (ts_max_from l None) as H.
  rewrite E in H. destruct H as [[H|H] _]; [discriminate | exact H].
Qed.

Lemma ts_max_upper (l : list (option Z)) (m x : Z) :
  ts_max l = Some m -> In (Some x) l -> x <= m.
Proof.
  unfold ts_max. intros E. pose proof (ts_max_from l None) as H.
  rewrite E in H. now apply H.
Qed.

Lemma ts_max_None (l : list (option Z)) :
  ts_max l = None <-> forall c, In c l -> c = None.
Proof.
  unfold ts_max. pose proof (ts_max_from l None) as H. split.
  - intros E. rewrite E in H. now apply H.
  - intros Hall. destruct (fold_left ts_max2 l None) as [m|]; [|reflexivity].
    destruct H as [[H|H] _]; [discriminate|].
    apply Hall in H. discriminate.
Qed.

Lemma ts_max_incl (l1 l2 : list (option Z)) (m1 : Z) :
  incl l1 l2 -> ts_max l1 = Some m1 ->
  exists m2, ts_max l2 = Some m2 /\ m1 <= m2.
Proof.
  intros Hincl E1. apply ts_max_In in E1. apply Hincl in E1.
  destruct (ts_max l2) as [m2|] eqn:E2.
  - exists m2. split; [reflexivity|]. eapply ts_max_upper; eassumption.
  - rewrite ts_max_None in E2. apply E2 in E1. discriminate.
Qed.

End TsMax.

Lemma purchases_of_incl (df : DataFrame) (c : string) :
  incl (purchases_of df c) (all_purchases df).
Proof.
  intros x Hx. unfold purchases_of in Hx. apply in_map_iff in Hx.
  destruct Hx as [r [<- Hr]]. apply rows_with_In in Hr.
  apply in_map. tauto.
Qed.

Lemma ns_per_day_pos : 0 < Calendar.ns_per_day.
Proof. reflexivity. Qed.

Lemma prepare_rfm_data_row (df : DataFrame) (row : Rfm.Row) :
  In row (prepare_rfm_data df) ->
  let mine := rows_with customer_id (Rfm.customer_id row) (rows df) in
  (exists r, In r (rows df) /\ customer_id r = Rfm.customer_id row)
  /\ Rfm.frequency row = nunique (map order_id mine)
  /\ Rfm.monetary row = qsum (map price mine)
  /\ Rfm.recency row
     = days_between (ts_max (all_purchases df))
                    (ts_max (purchases_of df (Rfm.customer_id row))).
Proof.
  unfold prepare_rfm_data, rfm_agg. rewrite map_map.
  intros Hin. apply groupby_map_In in Hin.
  destruct Hin as [k [Hk ->]]. simpl. repeat split. exact Hk.
Qed.

(** C5, as the code has it.  The recency of a customer is the number of
    whole days between the customer's last purchase and one reference
    date, the maximum purchase timestamp of the whole table.  For every
    customer with at least one purchase timestamp it is a non-negative
    number of days, and it is 0 when one of the customer's purchases is at
    the latest purchase timestamp of the table.  A customer none of whose
    lines has a purchase timestamp gets a null recency. *)
Theorem rfm_recency_against_global_max (df : DataFrame) (row : Rfm.Row) :
  In row (prepare_rfm_data df) ->
  Rfm.recency row
  = days_between (ts_max (all_purchases df))
                 (ts_max (purchases_of df (Rfm.customer_id row)))
  /\ (forall r ts,
         In r (rows df) -> customer_id r = Rfm.customer_id row ->
         order_purchase_timestamp r = Some ts ->
         exists d, Rfm.recency row = Some d /\ 0 <= d)
  /\ (forall r ts,
         In r (rows df) -> customer_id r = Rfm.customer_id row ->
         order_purchase_timestamp r = Some ts ->
         (forall r' ts', In r' (rows df) ->
                         order_purchase_timestamp r' = Some ts' -> ts' <= ts) ->
         Rfm.recency row = Some 0)
  /\ ((forall r, In r (rows df) -> customer_id r = Rfm.customer_id row ->
                 order_purchase_timestamp r = None) ->
      Rfm.recency row = None).
Proof.
  intros Hin.
  destruct (prepare_rfm_data_row df row Hin) as [_ [_ [_ Hrec]]].
  set (c := Rfm.customer_id row) in *.
  assert (Hmine : forall r ts, In r (rows df) -> customer_id r = c ->
                               order_purchase_timestamp r = Some ts ->
                               In (Some ts) (purchases_of df c)).
  { intros r ts Hr Hc Hts. unfold purchases_of. rewrite <- Hts.
    apply in_map. apply rows_with_In. now split. }
  split; [exact Hrec|]. split; [|split].
  - intros r ts Hr Hc Hts. specialize (Hmine r ts Hr Hc Hts).
    destruct (ts_max (purchases_of df c)) as [last|] eqn:Elast.
    + destruct (ts_max_incl _ _ last (purchases_of_incl df c) Elast)
        as [recent [Erecent Hle]].
      rewrite Hrec, Erecent. simpl. eexists. split; [reflexivity|].
      unfold Calendar.days_of_ns. apply Z.div_pos; [lia | apply ns_per_day_pos].
    + rewrite ts_max_None in Elast. apply Elast in Hmine. discriminate.
  - intros r ts Hr Hc Hts Hmax. specialize (Hmine r ts Hr Hc Hts).
    assert (Hall : In (Some ts) (all_purchases df))
      by (now apply (purchases_of_incl df c)).
    destruct (ts_max (purchases_of df c)) as [last|] eqn:Elast;
      [|rewrite ts_max_None in Elast; apply Elast in Hmine; discriminate].
    destruct (ts_max (all_purchases df)) as [recent|] eqn:Erecent;
      [|rewrite ts_max_None in Erecent; apply Erecent in Hall; discriminate].
    assert (recent = ts).
    { apply Z.le_antisymm.
      - apply ts_max_In in Erecent. unfold all_purchases in Erecent.
        apply in_map_iff in Erecent. destruct Erecent as [r' [E' Hr']].
        now apply (Hmax r').
      - eapply ts_max_upper; eassumption. }
    assert (last = ts).
    { apply Z.le_antisymm.
      - subst recent.
        destruct (ts_max_incl _ _ last (purchases_of_incl df c) Elast)
          as [m [Em Hle]].
        rewrite Erecent in Em. inversion Em. lia.
      - eapply ts_max_upper; eassumption. }
    subst. rewrite Hrec. simpl. unfold Calendar.days_of_ns.
    now rewrite Z.sub_diag.
  - intros Hnone. rewrite Hrec.
    assert (E : ts_max (purchases_of df c) = None).
    { apply ts_max_None. intros x Hx. unfold purchases_of in Hx.
      apply in_map_iff in Hx. destruct Hx as [r [<- Hr]].
      apply rows_with_In in Hr. now apply Hnone. }
    rewrite E. unfold days_between. now destruct (ts_max (all_purchases df)).
Qed.

Lemma rfm_recency_against_global_max_witness :
  let row := {| Rfm.customer_id := "C1"; Rfm.frequency := 1;
                Rfm.monetary := 15%Q; Rfm.recency := Some 74 |} in
  In row (prepare_rfm_data sample_df)
  /\ Rfm.recency row
     = days_between (ts_max (all_purchases sample_df))
                    (ts_max (purchases_of sample_df (Rfm.customer_id row))).
Proof.
  intros row.
  assert (Hin : In row (prepare_rfm_data sample_df))
    by find_row.
  split; [exact Hin|].
  exact (proj1 (rfm_recency_against_global_max sample_df row Hin)).
Defined.

Example rfm_two_purchases :
  prepare_rfm_data two_purchases_df
  = [ {| Rfm.customer_id := "C1"; Rfm.frequency := 2;
         Rfm.monetary := 15%Q; Rfm.recency := Some 0 |} ].
Proof. vm_compute. reflexivity. Qed.

Example rfm_undated_customer :
  In {| Rfm.customer_id := "C9"; Rfm.frequency := 1;
        Rfm.monetary := 10%Q; Rfm.recency := None |}
     (prepare_rfm_data undated_customer_df).
Proof. find_row. Qed.

(** A customer without any purchase timestamp has a null recency, which
    is not a non-negative number of days. *)
Lemma rfm_recency_null_counterexample :
  ~ recency_always_nonnegative undated_customer_df.
Proof.
  intros H.
  destruct (H {| Rfm.customer_id := "C9"; Rfm.frequency := 1;
                 Rfm.monetary := 10%Q; Rfm.recency := None |})
    as [d [E _]].
  - find_row.
  - discriminate.
Qed.

(* ===================================================================== *)
(** ** Delivery performance aggregator *)
(* ===================================================================== *)

Lemma drop_duplicates_from_In (l : list OrderLine) :
  forall seen r, In r (drop_duplicates_from seen l) ->
                 In r l /\ ~ In (order_id r) seen.
Proof.
  induction l as [|x l IH]; simpl; intros seen r Hin; [tauto|].
  destruct (existsb (String.eqb (order_id x)) seen) eqn:E.
  - apply IH in Hin. tauto.
  - destruct Hin as [<-|Hin].
    + split; [now left|]. intros Hseen.
      assert (existsb (String.eqb (order_id x)) seen = true); [|congruence].
      apply existsb_exists. exists (order_id x). split; [exact Hseen|].
      apply String.eqb_refl.
    + apply IH in Hin. simpl in Hin. tauto.
Qed.

Lemma drop_duplicates_from_NoDup (l : list OrderLine) :
  forall seen, NoDup (map order_id (drop_duplicates_from seen l)).
Proof.
  induction l as [|x l IH]; simpl; intros seen; [constructor|].
  destruct (existsb (String.eqb (order_id x)) seen); [apply IH|].
  simpl. constructor; [|apply IH].
  intros Hin. apply in_map_iff in Hin. destruct Hin as [r [E Hr]].
  apply drop_duplicates_from_In in Hr. destruct Hr as [_ Hr].
  apply Hr. rewrite E. now left.
Qed.

Lemma drop_duplicates_nonempty (l : list OrderLine) :
  l <> [] -> drop_duplicates l <> [].
Proof. destruct l as [|x l]; [congruence|]. intros _. simpl. discriminate. Qed.

Lemma prepare_delivery_data_In (df : DataFrame) (d : Delivery.Row) :
  In d (prepare_delivery_data df) ->
  In (Delivery.line d) (rows df)
  /\ (exists ts, order_delivered_customer_date (Delivery.line d) = Some ts)
  /\ Delivery.actual_delivery_time d
     = days_between (order_delivered_customer_date (Delivery.line d))
                    (order_purchase_timestamp (Delivery.line d))
  /\ Delivery.estimated_delivery_time d
     = days_between (order_estimated_delivery_date (Delivery.line d))
                    (order_purchase_timestamp (Delivery.line d))
  /\ Delivery.delivery_difference d
     = cell_sub (Delivery.estimated_delivery_time d)
                (Delivery.actual_delivery_time d).
Proof.
  unfold prepare_delivery_data. rewrite in_map_iff.
  intros [r [<- Hr]]. simpl.
  apply drop_duplicates_from_In in Hr. destruct Hr as [Hr _].
  unfold dropna_delivered in Hr. apply filter_In in Hr. destruct Hr as [Hr Hd].
  repeat split; try assumption.
  destruct (order_delivered_customer_date r) as [ts|]; [now exists ts | discriminate].
Qed.

(** One delivery row per order identifier. *)
Lemma prepare_delivery_data_one_per_order (df : DataFrame) :
  NoDup (map (fun d => order_id (Delivery.line d)) (prepare_delivery_data df)).
Proof.
  unfold prepare_delivery_data. rewrite map_map. simpl.
  apply drop_duplicates_from_NoDup.
Qed.

(** C2.  On every row the delivery aggregator keeps, the delivery
    difference is the estimated delivery time minus the actual delivery
    time: their difference as integers when both are known, null when
    one of them is null.  The row comes from a line of the table with a
    customer-delivery timestamp, so no line whose timestamp is null
    appears in the output. *)
Theorem delivery_difference_is_estimated_minus_actual
  (df : DataFrame) (d : Delivery.Row) :
  In d (prepare_delivery_data df) ->
  Delivery.delivery_difference d
  = cell_sub (Delivery.estimated_delivery_time d)
             (Delivery.actual_delivery_time d)
  /\ (forall e a,
         Delivery.estimated_delivery_time d = Some e ->
         Delivery.actual_delivery_time d = Some a ->
         Delivery.delivery_difference d = Some (e - a))
  /\ (Delivery.estimated_delivery_time d = None
      \/ Delivery.actual_delivery_time d = None ->
      Delivery.delivery_difference d = None)
  /\ In (Delivery.line d) (rows df)
  /\ order_delivered_customer_date (Delivery.line d) <> None
  /\ (forall r, In r (rows df) -> order_delivered_customer_date r = None ->
                Delivery.line d <> r).
Proof.
  intros Hin.
  destruct (prepare_delivery_data_In df d Hin) as [Hr [[ts Hts] [_ [_ Hdiff]]]].
  split; [exact Hdiff|]. split; [|split; [|split; [exact Hr|split]]].
  - intros e a He Ha. now rewrite Hdiff, He, Ha.
  - intros [E|E]; rewrite Hdiff, E; simpl; [reflexivity|].
    now destruct (Delivery.estimated_delivery_time d).
  - congruence.
  - intros r _ Hnull E. subst r. congruence.
Qed.

Lemma delivery_difference_is_estimated_minus_actual_witness :
  let d := {| Delivery.line := line_O2;
              Delivery.actual_delivery_time := Some 23;
              Delivery.estimated_delivery_time := Some 14;
              Delivery.delivery_difference := Some (-9) |} in
  In d (prepare_delivery_data sample_df)
  /\ Delivery.delivery_difference d
     = cell_sub (Delivery.estimated_delivery_time d)
                (Delivery.actual_delivery_time d)
  /\ Delivery.line d <> line_O3.
Proof.
  intros d.
  assert (Hin : In d (prepare_delivery_data sample_df))
    by find_row.
  destruct (delivery_difference_is_estimated_minus_actual sample_df d Hin)
    as [Hdiff [_ [_ [_ [_ Hnull]]]]].
  split; [exact Hin|]. split; [exact Hdiff|].
  apply Hnull; [|reflexivity].
  right. right. right. left. reflexivity.
Defined.

(* ===================================================================== *)
(** ** On-time delivery rate *)
(* ===================================================================== *)

Lemma bool_sum_from (f : Delivery.Row -> bool) (l : list Delivery.Row) :
  forall acc,
    fold_left (fun a (b : bool) => if b then a + 1 else a) (map f l) acc
    = acc + Z.of_nat (List.length (filter f l)).
Proof.
  induction l as [|d l IH]; intros acc; simpl; [lia|].
  rewrite IH. destruct (f d); simpl List.length; lia.
Qed.

Lemma bool_sum_count (f : Delivery.Row -> bool) (l : list Delivery.Row) :
  bool_sum (map f l) = Z.of_nat (List.length (filter f l)).
Proof. unfold bool_sum. now rewrite bool_sum_from. Qed.

Lemma filter_length_le {A : Type} (f : A -> bool) (l : list A) :
  (List.length (filter f l) <= List.length l)%nat.
Proof. induction l as [|x l IH]; simpl; [lia|]. destruct (f x); simpl; lia. Qed.

Lemma ratio_bounds (k n : Z) :
  0 <= k -> k <= n -> 0 < n ->
  (inject_Z k / inject_Z n * 100 == 100 * inject_Z k / inject_Z n)%Q
  /\ (0 <= inject_Z k / inject_Z n * 100)%Q
  /\ (inject_Z k / inject_Z n * 100 <= 100)%Q.
Proof.
  intros Hk Hkn Hn.
  destruct n as [|p|p]; try lia.
  unfold Qeq, Qle, Qdiv, Qmult, Qinv, inject_Z.
  cbn [Qnum Qden]. rewrite ?Pos2Z.inj_mul.
  repeat split; nia.
Qed.

Lemma prepare_delivery_data_nonempty (df : DataFrame) :
  prepare_delivery_data df <> [] <->
  exists r, In r (rows df) /\ order_delivered_customer_date r <> None.
Proof.
  split.
  - destruct (prepare_delivery_data df) as [|d dd] eqn:E; [congruence|].
    intros _. assert (Hd : In d (prepare_delivery_data df)) by (rewrite E; now left).
    apply prepare_delivery_data_In in Hd. destruct Hd as [Hr [[ts Hts] _]].
    exists (Delivery.line d). split; [exact Hr | congruence].
  - intros [r [Hr Hd]] E. unfold prepare_delivery_data in E.
    apply map_eq_nil in E. revert E. apply drop_duplicates_nonempty.
    intros E. assert (Hin : In r (dropna_delivered (rows df))).
    { unfold dropna_delivered. apply filter_In. split; [exact Hr|].
      destruct (order_delivered_customer_date r); congruence. }
    rewrite E in Hin. exact Hin.
Qed.

Lemma on_time_rate_spec (delivery_data : list Delivery.Row) :
  delivery_data <> [] ->
  exists rate : Q,
    on_time_delivery_rate delivery_data = Some rate
    /\ (rate == 100 * inject_Z (Z.of_nat (List.length (on_time_rows delivery_data)))
                / inject_Z (Z.of_nat (List.length delivery_data)))%Q
    /\ (0 <= rate)%Q /\ (rate <= 100)%Q.
Proof.
  intros Hne. unfold on_time_delivery_rate, on_time_rows.
  set (f := fun d => ge0 (Delivery.delivery_difference d)).
  set (k := Z.of_nat (List.length (filter f delivery_data))).
  set (n := Z.of_nat (List.length delivery_data)).
  assert (Hmean : bool_mean (map f delivery_data)
                  = Some (inject_Z k / inject_Z n)%Q).
  { unfold bool_mean, k, n. rewrite bool_sum_count, length_map.
    destruct delivery_data; [congruence | reflexivity]. }
  rewrite Hmean. unfold option_map.
  exists (inject_Z k / inject_Z n * 100)%Q. split; [reflexivity|].
  apply ratio_bounds; unfold k, n.
  - lia.
  - apply Nat2Z.inj_le. apply filter_length_le.
  - destruct delivery_data; [congruence | simpl List.length; lia].
Qed.

(** C3, as the code has it.  When at least one delivery row is retained,
    the on-time rate is 100 times the number of retained rows with a
    delivery difference of at least 0, divided by the number of all
    retained rows, and lies between 0 and 100.  Rows are retained
    exactly when some line has a customer-delivery timestamp; when none
    is retained the rate is the mean of an empty series, [NaN]. *)
Theorem on_time_rate_of_retained_rows (df : DataFrame) :
  (prepare_delivery_data df <> [] -> on_time_rate_is_percentage df)
  /\ (prepare_delivery_data df = [] ->
      on_time_delivery_rate (prepare_delivery_data df) = None)
  /\ (prepare_delivery_data df <> [] <->
      exists r, In r (rows df) /\ order_delivered_customer_date r <> None).
Proof.
  split; [|split; [|apply prepare_delivery_data_nonempty]].
  - intros Hne. apply on_time_rate_spec. exact Hne.
  - intros ->. reflexivity.
Qed.

Lemma on_time_rate_of_retained_rows_witness :
  prepare_delivery_data sample_df <> []
  /\ on_time_rate_is_percentage sample_df
  /\ on_time_delivery_rate (prepare_delivery_data sample_df) = Some (100 # 2).
Proof.
  assert (Hne : prepare_delivery_data sample_df <> [])
    by (vm_compute; discriminate).
  split; [exact Hne|]. split.
  - exact (proj1 (on_time_rate_of_retained_rows sample_df) Hne).
  - vm_compute. reflexivity.
Defined.

Example on_time_rate_undelivered :
  prepare_delivery_data undelivered_df = []
  /\ on_time_delivery_rate (prepare_delivery_data undelivered_df) = None.
Proof. split; reflexivity. Qed.

(** A table without any delivered order: the rate is [NaN], which is
    not a number between 0 and 100. *)
Lemma on_time_rate_nan_counterexample :
  ~ on_time_rate_is_percentage undelivered_df.
Proof.
  intros [rate [E _]]. vm_compute in E. discriminate.
Qed.

(* ===================================================================== *)
(** ** [sort_values]: a sorted rearrangement of the rows *)
(* ===================================================================== *)

Section SortFacts.

Context {A : Type}.
Variable le : A -> A -> bool.
Hypothesis le_total : forall a b, le a b = true \/ le b a = true.
Hypothesis le_trans :
  forall a b c, le a b = true -> le b c = true -> le a c = true.

Let ascending (a b : A) : Prop := le a b = true.
Let descending (a b : A) : Prop := le b a = true.

Lemma insert_sorted_perm (x : A) (l : list A) :
  Permutation (insert_sorted le x l) (x :: l).
Proof.
  induction l as [|y l IH]; simpl; [reflexivity|].
  destruct (le x y); [reflexivity|].
  rewrite IH. apply perm_swap.
Qed.

Lemma sort_ascending_perm (l : list A) : Permutation (sort_ascending le l) l.
Proof.
  induction l as [|x l IH]; simpl; [reflexivity|].
  rewrite insert_sorted_perm. now constructor.
Qed.

Lemma sort_values_perm (asc : bool) (l : list A) :
  Permutation (sort_values le asc l) l.
Proof.
  unfold sort_values. destruct asc.
  - apply sort_ascending_perm.
  - rewrite <- Permutation_rev, sort_ascending_perm.
    symmetry. apply Permutation_rev.
Qed.

Lemma sort_values_In (asc : bool) (l : list A) (x : A) :
  In x (sort_values le asc l) <-> In x l.
Proof.
  split; apply Permutation_in;
    [apply sort_values_perm | symmetry; apply sort_values_perm].
Qed.

Lemma insert_sorted_sorted (x : A) (l : list A) :
  StronglySorted ascending l -> StronglySorted ascending (insert_sorted le x l).
Proof.
  induction 1 as [|y l Hs IH Hall]; simpl.
  - repeat constructor.
  - destruct (le x y) eqn:E.
    + constructor; [now constructor|].
      constructor; [exact E|].
      eapply Forall_impl; [|exact Hall].
      intros z Hz. unfold ascending in *. eapply le_trans; eassumption.
    + constructor; [exact IH|].
      apply Forall_forall. intros z Hz.
      apply (Permutation_in _ (insert_sorted_perm x l)) in Hz.
      destruct Hz as [<-|Hz].
      * unfold ascending. destruct (le_total x y); congruence.
      * rewrite Forall_forall in Hall. now apply Hall.
Qed.

Lemma sort_ascending_sorted (l : list A) :
  StronglySorted ascending (sort_ascending le l).
Proof.
  induction l as [|x l IH]; simpl; [constructor|].
  now apply insert_sorted_sorted.
Qed.

Lemma StronglySorted_app (R : A -> A -> Prop) (l1 l2 : list A) :
  StronglySorted R l1 -> StronglySorted R l2 ->
  (forall a b, In a l1 -> In b l2 -> R a b) ->
  StronglySorted R (l1 ++ l2).
Proof.
  induction 1 as [|x l1 Hs IH Hall]; simpl; intros H2 Hcross; [exact H2|].
  constructor.
  - apply IH; [exact H2|]. intros a b Ha Hb. apply Hcross; [now right | exact Hb].
  - apply Forall_app. split; [exact Hall|].
    apply Forall_forall. intros b Hb. apply Hcross; [now left | exact Hb].
Qed.

Lemma StronglySorted_rev (R : A -> A -> Prop) (l : list A) :
  StronglySorted R l -> StronglySorted (fun a b => R b a) (rev l).
Proof.
  induction 1 as [|x l Hs IH Hall]; simpl; [constructor|].
  apply StronglySorted_app; [exact IH | repeat constructor|].
  intros a b Ha [<-|[]]. rewrite Forall_forall in Hall.
  apply Hall. now apply in_rev.
Qed.

(** The ranking direction of [sort_values]. *)
Lemma sort_values_sorted (asc : bool) (l : list A) :
  StronglySorted (if asc then ascending else descending)
                 (sort_values le asc l).
Proof.
  unfold sort_values. destruct asc.
  - apply sort_ascending_sorted.
  - apply (StronglySorted_rev ascending). apply sort_ascending_sorted.
Qed.

End SortFacts.

Section SortedUnique.

Context {A : Type}.
Variable R : A -> A -> Prop.

(** Two sorted arrangements of the same items agree when the order
    separates the items. *)
Lemma sorted_perm_unique (l1 : list A) :
  forall l2,
    (forall x y, In x l1 -> In y l1 -> R x y -> R y x -> x = y) ->
    Permutation l1 l2 ->
    StronglySorted R l1 -> StronglySorted R l2 -> l1 = l2.
Proof.
  induction l1 as [|x l1 IH]; intros l2 Hanti Hperm H1 H2.
  - apply Permutation_nil in Hperm. now subst.
  - destruct l2 as [|y l2].
    + symmetry in Hperm. apply Permutation_nil in Hperm. discriminate.
    + apply StronglySorted_inv in H1. destruct H1 as [H1 Hall1].
      apply StronglySorted_inv in H2. destruct H2 as [H2 Hall2].
      rewrite Forall_forall in Hall1, Hall2.
      assert (Hy : In y (x :: l1))
        by (eapply Permutation_in; [symmetry; exact Hperm | now left]).
      assert (Hx : In x (y :: l2))
        by (eapply Permutation_in; [exact Hperm | now left]).
      assert (E : x = y).
      { destruct Hy as [E|Hy]; [exact E|].
        destruct Hx as [E|Hx]; [now symmetry|].
        apply Hanti; [now left | now right | now apply Hall1 | now apply Hall2]. }
      subst y. f_equal. apply IH.
      * intros a b Ha Hb. apply Hanti; now right.
      * eapply Permutation_cons_inv. exact Hperm.
      * exact H1.
      * exact H2.
Qed.

End SortedUnique.

(* ===================================================================== *)
(** ** Category aggregator *)
(* ===================================================================== *)

Section PriceOrder.

Lemma Qle_bool_total (a b : Q) : Qle_bool a b = true \/ Qle_bool b a = true.
Proof.
  rewrite !Qle_bool_iff.
  destruct (Qlt_le_dec a b) as [H|H]; [left; now apply Qlt_le_weak | now right].
Qed.

Lemma Qle_bool_trans (a b c : Q) :
  Qle_bool a b = true -> Qle_bool b c = true -> Qle_bool a c = true.
Proof. rewrite !Qle_bool_iff. apply Qle_trans. Qed.

Lemma le_by_price_total (a b : string * Q) :
  le_by_price a b = true \/ le_by_price b a = true.
Proof. apply Qle_bool_total. Qed.

Lemma le_by_price_trans (a b c : string * Q) :
  le_by_price a b = true -> le_by_price b c = true -> le_by_price a c = true.
Proof. apply Qle_bool_trans. Qed.

Lemma StronglySorted_weaken {A : Type} (R R' : A -> A -> Prop) (l : list A) :
  (forall a b, R a b -> R' a b) -> StronglySorted R l -> StronglySorted R' l.
Proof.
  intros HR. induction 1 as [|x l Hs IH Hall]; constructor; [exact IH|].
  eapply Forall_impl; [|exact Hall]. intros b. apply HR.
Qed.

Lemma StronglySorted_map {A B : Type} (f : A -> B) (R : B -> B -> Prop)
      (l : list A) :
  StronglySorted (fun a b => R (f a) (f b)) l -> StronglySorted R (map f l).
Proof.
  induction 1 as [|x l Hs IH Hall]; simpl; constructor; [exact IH|].
  apply Forall_map. exact Hall.
Qed.

Lemma map_Qred_Forall2 (l1 : list Q) :
  forall l2, map Qred l1 = map Qred l2 -> Forall2 Qeq l1 l2.
Proof.
  induction l1 as [|a l1 IH]; intros [|b l2] E; simpl in E;
    try discriminate; constructor.
  - inversion E. now apply Qred_eq_iff.
  - apply IH. now inversion E.
Qed.

(** Two descending arrangements of the same sums list the same values. *)
Lemma descending_sums_agree (l1 l2 : list Q) :
  Permutation l1 l2 ->
  StronglySorted (fun a b => (b <= a)%Q) l1 ->
  StronglySorted (fun a b => (b <= a)%Q) l2 ->
  Forall2 Qeq l1 l2.
Proof.
  intros Hperm H1 H2. apply map_Qred_Forall2.
  apply (sorted_perm_unique (fun a b => (b <= a)%Q)).
  - intros x y Hx Hy Hxy Hyx.
    apply in_map_iff in Hx. destruct Hx as [x0 [<- _]].
    apply in_map_iff in Hy. destruct Hy as [y0 [<- _]].
    apply Qred_complete. apply -> Qred_le in Hxy. apply -> Qred_le in Hyx.
    now apply Qle_antisym.
  - now apply Permutation_map.
  - apply StronglySorted_map. eapply StronglySorted_weaken; [|exact H1].
    intros a b. simpl. now rewrite Qred_le.
  - apply StronglySorted_map. eapply StronglySorted_weaken; [|exact H2].
    intros a b. simpl. now rewrite Qred_le.
Qed.

End PriceOrder.

Lemma category_ranking_perm (df : DataFrame) (asc : bool) :
  Permutation (category_ranking df asc) (category_price_sum df).
Proof. apply sort_values_perm. Qed.

Lemma category_ranking_descending (df : DataFrame) :
  StronglySorted (fun a b => (snd b <= snd a)%Q) (category_ranking df false).
Proof.
  pose proof (sort_values_sorted le_by_price le_by_price_total le_by_price_trans
                                 false (category_price_sum df)) as H.
  eapply StronglySorted_weaken; [|exact H].
  intros a b. simpl. unfold le_by_price. now rewrite Qle_bool_iff.
Qed.

Lemma category_ranking_ascending (df : DataFrame) :
  StronglySorted (fun a b => (snd a <= snd b)%Q) (category_ranking df true).
Proof.
  pose proof (sort_values_sorted le_by_price le_by_price_total le_by_price_trans
                                 true (category_price_sum df)) as H.
  eapply StronglySorted_weaken; [|exact H].
  intros a b. simpl. unfold le_by_price. now rewrite Qle_bool_iff.
Qed.

(** The descending ranking lists the sums of the ascending ranking in
    reverse order. *)
Lemma category_rankings_reverse (df : DataFrame) :
  Forall2 Qeq (map snd (category_ranking df false))
              (rev (map snd (category_ranking df true))).
Proof.
  apply descending_sums_agree.
  - rewrite <- Permutation_rev. apply Permutation_map.
    rewrite !category_ranking_perm. reflexivity.
  - apply StronglySorted_map. apply category_ranking_descending.
  - apply (StronglySorted_rev (fun a b => (a <= b)%Q)).
    apply StronglySorted_map. apply category_ranking_ascending.
Qed.

Lemma category_price_sum_row_eq (df : DataFrame) (c : string) (s1 s2 : Q) :
  In (c, s1) (category_price_sum df) -> In (c, s2) (category_price_sum df) ->
  s1 = s2.
Proof.
  unfold category_price_sum. intros H1 H2.
  apply groupby_map_In in H1. destruct H1 as [k1 [_ E1]].
  apply groupby_map_In in H2. destruct H2 as [k2 [_ E2]].
  inversion E1. inversion E2. now subst.
Qed.

(** When no two categories have the same sum, the two rankings are the
    same rows in opposite order, names included. *)
Lemma category_rankings_reverse_rows (df : DataFrame) :
  (forall c1 s1 c2 s2,
      In (c1, s1) (category_price_sum df) ->
      In (c2, s2) (category_price_sum df) ->
      (s1 == s2)%Q -> c1 = c2) ->
  category_ranking df false = rev (category_ranking df true).
Proof.
  intros Hties.
  apply (sorted_perm_unique (fun a b => (snd b <= snd a)%Q)).
  - intros [c1 s1] [c2 s2] H1 H2 H12 H21. simpl in *.
    apply (Permutation_in _ (category_ranking_perm df false)) in H1, H2.
    assert (c1 = c2)
      by (apply (Hties c1 s1 c2 s2 H1 H2); now apply Qle_antisym).
    subst c2. f_equal. eapply category_price_sum_row_eq; eassumption.
  - rewrite <- Permutation_rev, !category_ranking_perm. reflexivity.
  - apply category_ranking_descending.
  - apply (StronglySorted_rev (fun a b => (snd a <= snd b)%Q)).
    apply category_ranking_ascending.
Qed.

Lemma head_all {A : Type} (n : nat) (l : list A) :
  (List.length l <= n)%nat -> head n l = l.
Proof.
  unfold head. revert n. induction l as [|x l IH]; intros [|n] H; simpl in *;
    try reflexivity; try lia.
  f_equal. apply IH. lia.
Qed.

Lemma category_price_sum_row (df : DataFrame) (c : string) (s : Q) :
  In (c, s) (category_price_sum df) ->
  (exists r, In r (rows df) /\ product_category_name_english r = c)
  /\ s = qsum (map price (lines_of_category df c)).
Proof.
  unfold category_price_sum. intros H. apply groupby_map_In in H.
  destruct H as [k [Hk E]]. inversion E; subst. now split.
Qed.

Example category_stats_toys :
  In {| Category.product_category_name_english := "toys";
        Category.order_count := 2;
        Category.item_count := 3;
        Category.min_price := Some 5%Q;
        Category.avg_price := Some (35 # 3);
        Category.max_price := Some 20%Q;
        Category.total_sales := 35%Q |}
     (category_stats sample_df).
Proof. find_row. Qed.

(* ===================================================================== *)
(** ** Data loader *)
(* ===================================================================== *)

Lemma load_data_raises (file : CsvFile) (e : Exn) :
  read_csv file = Raise e -> load_data file = Raise e.
Proof. unfold load_data. now intros ->. Qed.

Lemma load_data_parsed (df : DataFrame) :
  load_data (Parsed df)
  = Ok {| has_review_score := has_review_score df;
          rows := map convert_datetime_columns (rows df) |}.
Proof. reflexivity. Qed.

(** C7, as the code has it.  When the reader raises (the file is
    missing, unreadable or has no header to parse), [load_data] lets
    that exception through unchanged; the script then stops after the
    page configuration and the loading spinner, with no element of the
    dashboard on the page.  A file that has a header is loaded whatever
    its number of rows: a table with zero rows is returned as a frame
    with zero rows, not as a failure. *)
Theorem load_failure_is_fatal (file : CsvFile) :
  (forall e,
      read_csv file = Raise e ->
      load_data file = Raise e
      /\ forall options,
          main file options = ([set_page_config; spinner], Raise e)
          /\ filter is_dashboard_element (fst (main file options)) = [])
  /\ (file = Missing \/ file = Unreadable \/ file = NoColumns ->
      exists e, read_csv file = Raise e /\ e <> DataLoadError)
  /\ (forall df,
         file = Parsed df ->
         exists all_df,
           load_data file = Ok all_df
           /\ List.length (rows all_df) = List.length (rows df)
           /\ has_review_score all_df = has_review_score df).
Proof.
  split; [|split].
  - intros e He. pose proof (load_data_raises file e He) as Hload.
    split; [exact Hload|]. intros options. unfold main. rewrite Hload.
    split; reflexivity.
  - intros [-> | [-> | ->]]; eexists; (split; [reflexivity | discriminate]).
  - intros df ->. eexists. split; [apply load_data_parsed|].
    simpl. now rewrite length_map.
Qed.

Lemma load_failure_is_fatal_witness :
  read_csv Missing = Raise (exception "FileNotFoundError")
  /\ load_data Missing = Raise (exception "FileNotFoundError")
  /\ main Missing Overview
     = ([set_page_config; spinner], Raise (exception "FileNotFoundError")).
Proof.
  assert (He : read_csv Missing = Raise (exception "FileNotFoundError"))
    by reflexivity.
  destruct (proj1 (load_failure_is_fatal Missing) _ He) as [Hload Hmain].
  split; [exact He|]. split; [exact Hload|].
  exact (proj1 (Hmain Overview)).
Defined.

(** A file with a header and zero rows: loading succeeds. *)
Lemma zero_rows_load_counterexample :
  ~ load_fails_without_dashboard header_only_file.
Proof.
  intros H. destruct H as [Hload _].
  - right. right. right. eexists. split; reflexivity.
  - discriminate.
Qed.

(* ===================================================================== *)
(** ** [st.cache_data]: the memo table *)
(* ===================================================================== *)

Section CacheFacts.

Context {Out : Type}.
Variable f : DataFrame -> Out.

Lemma cache_lookup_In (df : DataFrame) (c : Cache) (v : Out) :
  cache_lookup df c = Some v -> In (df, v) c.
Proof.
  induction c as [|[k w] c IH]; simpl; [discriminate|].
  destruct (DataFrame_eq_dec k df) as [->|_].
  - intros E. inversion E. now left.
  - intros E. right. now apply IH.
Qed.

Lemma cache_lookup_head (df : DataFrame) (v : Out) (c : Cache) :
  cache_lookup df ((df, v) :: c) = Some v.
Proof. simpl. destruct (DataFrame_eq_dec df df); [reflexivity | congruence]. Qed.

Lemma cache_data_result (c : Cache) (df : DataFrame) :
  coherent f c -> fst (cache_data f c df) = f df.
Proof.
  intros Hc. unfold cache_data.
  destruct (cache_lookup df c) as [v|] eqn:E; simpl; [|reflexivity].
  apply cache_lookup_In in E. now apply Hc.
Qed.

Lemma cache_data_coherent (c : Cache) (df : DataFrame) :
  coherent f c -> coherent f (snd (cache_data f c df)).
Proof.
  intros Hc. unfold cache_data.
  destruct (cache_lookup df c) as [v|]; simpl; [exact Hc|].
  intros k v [E|Hin]; [now inversion E | now apply Hc].
Qed.

Lemma cache_after_coherent_from (calls : list DataFrame) :
  forall c, coherent f c ->
            coherent f (fold_left (fun c df => snd (cache_data f c df)) calls c).
Proof.
  induction calls as [|df calls IH]; simpl; intros c Hc; [exact Hc|].
  apply IH. now apply cache_data_coherent.
Qed.

Lemma cache_after_coherent (calls : list DataFrame) :
  coherent f (cache_after f calls).
Proof. apply cache_after_coherent_from. intros k v []. Qed.

(** After a call on [df] the table of [df] is stored. *)
Lemma cache_data_stores (c : Cache) (df : DataFrame) :
  coherent f c -> cache_lookup df (snd (cache_data f c df)) = Some (f df).
Proof.
  intros Hc. unfold cache_data.
  destruct (cache_lookup df c) as [v|] eqn:E; simpl.
  - rewrite E. f_equal. apply cache_lookup_In in E. now apply Hc.
  - apply cache_lookup_head.
Qed.

End CacheFacts.

(* ===================================================================== *)
(** ** Sums of a column, and row counts over a partition *)
(* ===================================================================== *)

Section QSum.

Lemma qsum_from (l : list Q) :
  forall a, (fold_left Qplus l a == a + qsum l)%Q.
Proof.
  unfold qsum. induction l as [|x l IH]; intros a; simpl.
  - ring.
  - rewrite (IH (a + x)%Q), (IH (0 + x)%Q). ring.
Qed.

Lemma qsum_cons (x : Q) (l : list Q) : (qsum (x :: l) == x + qsum l)%Q.
Proof. unfold qsum at 1. simpl. rewrite qsum_from. ring. Qed.

Lemma qsum_nil : qsum [] = 0%Q.
Proof. reflexivity. Qed.

Context {A K : Type}.
Variable p : K -> A -> bool.

(** When no row matches two of the keys [ks], the sizes of the groups
    add up to the number of rows that match some key. *)
Lemma count_partition (ks : list K) (l : list A) :
  (forall x k1 k2, In x l -> In k1 ks -> In k2 ks ->
                   p k1 x = true -> p k2 x = true -> k1 = k2) ->
  NoDup ks ->
  list_sum (map (fun k => List.length (filter (p k) l)) ks)
  = List.length (filter (fun x => existsb (fun k => p k x) ks) l).
Proof.
  intros Hone Hnd. induction l as [|x l IH].
  - simpl. induction ks as [|k ks IHk]; simpl; [reflexivity|].
    inversion Hnd; subst. now rewrite IHk.
  - assert (Hsplit :
      list_sum (map (fun k => List.length (filter (p k) (x :: l))) ks)
      = (list_sum (map (fun k => if p k x then 1 else 0) ks)
         + list_sum (map (fun k => List.length (filter (p k) l)) ks))%nat).
    { clear. unfold list_sum. induction ks as [|k ks IHk]; [reflexivity|].
      cbn [map fold_right]. rewrite IHk.
      simpl filter. destruct (p k x); simpl List.length; lia. }
    rewrite Hsplit, IH by (intros y k1 k2 Hy; apply Hone; now right).
    assert (Hind : list_sum (map (fun k => if p k x then 1%nat else 0%nat) ks)
                   = if existsb (fun k => p k x) ks then 1%nat else 0%nat).
    { assert (Hx : forall k1 k2, In k1 ks -> In k2 ks ->
                                 p k1 x = true -> p k2 x = true -> k1 = k2)
        by (intros k1 k2; apply Hone; now left).
      clear - Hx Hnd. induction ks as [|k ks IHk]; simpl; [reflexivity|].
      inversion Hnd as [|k' ks' Hk Hnd']; subst.
      rewrite IHk; [|exact Hnd' | intros; apply Hx; simpl; auto].
      destruct (p k x) eqn:Ek; simpl; [|reflexivity].
      destruct (existsb (fun k0 => p k0 x) ks) eqn:Ex; [|reflexivity].
      exfalso. apply existsb_exists in Ex. destruct Ex as [k2 [Hin2 Hp2]].
      apply Hk. rewrite (Hx k k2); simpl; auto. }
    rewrite Hind. simpl.
    destruct (existsb (fun k => p k x) ks); simpl; lia.
Qed.

End QSum.

Lemma filter_all {A : Type} (f : A -> bool) (l : list A) :
  (forall x, In x l -> f x = true) -> filter f l = l.
Proof.
  induction l as [|x l IH]; intros H; simpl; [reflexivity|].
  rewrite (H x) by now left. f_equal. apply IH. intros y Hy. apply H. now right.
Qed.

(* ===================================================================== *)
(** ** Monthly trend aggregator: the months and their totals *)
(* ===================================================================== *)

Lemma fold_min_In (l : list Z) : forall a, In (fold_left Z.min l a) (a :: l).
Proof.
  induction l as [|y l IH]; intros a; simpl; [now left|].
  destruct (IH (Z.min a y)) as [E|H]; [|now right; right].
  rewrite <- E. destruct (Z.min_spec a y) as [[_ ->]|[_ ->]]; auto.
Qed.

Lemma fold_max_In (l : list Z) : forall a, In (fold_left Z.max l a) (a :: l).
Proof.
  induction l as [|y l IH]; intros a; simpl; [now left|].
  destruct (IH (Z.max a y)) as [E|H]; [|now right; right].
  rewrite <- E. destruct (Z.max_spec a y) as [[_ ->]|[_ ->]]; auto.
Qed.

Lemma months_present_iff (l : list OrderLine) (m : Z) :
  In m (months_present l) <-> exists r, In r l /\ purchase_month r = Some m.
Proof.
  split.
  - induction l as [|x l IH]; simpl; [tauto|].
    destruct (purchase_month x) as [mx|] eqn:E.
    + intros [<-|H]; [exists x; auto|].
      destruct (IH H) as [r [Hr Hm]]. exists r. auto.
    + intros H. destruct (IH H) as [r [Hr Hm]]. exists r. auto.
  - intros [r [Hr Hm]]. eapply months_present_In; eassumption.
Qed.

Lemma month_bins_In (ms : list Z) (b : Z) :
  In b (month_bins ms) <->
  exists m1 m2, In m1 ms /\ In m2 ms /\ m1 <= b <= m2.
Proof.
  destruct ms as [|m0 ms]; simpl month_bins.
  - split; [intros [] | intros [m1 [_ [[] _]]]].
  - set (lo := fold_left Z.min ms m0). set (hi := fold_left Z.max ms m0).
    rewrite in_map_iff. split.
    + intros [i [<- Hi]]. apply in_seq in Hi.
      exists lo, hi. split; [apply fold_min_In|]. split; [apply fold_max_In|]. lia.
    + intros [m1 [m2 [H1 [H2 Hb]]]].
      assert (lo <= m1).
      { destruct (fold_min_le ms m0) as [Ha Hb']. destruct H1 as [<-|H1]; auto. }
      assert (m2 <= hi).
      { destruct (fold_max_ge ms m0) as [Ha Hb']. destruct H2 as [<-|H2]; auto. }
      exists (Z.to_nat (b - lo)). split; [lia|]. apply in_seq. lia.
Qed.

Lemma seq_shift_sorted (lo : Z) (n : nat) :
  forall a, StronglySorted Z.lt (map (fun i => lo + Z.of_nat i) (seq a n)).
Proof.
  induction n as [|n IH]; intros a; simpl; constructor; [apply IH|].
  apply Forall_forall. intros z Hz. apply in_map_iff in Hz.
  destruct Hz as [i [<- Hi]]. apply in_seq in Hi. lia.
Qed.

Lemma month_bins_sorted (ms : list Z) : StronglySorted Z.lt (month_bins ms).
Proof.
  destruct ms as [|m0 ms]; simpl month_bins; [constructor|].
  apply seq_shift_sorted.
Qed.

Lemma prepare_monthly_data_dates (df : DataFrame) :
  map Monthly.order_date (prepare_monthly_data df)
  = month_bins (months_present (rows df)).
Proof.
  unfold prepare_monthly_data. rewrite map_map. simpl. apply map_id.
Qed.

(** X1.  The monthly table lists calendar months in chronological order
    without repetition, and has a row for exactly the months that lie
    between two months with a dated order line, months without any order
    included. *)
Theorem monthly_rows_are_consecutive_months (df : DataFrame) :
  StronglySorted Z.lt (map Monthly.order_date (prepare_monthly_data df))
  /\ forall b,
      In b (map Monthly.order_date (prepare_monthly_data df)) <->
      exists r1 r2 t1 t2,
        In r1 (rows df) /\ In r2 (rows df)
        /\ order_purchase_timestamp r1 = Some t1
        /\ order_purchase_timestamp r2 = Some t2
        /\ Calendar.month_index t1 <= b <= Calendar.month_index t2.
Proof.
  rewrite prepare_monthly_data_dates. split; [apply month_bins_sorted|].
  intros b. rewrite month_bins_In. split.
  - intros [m1 [m2 [H1 [H2 Hb]]]].
    apply months_present_iff in H1. destruct H1 as [r1 [Hr1 E1]].
    apply months_present_iff in H2. destruct H2 as [r2 [Hr2 E2]].
    unfold purchase_month in E1, E2.
    destruct (order_purchase_timestamp r1) as [t1|] eqn:T1; [|discriminate].
    destruct (order_purchase_timestamp r2) as [t2|] eqn:T2; [|discriminate].
    simpl in E1, E2. inversion E1. inversion E2. subst.
    exists r1, r2, t1, t2. auto.
  - intros [r1 [r2 [t1 [t2 [Hr1 [Hr2 [T1 [T2 Hb]]]]]]]].
    exists (Calendar.month_index t1), (Calendar.month_index t2).
    split; [|split; [|exact Hb]]; apply months_present_iff;
      [exists r1 | exists r2]; (split; [assumption|]);
      unfold purchase_month; [rewrite T1 | rewrite T2]; reflexivity.
Qed.

Lemma monthly_row_by_date (df : DataFrame) (row row' : Monthly.Row) :
  In row (prepare_monthly_data df) -> In row' (prepare_monthly_data df) ->
  Monthly.order_date row = Monthly.order_date row' -> row = row'.
Proof.
  unfold prepare_monthly_data. rewrite !in_map_iff.
  intros [b [<- _]] [b' [<- _]]. simpl. now intros ->.
Qed.

(** X2.  An order line with a purchase timestamp is counted in exactly
    one row of the monthly table, the row of its calendar month; a line
    without purchase timestamp is counted in no row. *)
Theorem monthly_line_counted_once (df : DataFrame) (r : OrderLine) :
  In r (rows df) ->
  (forall ts,
      order_purchase_timestamp r = Some ts ->
      exists row,
        In row (prepare_monthly_data df)
        /\ Monthly.order_date row = Calendar.month_index ts
        /\ In r (month_lines df (Monthly.order_date row))
        /\ forall row', In row' (prepare_monthly_data df) ->
                        In r (month_lines df (Monthly.order_date row')) ->
                        row' = row)
  /\ (order_purchase_timestamp r = None ->
      forall row, In row (prepare_monthly_data df) ->
                  ~ In r (month_lines df (Monthly.order_date row))).
Proof.
  intros Hr. split.
  - intros ts Hts.
    destruct (prepare_monthly_data_covers df r ts Hr Hts) as [row [Hin [Hd Hl]]].
    exists row. repeat split; try assumption.
    intros row' Hin' Hl'. apply (monthly_row_by_date df); try assumption.
    apply month_lines_In in Hl'. destruct Hl' as [_ [ts' [E <-]]].
    rewrite Hts in E. inversion E. subst. now rewrite Hd.
  - intros Hnone row _ Hl. apply month_lines_In in Hl.
    destruct Hl as [_ [ts [E _]]]. congruence.
Qed.

Lemma monthly_line_counted_once_witness :
  In line_O2 (rows sample_df)
  /\ exists row,
      In row (prepare_monthly_data sample_df)
      /\ Monthly.order_date row
         = Calendar.month_index (Calendar.mk_ts 2017 3 10 8 0 0)
      /\ In line_O2 (month_lines sample_df (Monthly.order_date row)).
Proof.
  assert (Hr : In line_O2 (rows sample_df)) by find_row.
  split; [exact Hr|].
  destruct (proj1 (monthly_line_counted_once sample_df line_O2 Hr)
                  (Calendar.mk_ts 2017 3 10 8 0 0) eq_refl)
    as [row [Hin [Hd [Hl _]]]].
  exists row. split; [exact Hin|]. split; [exact Hd | exact Hl].
Defined.

(** X4.  A row of the monthly table has an order count of 0 exactly when
    no order line falls in its month, and its revenue is then 0: the
    months the data skips are the rows with nothing in them. *)
Theorem monthly_zero_orders_iff_no_line (df : DataFrame) (row : Monthly.Row) :
  In row (prepare_monthly_data df) ->
  (Monthly.order_count row = 0%nat <->
   month_lines df (Monthly.order_date row) = [])
  /\ (Monthly.order_count row = 0%nat -> Monthly.revenue row = 0%Q).
Proof.
  intros Hin. split; [split|].
  - intros H. now apply (prepare_monthly_data_empty_month df row Hin).
  - intros E. destruct (prepare_monthly_data_row df row Hin) as [-> _].
    now rewrite E.
  - intros H. now apply (prepare_monthly_data_empty_month df row Hin).
Qed.

Lemma monthly_zero_orders_iff_no_line_witness :
  let row := {| Monthly.order_date := Calendar.month_of_year_month 2017 2;
                Monthly.order_count := 0;
                Monthly.revenue := 0%Q |} in
  In row (prepare_monthly_data sample_df)
  /\ month_lines sample_df (Monthly.order_date row) = [].
Proof.
  intros row.
  assert (Hin : In row (prepare_monthly_data sample_df)) by find_row.
  split; [exact Hin|].
  exact (proj1 (proj1 (monthly_zero_orders_iff_no_line sample_df row Hin))
               eq_refl).
Defined.

(* ===================================================================== *)
(** ** Sales and revenue trends: the date-range filter *)
(* ===================================================================== *)

Example month_end_day_checks :
  month_end_day (Calendar.month_of_year_month 2017 1)
  = Calendar.days_from_civil 2017 1 31
  /\ month_end_day (Calendar.month_of_year_month 2016 2)
     = Calendar.days_from_civil 2016 2 29
  /\ month_end_day (Calendar.month_of_year_month 2017 12)
     = Calendar.days_from_civil 2017 12 31.
Proof. repeat split; vm_compute; reflexivity. Qed.

Lemma date_min_le (l : list Z) (lo d : Z) :
  date_min l = Some lo -> In d l -> lo <= d.
Proof.
  destruct l as [|a l]; simpl; [discriminate|].
  intros E Hd. inversion E. destruct (fold_min_le l a) as [H1 H2].
  destruct Hd as [<-|Hd]; auto.
Qed.

Lemma date_max_ge (l : list Z) (hi d : Z) :
  date_max l = Some hi -> In d l -> d <= hi.
Proof.
  destruct l as [|a l]; simpl; [discriminate|].
  intros E Hd. inversion E. destruct (fold_max_ge l a) as [H1 H2].
  destruct Hd as [<-|Hd]; auto.
Qed.

(** X5.  The date-range filter of the trends page.  With the range the
    picker starts with, from the earliest to the latest month label,
    every row of the monthly table is shown.  A range of two dates keeps
    exactly the rows whose month label lies between them, both ends
    included, in their original order; anything else than two dates
    leaves the table as it is. *)
Theorem date_filter_keeps_rows_in_range (monthly_data : list Monthly.Row) :
  (forall lo hi,
      date_min (map order_date_date monthly_data) = Some lo ->
      date_max (map order_date_date monthly_data) = Some hi ->
      filtered_monthly_data [lo; hi] monthly_data = monthly_data)
  /\ (forall start_date end_date row,
         In row (filtered_monthly_data [start_date; end_date] monthly_data) <->
         In row monthly_data
         /\ start_date <= order_date_date row <= end_date)
  /\ (forall start_date end_date,
         filtered_monthly_data [start_date; end_date] monthly_data
         = filter (fun row => (start_date <=? order_date_date row)
                              && (order_date_date row <=? end_date))
                  monthly_data)
  /\ (forall date_range,
         List.length date_range <> 2%nat ->
         filtered_monthly_data date_range monthly_data = monthly_data).
Proof.
  split; [|split; [|split]].
  - intros lo hi Hlo Hhi. simpl. apply filter_all. intros row Hrow.
    assert (Hd : In (order_date_date row) (map order_date_date monthly_data))
      by now apply in_map.
    pose proof (date_min_le _ _ _ Hlo Hd). pose proof (date_max_ge _ _ _ Hhi Hd).
    apply andb_true_iff. split; apply Z.leb_le; assumption.
  - intros s e row. simpl. rewrite filter_In, andb_true_iff, !Z.leb_le. tauto.
  - reflexivity.
  - intros [|a [|b [|c l]]] H; simpl in *; try reflexivity. congruence.
Qed.

Lemma date_filter_keeps_rows_in_range_witness :
  exists lo hi,
    date_min (map order_date_date (prepare_monthly_data sample_df)) = Some lo
    /\ date_max (map order_date_date (prepare_monthly_data sample_df)) = Some hi
    /\ filtered_monthly_data [lo; hi] (prepare_monthly_data sample_df)
       = prepare_monthly_data sample_df.
Proof.
  eexists. eexists.
  assert (Hlo : date_min (map order_date_date (prepare_monthly_data sample_df))
                = Some (Calendar.days_from_civil 2017 1 31))
    by (vm_compute; reflexivity).
  assert (Hhi : date_max (map order_date_date (prepare_monthly_data sample_df))
                = Some (Calendar.days_from_civil 2017 3 31))
    by (vm_compute; reflexivity).
  split; [exact Hlo|]. split; [exact Hhi|].
  exact (proj1 (date_filter_keeps_rows_in_range (prepare_monthly_data sample_df))
               _ _ Hlo Hhi).
Defined.

(* ===================================================================== *)
(** ** Delivery performance aggregator: one row per delivered order *)
(* ===================================================================== *)

Lemma drop_duplicates_from_complete (l : list OrderLine) :
  forall seen r,
    In r l -> ~ In (order_id r) seen ->
    exists r', In r' (drop_duplicates_from seen l) /\ order_id r' = order_id r.
Proof.
  induction l as [|x l IH]; simpl; intros seen r Hr Hseen; [tauto|].
  destruct (existsb (String.eqb (order_id x)) seen) eqn:E.
  - destruct Hr as [->|Hr].
    + exfalso. apply Hseen. apply existsb_exists in E.
      destruct E as [o [Ho Eo]]. apply String.eqb_eq in Eo. now rewrite Eo.
    + now apply IH.
  - destruct Hr as [->|Hr]; [exists r; split; [now left | reflexivity]|].
    destruct (string_dec (order_id r) (order_id x)) as [Eid|Nid].
    + exists x. split; [now left | now symmetry].
    + destruct (IH (order_id x :: seen) r Hr) as [r' [H1 H2]].
      * intros [E'|H']; [now apply Nid | now apply Hseen].
      * exists r'. split; [now right | exact H2].
Qed.

Lemma drop_duplicates_from_first (l : list OrderLine) :
  forall seen r,
    In r (drop_duplicates_from seen l) ->
    exists l1 l2, l = l1 ++ r :: l2
                  /\ forall x, In x l1 -> order_id x <> order_id r.
Proof.
  induction l as [|x l IH]; simpl; intros seen r Hr; [tauto|].
  destruct (existsb (String.eqb (order_id x)) seen) eqn:E.
  - pose proof (drop_duplicates_from_In _ _ _ Hr) as [_ Hnot].
    destruct (IH _ _ Hr) as [l1 [l2 [-> Hl1]]].
    exists (x :: l1), l2. split; [reflexivity|].
    intros y [<-|Hy]; [|now apply Hl1].
    intros Eid. apply Hnot. rewrite <- Eid.
    apply existsb_exists in E. destruct E as [o [Ho Eo]].
    apply String.eqb_eq in Eo. now rewrite Eo.
  - destruct Hr as [<-|Hr].
    + exists [], l. split; [reflexivity | intros y []].
    + pose proof (drop_duplicates_from_In _ _ _ Hr) as [_ Hnot].
      destruct (IH _ _ Hr) as [l1 [l2 [-> Hl1]]].
      exists (x :: l1), l2. split; [reflexivity|].
      intros y [<-|Hy]; [|now apply Hl1].
      intros Eid. apply Hnot. left. exact Eid.
Qed.

(** X6.  The delivery table has exactly one row for every order that has
    a line with a customer-delivery timestamp, and none for the other
    orders; the row of an order is built from the first such line of the
    order in file order. *)
Theorem delivery_one_row_per_delivered_order (df : DataFrame) :
  NoDup (map (fun d => order_id (Delivery.line d)) (prepare_delivery_data df))
  /\ (forall o,
         In o (map (fun d => order_id (Delivery.line d))
                   (prepare_delivery_data df)) <->
         exists r, In r (rows df) /\ order_id r = o
                   /\ order_delivered_customer_date r <> None)
  /\ (forall d,
         In d (prepare_delivery_data df) ->
         exists l1 l2,
           dropna_delivered (rows df) = l1 ++ Delivery.line d :: l2
           /\ forall x, In x l1 -> order_id x <> order_id (Delivery.line d)).
Proof.
  split; [apply prepare_delivery_data_one_per_order|]. split.
  - intros o. rewrite in_map_iff. split.
    + intros [d [<- Hd]]. apply prepare_delivery_data_In in Hd.
      destruct Hd as [Hr [[ts Hts] _]].
      exists (Delivery.line d). split; [exact Hr|]. split; [reflexivity | congruence].
    + intros [r [Hr [<- Hd]]].
      assert (Hin : In r (dropna_delivered (rows df))).
      { unfold dropna_delivered. apply filter_In. split; [exact Hr|].
        destruct (order_delivered_customer_date r); congruence. }
      destruct (drop_duplicates_from_complete _ [] r Hin) as [r' [Hr' Eid]];
        [tauto|].
      eexists. split; [|unfold prepare_delivery_data; apply in_map; exact Hr'].
      exact Eid.
  - intros d Hd. unfold prepare_delivery_data in Hd. apply in_map_iff in Hd.
    destruct Hd as [r [<- Hr]]. simpl.
    now apply (drop_duplicates_from_first _ []).
Qed.

Lemma nunique_of_enumeration (l ids : list string) :
  NoDup ids -> (forall o, In o ids <-> In o l) -> List.length ids = nunique l.
Proof. intros H1 H2. symmetry. now apply nunique_unique. Qed.

(** X7.  The number of rows of the delivery table is the number of
    distinct order identifiers among the lines with a customer-delivery
    timestamp; it never exceeds the total number of orders, and equals it
    when every line has a customer-delivery timestamp. *)
Theorem delivery_rows_at_most_total_orders (df : DataFrame) :
  List.length (prepare_delivery_data df)
  = nunique (map order_id (dropna_delivered (rows df)))
  /\ (List.length (prepare_delivery_data df) <= total_orders df)%nat
  /\ ((forall r, In r (rows df) -> order_delivered_customer_date r <> None) ->
      List.length (prepare_delivery_data df) = total_orders df).
Proof.
  assert (Hlen : List.length (prepare_delivery_data df)
                 = nunique (map order_id (dropna_delivered (rows df)))).
  { rewrite <- (length_map (fun d => order_id (Delivery.line d))).
    apply nunique_of_enumeration; [apply prepare_delivery_data_one_per_order|].
    intros o. unfold prepare_delivery_data. rewrite map_map. simpl.
    rewrite !in_map_iff. split.
    - intros [r [<- Hr]]. apply drop_duplicates_from_In in Hr. exists r. tauto.
    - intros [r [<- Hr]].
      destruct (drop_duplicates_from_complete _ [] r Hr) as [r' [Hr' Eid]];
        [tauto|].
      exists r'. split; [exact Eid | exact Hr']. }
  split; [exact Hlen|]. split.
  - rewrite Hlen. unfold total_orders, nunique.
    apply NoDup_incl_length; [apply NoDup_nodup|].
    intros o Ho. apply nodup_In in Ho. apply nodup_In.
    apply in_map_iff in Ho. destruct Ho as [r [<- Hr]].
    apply in_map. unfold dropna_delivered in Hr. apply filter_In in Hr. tauto.
  - intros Hall. rewrite Hlen. unfold total_orders, dropna_delivered.
    rewrite filter_all; [reflexivity|].
    intros r Hr. specialize (Hall r Hr).
    now destruct (order_delivered_customer_date r).
Qed.

Lemma delivery_rows_at_most_total_orders_witness :
  List.length (prepare_delivery_data sample_df) = 2%nat
  /\ total_orders sample_df = 3%nat
  /\ (List.length (prepare_delivery_data sample_df) <= total_orders sample_df)%nat.
Proof.
  split; [reflexivity|]. split; [reflexivity|].
  exact (proj1 (proj2 (delivery_rows_at_most_total_orders sample_df))).
Defined.

(* ===================================================================== *)
(** ** [groupby]: keys and sizes *)
(* ===================================================================== *)

Section GroupByShape.

Context {A : Type}.
Variable key : A -> string.

Lemma groupby_keys_In (l : list A) (k : string) :
  In k (map fst (groupby key l)) <-> exists r, In r l /\ key r = k.
Proof.
  split.
  - intros H. apply in_map_iff in H. destruct H as [[k' g] [E Hin]].
    simpl in E. subst k'. eapply groupby_key_of_row; eassumption.
  - intros [r [Hr <-]]. apply in_map_iff.
    exists (key r, rows_with key (key r) l). split; [reflexivity|].
    now apply groupby_has_key.
Qed.


Lemma groupby_length (l : list A) :
  List.length (groupby key l) = nunique (map key l).
Proof.
  rewrite <- (length_map fst). apply nunique_of_enumeration.
  - apply groupby_keys_NoDup.
  - intros k. rewrite groupby_keys_In, in_map_iff.
    split; intros [r [H1 H2]]; exists r; auto.
Qed.

End GroupByShape.

(* ===================================================================== *)
(** ** Minimum, maximum and mean of a column *)
(* ===================================================================== *)

Section ColumnBounds.

Lemma q_min_fold (l : list Q) :
  forall a, In (fold_left q_min l a) (a :: l)
            /\ (fold_left q_min l a <= a)%Q
            /\ forall x, In x l -> (fold_left q_min l a <= x)%Q.
Proof.
  induction l as [|y l IH]; intros a; simpl.
  - split; [now left|]. split; [apply Qle_refl | tauto].
  - destruct (IH (q_min a y)) as [Hin [Hle Hall]].
    assert (Hm : (q_min a y <= a)%Q /\ (q_min a y <= y)%Q
                 /\ (q_min a y = a \/ q_min a y = y)).
    { unfold q_min. destruct (Qle_bool a y) eqn:E.
      - apply Qle_bool_iff in E. split; [apply Qle_refl|]. split; [exact E | now left].
      - destruct (Qle_bool_total a y) as [H|H]; [congruence|].
        apply Qle_bool_iff in H. split; [exact H|]. split; [apply Qle_refl | now right]. }
    destruct Hm as [Ha [Hy Hcase]]. split; [|split].
    + destruct Hin as [E|Hin]; [|now right; right].
      rewrite <- E. destruct Hcase as [->| ->]; auto.
    + eapply Qle_trans; eassumption.
    + intros x [<-|Hx]; [eapply Qle_trans; eassumption | now apply Hall].
Qed.

Lemma q_max_fold (l : list Q) :
  forall a, In (fold_left q_max l a) (a :: l)
            /\ (a <= fold_left q_max l a)%Q
            /\ forall x, In x l -> (x <= fold_left q_max l a)%Q.
Proof.
  induction l as [|y l IH]; intros a; simpl.
  - split; [now left|]. split; [apply Qle_refl | tauto].
  - destruct (IH (q_max a y)) as [Hin [Hle Hall]].
    assert (Hm : (a <= q_max a y)%Q /\ (y <= q_max a y)%Q
                 /\ (q_max a y = a \/ q_max a y = y)).
    { unfold q_max. destruct (Qle_bool a y) eqn:E.
      - apply Qle_bool_iff in E. split; [exact E|]. split; [apply Qle_refl | now right].
      - destruct (Qle_bool_total a y) as [H|H]; [congruence|].
        apply Qle_bool_iff in H. split; [apply Qle_refl|]. split; [exact H | now left]. }
    destruct Hm as [Ha [Hy Hcase]]. split; [|split].
    + destruct Hin as [E|Hin]; [|now right; right].
      rewrite <- E. destruct Hcase as [->| ->]; auto.
    + eapply Qle_trans; eassumption.
    + intros x [<-|Hx]; [eapply Qle_trans; eassumption | now apply Hall].
Qed.

Lemma qmin_list_spec (l : list Q) :
  l <> [] ->
  exists mn, qmin_list l = Some mn /\ In mn l
             /\ forall x, In x l -> (mn <= x)%Q.
Proof.
  destruct l as [|a l]; [congruence|]. intros _. simpl.
  destruct (q_min_fold l a) as [Hin [Hle Hall]].
  eexists. split; [reflexivity|]. split; [exact Hin|].
  intros x [<-|Hx]; auto.
Qed.

Lemma qmax_list_spec (l : list Q) :
  l <> [] ->
  exists mx, qmax_list l = Some mx /\ In mx l
             /\ forall x, In x l -> (x <= mx)%Q.
Proof.
  destruct l as [|a l]; [congruence|]. intros _. simpl.
  destruct (q_max_fold l a) as [Hin [Hle Hall]].
  eexists. split; [reflexivity|]. split; [exact Hin|].
  intros x [<-|Hx]; auto.
Qed.

Lemma inject_Z_succ (n : nat) :
  (inject_Z (Z.of_nat (S n)) == 1 + inject_Z (Z.of_nat n))%Q.
Proof. rewrite Nat2Z.inj_succ, <- Z.add_1_l, inject_Z_plus. reflexivity. Qed.

Lemma qsum_bounds (lo hi : Q) (l : list Q) :
  (forall x, In x l -> (lo <= x)%Q /\ (x <= hi)%Q) ->
  (inject_Z (Z.of_nat (List.length l)) * lo <= qsum l)%Q
  /\ (qsum l <= inject_Z (Z.of_nat (List.length l)) * hi)%Q.
Proof.
  induction l as [|x l IH]; intros H.
  - simpl. rewrite qsum_nil. split; ring_simplify; apply Qle_refl.
  - destruct IH as [IH1 IH2]; [intros y Hy; apply H; now right|].
    destruct (H x) as [Hx1 Hx2]; [now left|].
    simpl List.length. rewrite inject_Z_succ, qsum_cons. split.
    + setoid_replace ((1 + inject_Z (Z.of_nat (List.length l))) * lo)%Q
        with (lo + inject_Z (Z.of_nat (List.length l)) * lo)%Q by ring.
      now apply Qplus_le_compat.
    + setoid_replace ((1 + inject_Z (Z.of_nat (List.length l))) * hi)%Q
        with (hi + inject_Z (Z.of_nat (List.length l)) * hi)%Q by ring.
      now apply Qplus_le_compat.
Qed.

(** The mean of a non-empty column lies between any two bounds of its
    cells, and times the number of cells it gives back the sum. *)
Lemma qmean_bounds (lo hi : Q) (l : list Q) :
  l <> [] ->
  (forall x, In x l -> (lo <= x)%Q /\ (x <= hi)%Q) ->
  exists av, qmean l = Some av
             /\ (lo <= av)%Q /\ (av <= hi)%Q
             /\ (av * inject_Z (Z.of_nat (List.length l)) == qsum l)%Q.
Proof.
  intros Hne Hb. destruct (qsum_bounds lo hi l Hb) as [H1 H2].
  assert (Hn : (0 < inject_Z (Z.of_nat (List.length l)))%Q).
  { destruct l; [congruence|]. simpl List.length.
    rewrite <- (Zlt_Qlt 0). lia. }
  exists (qsum l / inject_Z (Z.of_nat (List.length l)))%Q.
  split; [destruct l; [congruence | reflexivity]|].
  split; [|split].
  - apply Qle_shift_div_l; [exact Hn|]. now rewrite Qmult_comm.
  - apply Qle_shift_div_r; [exact Hn|]. now rewrite Qmult_comm.
  - field. intros E. rewrite E in Hn. now apply Qlt_irrefl in Hn.
Qed.

End ColumnBounds.

Lemma nunique_pos (l : list string) : l <> [] -> (1 <= nunique l)%nat.
Proof.
  destruct l as [|x l]; [congruence|]. intros _. unfold nunique.
  assert (H : In x (nodup string_dec (x :: l))) by (apply nodup_In; now left).
  destruct (nodup string_dec (x :: l)); [destruct H | simpl; lia].
Qed.

(* ===================================================================== *)
(** ** The first rows of a ranking *)
(* ===================================================================== *)

Section HeadOfRanking.

Context {A : Type}.
Variable R : A -> A -> Prop.

Lemma StronglySorted_app_cross (l1 l2 : list A) :
  StronglySorted R (l1 ++ l2) ->
  forall x y, In x l1 -> In y l2 -> R x y.
Proof.
  induction l1 as [|a l1 IH]; simpl; intros Hs x y Hx Hy; [destruct Hx|].
  apply StronglySorted_inv in Hs. destruct Hs as [Hs Hall].
  destruct Hx as [<-|Hx]; [|now apply IH].
  rewrite Forall_forall in Hall. apply Hall. apply in_or_app. now right.
Qed.

(** In a ranking, every row of the head ranks before every row that is
    not in the head. *)
Lemma head_dominates (n : nat) (l : list A) :
  StronglySorted R l ->
  forall x y, In x (head n l) -> In y l -> ~ In y (head n l) -> R x y.
Proof.
  intros Hs x y Hx Hy Hny. unfold head in *.
  rewrite <- (firstn_skipn n l) in Hs, Hy.
  apply in_app_or in Hy. destruct Hy as [Hy|Hy]; [contradiction|].
  eapply StronglySorted_app_cross; eassumption.
Qed.

Lemma head_In (n : nat) (l : list A) (x : A) : In x (head n l) -> In x l.
Proof.
  unfold head. intros H. rewrite <- (firstn_skipn n l).
  apply in_or_app. now left.
Qed.

Lemma head_length (n : nat) (l : list A) :
  List.length (head n l) = Nat.min n (List.length l).
Proof. apply length_firstn. Qed.

End HeadOfRanking.

(* ===================================================================== *)
(** ** Category aggregator: the statistics table *)
(* ===================================================================== *)

Lemma le_by_total_sales_total (a b : Category.Stat) :
  le_by_total_sales a b = true \/ le_by_total_sales b a = true.
Proof. apply Qle_bool_total. Qed.

Lemma le_by_total_sales_trans (a b c : Category.Stat) :
  le_by_total_sales a b = true -> le_by_total_sales b c = true ->
  le_by_total_sales a c = true.
Proof. apply Qle_bool_trans. Qed.

Lemma category_stats_perm (df : DataFrame) :
  Permutation (category_stats df) (category_agg df).
Proof. apply sort_values_perm. Qed.

Lemma category_agg_names (df : DataFrame) :
  map Category.product_category_name_english (category_agg df)
  = map fst (groupby product_category_name_english (rows df)).
Proof. unfold category_agg. rewrite map_map. reflexivity. Qed.

Lemma category_stats_names_NoDup (df : DataFrame) :
  NoDup (map Category.product_category_name_english (category_stats df)).
Proof.
  eapply Permutation_NoDup.
  - symmetry. apply Permutation_map. apply category_stats_perm.
  - rewrite category_agg_names. apply groupby_keys_NoDup.
Qed.

Lemma category_stats_length (df : DataFrame) :
  List.length (category_stats df)
  = nunique (map product_category_name_english (rows df)).
Proof.
  rewrite (Permutation_length (category_stats_perm df)).
  unfold category_agg. rewrite length_map. apply groupby_length.
Qed.

(** X8.  The statistics table has one row per distinct category of the
    order lines, each category name once, and its rows are in descending
    order of total sales. *)
Theorem category_stats_ranked_by_total_sales (df : DataFrame) :
  StronglySorted
    (fun a b => (Category.total_sales b <= Category.total_sales a)%Q)
    (category_stats df)
  /\ NoDup (map Category.product_category_name_english (category_stats df))
  /\ List.length (category_stats df)
     = nunique (map product_category_name_english (rows df))
  /\ (forall c,
         In c (map Category.product_category_name_english (category_stats df))
         <-> exists r, In r (rows df) /\ product_category_name_english r = c).
Proof.
  split; [|split; [apply category_stats_names_NoDup|
                   split; [apply category_stats_length|]]].
  - pose proof (sort_values_sorted le_by_total_sales le_by_total_sales_total
                  le_by_total_sales_trans false (category_agg df)) as H.
    eapply StronglySorted_weaken; [|exact H].
    intros a b. simpl. unfold le_by_total_sales. now rewrite Qle_bool_iff.
  - intros c. split.
    + intros H.
      apply (Permutation_in _ (Permutation_map _ (category_stats_perm df))) in H.
      rewrite category_agg_names in H. now apply groupby_keys_In in H.
    + intros H.
      apply (Permutation_in _ (Permutation_sym
               (Permutation_map _ (category_stats_perm df)))).
      rewrite category_agg_names. now apply groupby_keys_In.
Qed.

(** X9.  Every row of the statistics table describes a non-empty set of
    order lines: the item count is their number, the order count lies
    between 1 and the item count, and the minimum and the maximum price
    are prices of two of the lines and bound the price of every line. *)
Theorem category_stats_row_invariants (df : DataFrame) (row : Category.Stat) :
  In row (category_stats df) ->
  let ls := lines_of_category df (Category.product_category_name_english row) in
  ls <> []
  /\ Category.item_count row = List.length ls
  /\ (1 <= Category.order_count row <= Category.item_count row)%nat
  /\ exists mn mx,
      Category.min_price row = Some mn
      /\ Category.max_price row = Some mx
      /\ In mn (map price ls) /\ In mx (map price ls)
      /\ (forall r, In r ls -> (mn <= price r)%Q /\ (price r <= mx)%Q).
Proof.
  intros Hin ls.
  apply (Permutation_in _ (category_stats_perm df)) in Hin.
  unfold category_agg in Hin. apply groupby_map_In in Hin.
  destruct Hin as [c [[r0 [Hr0 Hc]] ->]]. simpl in *.
  fold (lines_of_category df c) in *. subst ls.
  set (ls := lines_of_category df c).
  assert (Hne : ls <> []).
  { intros E. assert (H : In r0 ls) by (apply rows_with_In; now split).
    rewrite E in H. exact H. }
  assert (Hpne : map price ls <> [])
    by (intros E; apply map_eq_nil in E; contradiction).
  split; [exact Hne|]. split; [now rewrite length_map|]. split.
  - split.
    + apply nunique_pos. intros E. apply map_eq_nil in E. contradiction.
    + rewrite length_map, <- (length_map order_id). apply nunique_le.
  - destruct (qmin_list_spec _ Hpne) as [mn [Emn [Hmn Hlo]]].
    destruct (qmax_list_spec _ Hpne) as [mx [Emx [Hmx Hhi]]].
    exists mn, mx. repeat split; try assumption.
    + apply Hlo. now apply in_map.
    + apply Hhi. now apply in_map.
Qed.

Lemma category_stats_row_invariants_witness :
  let row := {| Category.product_category_name_english := "toys";
                Category.order_count := 2;
                Category.item_count := 3;
                Category.min_price := Some 5%Q;
                Category.avg_price := Some (35 # 3);
                Category.max_price := Some 20%Q;
                Category.total_sales := 35%Q |} in
  In row (category_stats sample_df)
  /\ (1 <= Category.order_count row <= Category.item_count row)%nat.
Proof.
  intros row.
  assert (Hin : In row (category_stats sample_df)) by find_row.
  split; [exact Hin|].
  exact (proj1 (proj2 (proj2 (category_stats_row_invariants sample_df row Hin)))).
Defined.

Lemma category_price_sum_length (df : DataFrame) :
  List.length (category_price_sum df)
  = nunique (map product_category_name_english (rows df)).
Proof. unfold category_price_sum. rewrite length_map. apply groupby_length. Qed.

(** X11.  What "top" and "bottom" mean: [top_categories] holds the ten
    categories with the largest summed price (all of them when there are
    fewer), so every category left out has a sum no larger than each
    listed one; [bottom_categories] likewise holds the smallest sums. *)
Theorem top_and_bottom_categories_are_extremes (df : DataFrame) :
  List.length (top_categories df)
  = Nat.min 10 (nunique (map product_category_name_english (rows df)))
  /\ List.length (bottom_categories df)
     = Nat.min 10 (nunique (map product_category_name_english (rows df)))
  /\ (forall x, In x (top_categories df) -> In x (category_price_sum df))
  /\ (forall x, In x (bottom_categories df) -> In x (category_price_sum df))
  /\ (forall x y,
         In x (top_categories df) -> In y (category_price_sum df) ->
         ~ In y (top_categories df) -> (snd y <= snd x)%Q)
  /\ (forall x y,
         In x (bottom_categories df) -> In y (category_price_sum df) ->
         ~ In y (bottom_categories df) -> (snd x <= snd y)%Q).
Proof.
  unfold top_categories, bottom_categories.
  fold (category_ranking df false). fold (category_ranking df true).
  repeat split.
  - rewrite head_length, (Permutation_length (category_ranking_perm df false)).
    now rewrite category_price_sum_length.
  - rewrite head_length, (Permutation_length (category_ranking_perm df true)).
    now rewrite category_price_sum_length.
  - intros x Hx. apply head_In in Hx.
    now apply (Permutation_in _ (category_ranking_perm df false)).
  - intros x Hx. apply head_In in Hx.
    now apply (Permutation_in _ (category_ranking_perm df true)).
  - intros x y Hx Hy Hny.
    apply (head_dominates (fun a b => (snd b <= snd a)%Q) 10
                          (category_ranking df false)); try assumption.
    + apply category_ranking_descending.
    + now apply (Permutation_in _ (Permutation_sym
                                     (category_ranking_perm df false))).
  - intros x y Hx Hy Hny.
    apply (head_dominates (fun a b => (snd a <= snd b)%Q) 10
                          (category_ranking df true)); try assumption.
    + apply category_ranking_ascending.
    + now apply (Permutation_in _ (Permutation_sym
                                     (category_ranking_perm df true))).
Qed.

(* ===================================================================== *)
(** ** Product category analysis: the category filter *)
(* ===================================================================== *)

Lemma map_filter_comm {A B : Type} (f : A -> B) (p : B -> bool) (l : list A) :
  map f (filter (fun r => p (f r)) l) = filter p (map f l).
Proof.
  induction l as [|r l IH]; [reflexivity|]. cbn [filter map].
  destruct (p (f r)); cbn [map]; now rewrite IH.
Qed.

Section CategoryFilterFacts.

Variable round2 : Q -> Q.

Lemma display_category_stats_names (stats : list Category.Stat) :
  map Category.product_category_name_english
      (display_category_stats round2 stats)
  = map Category.product_category_name_english stats.
Proof. unfold display_category_stats. rewrite map_map. reflexivity. Qed.

Lemma display_category_stats_head (n : nat) (stats : list Category.Stat) :
  head n (display_category_stats round2 stats)
  = display_category_stats round2 (head n stats).
Proof. unfold head, display_category_stats. apply firstn_map. Qed.

Lemma isin_In (selected : list string) (name : string) :
  isin selected name = true <-> In name selected.
Proof.
  unfold isin. rewrite existsb_exists. split.
  - intros [o [Ho E]]. apply String.eqb_eq in E. now subst.
  - intros H. exists name. split; [exact H | apply String.eqb_refl].
Qed.

(** Selecting the names of the first [n] rows of a table whose names are
    all different gives back those [n] rows. *)
Lemma filter_names_of_head (n : nat) (l : list Category.Stat) :
  NoDup (map Category.product_category_name_english l) ->
  filter (fun r => isin (map Category.product_category_name_english
                             (firstn n l))
                        (Category.product_category_name_english r)) l
  = firstn n l.
Proof.
  revert n. induction l as [|x l IH]; intros n Hnd; [now destruct n|].
  inversion Hnd as [|x' l' Hx Hnd']; subst.
  destruct n as [|n].
  - simpl firstn. simpl map. generalize (x :: l). clear.
    intros l. induction l as [|r l IHl]; [reflexivity | exact IHl].
  - simpl firstn. simpl map. simpl filter.
    unfold isin at 1. simpl existsb. rewrite String.eqb_refl. simpl.
    f_equal.
    transitivity
      (filter (fun r => isin (map Category.product_category_name_english
                                  (firstn n l))
                             (Category.product_category_name_english r)) l);
      [|now apply IH].
    apply filter_ext_in. intros r Hr. unfold isin. simpl existsb.
    destruct (String.eqb_spec (Category.product_category_name_english r)
                              (Category.product_category_name_english x))
      as [E|_]; [|reflexivity].
    exfalso. apply Hx. rewrite <- E. now apply in_map.
Qed.

Lemma filtered_stats_default (stats : list Category.Stat) :
  NoDup (map Category.product_category_name_english stats) ->
  filtered_stats round2 (default_selected_categories stats) stats
  = head 5 (display_category_stats round2 stats).
Proof.
  intros Hnd. unfold filtered_stats.
  destruct (default_selected_categories stats) as [|s sel] eqn:E.
  - unfold default_selected_categories in E. apply map_eq_nil in E.
    destruct stats as [|x l]; [reflexivity | discriminate].
  - rewrite <- E. unfold default_selected_categories.
    replace (map Category.product_category_name_english (head 5 stats))
      with (map Category.product_category_name_english
                (firstn 5 (display_category_stats round2 stats))).
    + apply filter_names_of_head. now rewrite display_category_stats_names.
    + fold (head 5 (display_category_stats round2 stats)).
      now rewrite display_category_stats_head, display_category_stats_names.
Qed.

End CategoryFilterFacts.

(** X12.  The category filter of the details table.  With nothing
    selected every category is shown, one row per distinct category.
    With the selection the page starts with, the table shows exactly its
    first five rows, the five categories with the largest total sales.
    Any other selection shows the rows of the selected names, in ranking
    order, and ignores names that are not a category. *)
Theorem category_filter_shows_selection (round2 : Q -> Q) (df : DataFrame) :
  filtered_stats round2 [] (category_stats df)
  = display_category_stats round2 (category_stats df)
  /\ List.length (filtered_stats round2 [] (category_stats df))
     = nunique (map product_category_name_english (rows df))
  /\ filtered_stats round2 (default_selected_categories (category_stats df))
                    (category_stats df)
     = head 5 (display_category_stats round2 (category_stats df))
  /\ (forall selected row,
         selected <> [] ->
         (In row (filtered_stats round2 selected (category_stats df)) <->
          In row (display_category_stats round2 (category_stats df))
          /\ In (Category.product_category_name_english row) selected))
  /\ (forall selected,
         map Category.product_category_name_english
             (filtered_stats round2 selected (category_stats df))
         = match selected with
           | [] => map Category.product_category_name_english (category_stats df)
           | _ :: _ =>
               filter (isin selected)
                      (map Category.product_category_name_english
                           (category_stats df))
           end).
Proof.
  split; [reflexivity|]. split; [|split; [|split]].
  - simpl. unfold display_category_stats. rewrite length_map.
    apply category_stats_length.
  - apply filtered_stats_default. apply category_stats_names_NoDup.
  - intros selected row Hsel. destruct selected as [|s sel]; [congruence|].
    unfold filtered_stats. rewrite filter_In. now rewrite isin_In.
  - intros [|s sel]; simpl filtered_stats.
    + apply display_category_stats_names.
    + rewrite <- (display_category_stats_names round2 (category_stats df)).
      apply (map_filter_comm Category.product_category_name_english
                             (isin (s :: sel))).
Qed.

Lemma category_filter_shows_selection_witness :
  In "toys" ["toys"; "garden"]
  /\ map Category.product_category_name_english
         (filtered_stats Qred ["toys"; "garden"] (category_stats sample_df))
     = ["toys"].
Proof.
  split; [now left|].
  rewrite (proj2 (proj2 (proj2 (proj2
             (category_filter_shows_selection Qred sample_df))))).
  vm_compute. reflexivity.
Defined.

(* ===================================================================== *)
(** ** Distinct counts over groups *)
(* ===================================================================== *)

(** Counting distinct identifiers group by group counts every identifier
    of a covered row at least once. *)
Lemma nunique_le_group_sum {A K : Type} (p : K -> A -> bool) (q : A -> bool)
      (f : A -> string) (ks : list K) (l : list A) :
  (forall x, In x l -> q x = true -> exists k, In k ks /\ p k x = true) ->
  (nunique (map f (filter q l))
   <= list_sum (map (fun k => nunique (map f (filter (p k) l))) ks))%nat.
Proof.
  intros Hcover. unfold nunique.
  replace (list_sum (map (fun k => List.length
                                     (nodup string_dec (map f (filter (p k) l))))
                         ks))
    with (List.length
            (List.concat (map (fun k => nodup string_dec (map f (filter (p k) l)))
                         ks)))
    by (rewrite length_concat, map_map; reflexivity).
  apply NoDup_incl_length; [apply NoDup_nodup|].
  intros o Ho. apply nodup_In in Ho. apply in_map_iff in Ho.
  destruct Ho as [x [<- Hx]]. apply filter_In in Hx. destruct Hx as [Hx Hq].
  destruct (Hcover x Hx Hq) as [k [Hk Hp]].
  apply in_concat. exists (nodup string_dec (map f (filter (p k) l))).
  split; [apply in_map_iff; now exists k|].
  apply nodup_In. apply in_map. apply filter_In. now split.
Qed.


(** X13.  The order counts of the monthly table add up to at least the
    number of distinct orders among the order lines that have a purchase
    timestamp: an order is counted in the month of each of its lines. *)
Theorem monthly_order_counts_cover_dated_orders (df : DataFrame) :
  (nunique (map order_id (filter has_purchase_timestamp (rows df)))
   <= list_sum (map Monthly.order_count (prepare_monthly_data df)))%nat.
Proof.
  unfold prepare_monthly_data. rewrite map_map. simpl.
  apply (nunique_le_group_sum in_month).
  intros r Hr Hq. exists (match purchase_month r with
                          | Some m => m | None => 0 end).
  unfold has_purchase_timestamp in Hq. unfold in_month, purchase_month.
  destruct (order_purchase_timestamp r) as [ts|] eqn:E; [|discriminate].
  simpl. split; [|apply Z.eqb_refl].
  apply month_bins_cover. apply (months_present_In _ r); [exact Hr|].
  unfold purchase_month. now rewrite E.
Qed.

(* ===================================================================== *)
(** ** Customer RFM aggregator: the table *)
(* ===================================================================== *)

Lemma prepare_rfm_data_ids (df : DataFrame) :
  map Rfm.customer_id (prepare_rfm_data df)
  = map fst (groupby customer_id (rows df)).
Proof. unfold prepare_rfm_data, rfm_agg. rewrite !map_map. reflexivity. Qed.

(** X14.  The RFM table has one row per distinct customer, in increasing
    order of customer identifier, and the frequency of a customer lies
    between 1 and the number of the customer's order lines. *)
Theorem rfm_one_row_per_customer (df : DataFrame) :
  StronglySorted String_as_OT.lt (map Rfm.customer_id (prepare_rfm_data df))
  /\ NoDup (map Rfm.customer_id (prepare_rfm_data df))
  /\ List.length (prepare_rfm_data df) = nunique (map customer_id (rows df))
  /\ (forall c, In c (map Rfm.customer_id (prepare_rfm_data df)) <->
                exists r, In r (rows df) /\ customer_id r = c)
  /\ (forall row,
         In row (prepare_rfm_data df) ->
         (1 <= Rfm.frequency row
          <= List.length (rows_with customer_id (Rfm.customer_id row) (rows df)))%nat).
Proof.
  rewrite prepare_rfm_data_ids.
  split; [apply (grouped_sorted _ _ _ (groupby_grouped customer_id (rows df)))|].
  split; [apply groupby_keys_NoDup|]. split; [|split].
  - unfold prepare_rfm_data, rfm_agg. rewrite !length_map. apply groupby_length.
  - intros c. apply groupby_keys_In.
  - intros row Hin.
    destruct (prepare_rfm_data_row df row Hin) as [[r0 [Hr0 Hc]] [Hf _]].
    rewrite Hf. split.
    + apply nunique_pos. intros E. apply map_eq_nil in E.
      assert (H : In r0 (rows_with customer_id (Rfm.customer_id row) (rows df)))
        by (apply rows_with_In; now split).
      rewrite E in H. exact H.
    + rewrite <- (length_map order_id). apply nunique_le.
Qed.

Lemma rfm_one_row_per_customer_witness :
  let row := {| Rfm.customer_id := "C1"; Rfm.frequency := 1;
                Rfm.monetary := 15%Q; Rfm.recency := Some 74 |} in
  In row (prepare_rfm_data sample_df)
  /\ (1 <= Rfm.frequency row
      <= List.length (rows_with customer_id (Rfm.customer_id row)
                                (rows sample_df)))%nat.
Proof.
  intros row.
  assert (Hin : In row (prepare_rfm_data sample_df)) by find_row.
  split; [exact Hin|].
  exact (proj2 (proj2 (proj2 (proj2
           (rfm_one_row_per_customer sample_df)))) row Hin).
Defined.

Lemma ts_max_of_member (l : list (option Z)) (x : Z) :
  In (Some x) l -> exists m, ts_max l = Some m /\ x <= m.
Proof.
  intros Hx. destruct (ts_max l) as [m|] eqn:E.
  - exists m. split; [reflexivity|]. eapply ts_max_upper; eassumption.
  - rewrite ts_max_None in E. apply E in Hx. discriminate.
Qed.

(** X15.  As soon as one order line has a purchase timestamp, some
    customer has recency 0: the customer of a line with the latest
    purchase timestamp.  When no line has a purchase timestamp, every
    recency is null. *)
Theorem rfm_latest_purchaser_has_recency_zero (df : DataFrame) :
  ((exists r, In r (rows df) /\ order_purchase_timestamp r <> None) ->
   exists r row,
     In r (rows df)
     /\ ts_max (all_purchases df) = order_purchase_timestamp r
     /\ In row (prepare_rfm_data df)
     /\ Rfm.customer_id row = customer_id r
     /\ Rfm.recency row = Some 0)
  /\ ((forall r, In r (rows df) -> order_purchase_timestamp r = None) ->
      forall row, In row (prepare_rfm_data df) -> Rfm.recency row = None).
Proof.
  split.
  - intros [r1 [Hr1 Hts1]].
    destruct (order_purchase_timestamp r1) as [t1|] eqn:E1; [|congruence].
    destruct (ts_max_of_member (all_purchases df) t1) as [g [Eg _]].
    { unfold all_purchases. rewrite <- E1. now apply in_map. }
    pose proof (ts_max_In _ _ Eg) as Hg. unfold all_purchases in Hg.
    apply in_map_iff in Hg. destruct Hg as [r [Er Hr]].
    set (c := customer_id r).
    assert (Hc : In (Some g) (purchases_of df c)).
    { unfold purchases_of. rewrite <- Er. apply in_map.
      apply rows_with_In. now split. }
    destruct (ts_max_of_member _ _ Hc) as [last [Elast Hle]].
    destruct (ts_max_incl _ _ last (purchases_of_incl df c) Elast)
      as [g' [Eg' Hle']].
    rewrite Eg in Eg'. inversion Eg'. subst g'.
    assert (last = g) by lia. subst last.
    exists r.
    exists {| Rfm.customer_id := c;
              Rfm.frequency :=
                nunique (map order_id (rows_with customer_id c (rows df)));
              Rfm.monetary :=
                qsum (map price (rows_with customer_id c (rows df)));
              Rfm.recency := Some 0 |}.
    split; [exact Hr|]. split; [now rewrite Eg, Er|].
    split; [|split; reflexivity].
    unfold prepare_rfm_data, rfm_agg. rewrite map_map.
    apply groupby_map_In. exists c. split; [now exists r|].
    simpl. fold (purchases_of df c). fold (all_purchases df).
    rewrite Eg, Elast. simpl. unfold Calendar.days_of_ns.
    now rewrite Z.sub_diag.
  - intros Hnone row Hin.
    destruct (prepare_rfm_data_row df row Hin) as [_ [_ [_ ->]]].
    assert (E : ts_max (all_purchases df) = None).
    { apply ts_max_None. intros x Hx. unfold all_purchases in Hx.
      apply in_map_iff in Hx. destruct Hx as [r [<- Hr]]. now apply Hnone. }
    now rewrite E.
Qed.

Lemma rfm_latest_purchaser_has_recency_zero_witness :
  (exists r, In r (rows sample_df) /\ order_purchase_timestamp r <> None)
  /\ exists row, In row (prepare_rfm_data sample_df)
                 /\ Rfm.recency row = Some 0.
Proof.
  assert (H : exists r, In r (rows sample_df)
                        /\ order_purchase_timestamp r <> None).
  { exists line_O1a. split; [now left | discriminate]. }
  split; [exact H|].
  destruct (proj1 (rfm_latest_purchaser_has_recency_zero sample_df) H)
    as [r [row [_ [_ [Hin [_ Hrec]]]]]].
  exists row. split; assumption.
Defined.

(* ===================================================================== *)
(** ** Customer states *)
(* ===================================================================== *)






(* ===================================================================== *)
(** ** Review scores: the distribution and the average *)
(* ===================================================================== *)

Lemma unique_from_In (l : list Z) :
  forall seen x, In x (unique_from seen l) <-> In x l /\ ~ In x seen.
Proof.
  induction l as [|y l IH]; intros seen x; simpl; [tauto|].
  destruct (existsb (Z.eqb y) seen) eqn:E.
  - rewrite IH. apply existsb_exists in E. destruct E as [z [Hz Ez]].
    apply Z.eqb_eq in Ez. subst z. split; [tauto|].
    intros [[<-|H] Hn]; [contradiction | tauto].
  - assert (Hy : ~ In y seen).
    { intros H. assert (existsb (Z.eqb y) seen = true); [|congruence].
      apply existsb_exists. exists y. split; [exact H | apply Z.eqb_refl]. }
    simpl. rewrite IH. simpl. split.
    + intros [<-|[H1 H2]]; [tauto|]. split; [tauto|]. tauto.
    + intros [[<-|H1] H2]; [now left|].
      destruct (Z.eq_dec y x) as [->|N]; [now left|]. right.
      split; [exact H1|]. intros [E'|H']; [congruence | contradiction].
Qed.

Lemma unique_from_NoDup (l : list Z) : forall seen, NoDup (unique_from seen l).
Proof.
  induction l as [|y l IH]; intros seen; simpl; [constructor|].
  destruct (existsb (Z.eqb y) seen); [apply IH|].
  constructor; [|apply IH]. intros H. apply unique_from_In in H.
  destruct H as [_ H]. apply H. now left.
Qed.

Lemma count_occ_filter (l : list Z) (v : Z) :
  count_occ Z.eq_dec l v = List.length (filter (fun x => x =? v) l).
Proof.
  induction l as [|y l IH]; simpl; [reflexivity|].
  destruct (Z.eq_dec y v) as [->|N].
  - rewrite Z.eqb_refl. simpl. now rewrite IH.
  - destruct (Z.eqb_spec y v); [contradiction | exact IH].
Qed.

Lemma total_reviews_list_sum (dist : list (Z * nat)) :
  total_reviews dist = list_sum (map snd dist).
Proof.
  unfold total_reviews, list_sum. apply fold_symmetric; intros; lia.
Qed.

Lemma le_by_count_total (a b : Z * nat) :
  le_by_count a b = true \/ le_by_count b a = true.
Proof. unfold le_by_count. rewrite !Nat.leb_le. lia. Qed.

Lemma le_by_count_trans (a b c : Z * nat) :
  le_by_count a b = true -> le_by_count b c = true -> le_by_count a c = true.
Proof. unfold le_by_count. rewrite !Nat.leb_le. lia. Qed.

Lemma value_counts_perm (col : list (option Z)) :
  Permutation (value_counts col)
              (map (fun v => (v, count_occ Z.eq_dec (dropna col) v))
                   (unique_from [] (dropna col))).
Proof. apply sort_values_perm. Qed.

(** X17.  When the table has a review column, the review distribution
    has one row per score that occurs, holding the number of reviews
    with that score, most frequent score first; the counts add up to the
    number of non-null review cells, which is the total the percentages
    are taken of. *)
Theorem review_distribution_counts_reviews (all_df : DataFrame) :
  has_review_score all_df = true ->
  exists review_distribution avg_review_score,
    review_block all_df = Ok (review_distribution, avg_review_score)
    /\ NoDup (map fst review_distribution)
    /\ (forall s n,
           In (s, n) review_distribution <->
           In s (review_scores all_df)
           /\ n = count_occ Z.eq_dec (review_scores all_df) s)
    /\ StronglySorted (fun a b => (snd b <= snd a)%nat) review_distribution
    /\ total_reviews review_distribution = List.length (review_scores all_df).
Proof.
  intros Hcol. unfold review_block, get_review_score. rewrite Hcol. simpl.
  fold (review_scores all_df).
  set (col := map review_score (rows all_df)).
  set (vs := review_scores all_df).
  pose proof (value_counts_perm col) as Hperm. fold vs in Hperm.
  eexists. eexists. split; [reflexivity|]. split; [|split; [|split]].
  - eapply Permutation_NoDup;
      [symmetry; apply Permutation_map; exact Hperm|].
    rewrite map_map. simpl. rewrite map_id. apply unique_from_NoDup.
  - intros s n. split.
    + intros H. apply (Permutation_in _ Hperm) in H. apply in_map_iff in H.
      destruct H as [v [E Hv]]. inversion E. subst.
      apply unique_from_In in Hv. tauto.
    + intros [Hs ->]. apply (Permutation_in _ (Permutation_sym Hperm)).
      apply in_map_iff. exists s. split; [reflexivity|].
      apply unique_from_In. tauto.
  - pose proof (sort_values_sorted le_by_count le_by_count_total
                  le_by_count_trans false
                  (map (fun v => (v, count_occ Z.eq_dec vs v))
                       (unique_from [] vs))) as H.
    eapply StronglySorted_weaken; [|exact H].
    intros a b. simpl. unfold le_by_count. now rewrite Nat.leb_le.
  - rewrite total_reviews_list_sum.
    rewrite (Permutation_list_sum (Permutation_map snd Hperm)).
    rewrite map_map. simpl.
    erewrite map_ext; [|intros v; apply count_occ_filter].
    rewrite (count_partition (fun v x => x =? v)).
    + rewrite filter_all; [reflexivity|].
      intros x Hx. apply existsb_exists. exists x.
      split; [|apply Z.eqb_refl]. apply unique_from_In. tauto.
    + intros x k1 k2 _ _ _. rewrite !Z.eqb_eq. congruence.
    + apply unique_from_NoDup.
Qed.

Lemma review_distribution_counts_reviews_witness :
  has_review_score sample_df = true
  /\ exists review_distribution avg_review_score,
      review_block sample_df = Ok (review_distribution, avg_review_score)
      /\ total_reviews review_distribution
         = List.length (review_scores sample_df).
Proof.
  split; [reflexivity|].
  destruct (review_distribution_counts_reviews sample_df eq_refl)
    as [dist [avg [Hblock [_ [_ [_ Htotal]]]]]].
  exists dist, avg. split; assumption.
Defined.

(** X18.  When the table has a review column, the average review score
    is null exactly when no line has a review; otherwise it is a number
    that lies between any two bounds of the scores, so between 1 and 5
    for scores from 1 to 5. *)
Theorem avg_review_score_within_scores (all_df : DataFrame) :
  has_review_score all_df = true ->
  exists review_distribution avg_review_score,
    review_block all_df = Ok (review_distribution, avg_review_score)
    /\ (avg_review_score = None <-> review_scores all_df = [])
    /\ (forall lo hi,
           review_scores all_df <> [] ->
           (forall s, In s (review_scores all_df) -> lo <= s <= hi) ->
           exists a, avg_review_score = Some a
                     /\ (inject_Z lo <= a)%Q /\ (a <= inject_Z hi)%Q).
Proof.
  intros Hcol. unfold review_block, get_review_score. rewrite Hcol. simpl.
  fold (review_scores all_df). set (vs := review_scores all_df).
  eexists. eexists. split; [reflexivity|]. split.
  - destruct vs as [|v vs']; simpl; split; congruence.
  - intros lo hi Hne Hb.
    destruct (qmean_bounds (inject_Z lo) (inject_Z hi) (map inject_Z vs))
      as [a [Ea [H1 [H2 _]]]].
    + intros E. apply map_eq_nil in E. contradiction.
    + intros x Hx. apply in_map_iff in Hx. destruct Hx as [s [<- Hs]].
      destruct (Hb s Hs). split; rewrite <- Zle_Qle; assumption.
    + exists a. auto.
Qed.

Lemma avg_review_score_within_scores_witness :
  has_review_score sample_df = true
  /\ review_scores sample_df <> []
  /\ (forall s, In s (review_scores sample_df) -> 1 <= s <= 5)
  /\ exists review_distribution a,
      review_block sample_df = Ok (review_distribution, Some a)
      /\ (1 <= a)%Q /\ (a <= 5)%Q.
Proof.
  assert (Hne : review_scores sample_df <> []) by (vm_compute; discriminate).
  assert (Hb : forall s, In s (review_scores sample_df) -> 1 <= s <= 5).
  { intros s Hs. vm_compute in Hs.
    destruct Hs as [<-|[<-|[<-|[]]]]; lia. }
  split; [reflexivity|]. split; [exact Hne|]. split; [exact Hb|].
  destruct (avg_review_score_within_scores sample_df eq_refl)
    as [dist [avg [Hblock [_ Hrange]]]].
  destruct (Hrange 1 5 Hne Hb) as [a [Ea [H1 H2]]].
  exists dist, a. rewrite <- Ea. split; [exact Hblock|]. split; assumption.
Defined.

(* ===================================================================== *)
(** ** Customer analysis: top customers and the scatter plot *)
(* ===================================================================== *)

(** X19.  The colour and the size of the scatter plot never use the
    recency.  Each of them uses a dimension that is on neither axis,
    except when the two axes are monetary and frequency: it then repeats
    one of the axes. *)
Theorem scatter_color_and_size_dimensions (x_axis y_axis : Axis) :
  scatter_color x_axis y_axis <> recency
  /\ scatter_size x_axis y_axis <> recency
  /\ (scatter_color x_axis y_axis = x_axis
      \/ scatter_color x_axis y_axis = y_axis
      <-> (x_axis = monetary /\ y_axis = frequency)
          \/ (x_axis = frequency /\ y_axis = monetary))
  /\ (scatter_size x_axis y_axis = x_axis
      \/ scatter_size x_axis y_axis = y_axis
      <-> (x_axis = monetary /\ y_axis = frequency)
          \/ (x_axis = frequency /\ y_axis = monetary)).
Proof.
  destruct x_axis, y_axis; unfold scatter_color, scatter_size; simpl;
    repeat split; try discriminate;
    try (intros [H|H]; discriminate H);
    try (intros [[H1 H2]|[H1 H2]]; discriminate);
    try (intros _; right; split; reflexivity);
    try (intros _; left; split; reflexivity);
    try (intros _; left; reflexivity);
    try (intros _; right; reflexivity).
Qed.

Lemma le_by_recency_total (a b : Rfm.Row) :
  le_by_recency a b = true \/ le_by_recency b a = true.
Proof.
  unfold le_by_recency.
  destruct (Rfm.recency a), (Rfm.recency b); auto.
  rewrite !Z.leb_le. lia.
Qed.

Lemma le_by_recency_trans (a b c : Rfm.Row) :
  le_by_recency a b = true -> le_by_recency b c = true ->
  le_by_recency a c = true.
Proof.
  unfold le_by_recency.
  destruct (Rfm.recency a), (Rfm.recency b), (Rfm.recency c);
    try discriminate; auto.
  rewrite !Z.leb_le. lia.
Qed.

Lemma le_by_frequency_total (a b : Rfm.Row) :
  le_by_frequency a b = true \/ le_by_frequency b a = true.
Proof. unfold le_by_frequency. rewrite !Nat.leb_le. lia. Qed.

Lemma le_by_frequency_trans (a b c : Rfm.Row) :
  le_by_frequency a b = true -> le_by_frequency b c = true ->
  le_by_frequency a c = true.
Proof. unfold le_by_frequency. rewrite !Nat.leb_le. lia. Qed.

Lemma le_by_monetary_total (a b : Rfm.Row) :
  le_by_monetary a b = true \/ le_by_monetary b a = true.
Proof. apply Qle_bool_total. Qed.

Lemma le_by_monetary_trans (a b c : Rfm.Row) :
  le_by_monetary a b = true -> le_by_monetary b c = true ->
  le_by_monetary a c = true.
Proof. apply Qle_bool_trans. Qed.

(** X20.  The three top-five lists of the customer page hold customers
    of the RFM table, five of them or all when there are fewer.  Every
    customer left out of the frequency list has a frequency no larger
    than each listed one, and likewise for the monetary list; every
    customer left out of the recency list has a recency no smaller than
    each listed one, or a null recency. *)
Theorem top_customers_are_extremes (rfm_data : list Rfm.Row) :
  (List.length (top_recency rfm_data) = Nat.min 5 (List.length rfm_data)
   /\ List.length (top_frequency rfm_data) = Nat.min 5 (List.length rfm_data)
   /\ List.length (top_monetary rfm_data) = Nat.min 5 (List.length rfm_data))
  /\ (forall x, In x (top_recency rfm_data) \/ In x (top_frequency rfm_data)
                \/ In x (top_monetary rfm_data) -> In x rfm_data)
  /\ (forall x y,
         In x (top_frequency rfm_data) -> In y rfm_data ->
         ~ In y (top_frequency rfm_data) ->
         (Rfm.frequency y <= Rfm.frequency x)%nat)
  /\ (forall x y,
         In x (top_monetary rfm_data) -> In y rfm_data ->
         ~ In y (top_monetary rfm_data) ->
         (Rfm.monetary y <= Rfm.monetary x)%Q)
  /\ (forall x y,
         In x (top_recency rfm_data) -> In y rfm_data ->
         ~ In y (top_recency rfm_data) ->
         Rfm.recency y = None
         \/ exists dx dy, Rfm.recency x = Some dx /\ Rfm.recency y = Some dy
                          /\ dx <= dy).
Proof.
  unfold top_recency, top_frequency, top_monetary.
  split; [|split; [|split; [|split]]].
  - rewrite !head_length.
    rewrite (Permutation_length (sort_values_perm le_by_recency true rfm_data)).
    rewrite (Permutation_length (sort_values_perm le_by_frequency false rfm_data)).
    rewrite (Permutation_length (sort_values_perm le_by_monetary false rfm_data)).
    auto.
  - intros x [H|[H|H]]; apply head_In in H; now apply sort_values_In in H.
  - intros x y Hx Hy Hny.
    pose proof (sort_values_sorted le_by_frequency le_by_frequency_total
                  le_by_frequency_trans false rfm_data) as Hs. simpl in Hs.
    apply sort_values_In with (le := le_by_frequency) (asc := false) in Hy.
    pose proof (head_dominates _ 5 _ Hs x y Hx Hy Hny) as H.
    unfold le_by_frequency in H. now apply Nat.leb_le.
  - intros x y Hx Hy Hny.
    pose proof (sort_values_sorted le_by_monetary le_by_monetary_total
                  le_by_monetary_trans false rfm_data) as Hs. simpl in Hs.
    apply sort_values_In with (le := le_by_monetary) (asc := false) in Hy.
    pose proof (head_dominates _ 5 _ Hs x y Hx Hy Hny) as H.
    unfold le_by_monetary in H. now apply Qle_bool_iff.
  - intros x y Hx Hy Hny.
    pose proof (sort_values_sorted le_by_recency le_by_recency_total
                  le_by_recency_trans true rfm_data) as Hs. simpl in Hs.
    apply sort_values_In with (le := le_by_recency) (asc := true) in Hy.
    pose proof (head_dominates _ 5 _ Hs x y Hx Hy Hny) as H.
    unfold le_by_recency in H.
    destruct (Rfm.recency x) as [dx|], (Rfm.recency y) as [dy|];
      try discriminate; auto.
    right. exists dx, dy. repeat split. now apply Z.leb_le.
Qed.

(* ===================================================================== *)
(** ** Delivery performance: what counts as on time *)
(* ===================================================================== *)

Lemma filter_length_all {A : Type} (f : A -> bool) (l : list A) :
  List.length (filter f l) = List.length l <-> forall x, In x l -> f x = true.
Proof.
  induction l as [|x l IH]; simpl; [tauto|].
  pose proof (filter_length_le f l) as Hle.
  destruct (f x) eqn:E; simpl.
  - split.
    + intros H y [<-|Hy]; [exact E|]. apply IH; [lia | exact Hy].
    + intros H. f_equal. apply IH. intros y Hy. apply H. now right.
  - split; [lia|]. intros H. specialize (H x (or_introl eq_refl)). congruence.
Qed.

Lemma filter_length_none {A : Type} (f : A -> bool) (l : list A) :
  List.length (filter f l) = 0%nat <-> forall x, In x l -> f x = false.
Proof.
  induction l as [|x l IH]; simpl; [tauto|].
  destruct (f x) eqn:E; simpl.
  - split; [lia|]. intros H. specialize (H x (or_introl eq_refl)). congruence.
  - rewrite IH. split.
    + intros H y [<-|Hy]; auto.
    + intros H y Hy. apply H. now right.
Qed.

Lemma ratio_extremes (k n : Z) :
  0 < n ->
  ((100 * inject_Z k / inject_Z n == 100)%Q <-> k = n)
  /\ ((100 * inject_Z k / inject_Z n == 0)%Q <-> k = 0).
Proof.
  intros Hn. destruct n as [|p|p]; try lia.
  unfold Qeq, Qdiv, Qmult, Qinv, inject_Z. cbn [Qnum Qden].
  rewrite ?Pos2Z.inj_mul. split; split; intros H; nia.
Qed.

Lemma ge0_true (c : option Z) : ge0 c = true <-> exists n, c = Some n /\ 0 <= n.
Proof.
  destruct c as [n|]; simpl.
  - rewrite Z.leb_le. split; [intros H; now exists n|].
    intros [m [E H]]. now inversion E; subst.
  - split; [discriminate | intros [n [E _]]; discriminate].
Qed.

Lemma ge0_false (c : option Z) :
  ge0 c = false <-> c = None \/ exists n, c = Some n /\ n < 0.
Proof.
  destruct c as [n|]; simpl.
  - rewrite Z.leb_gt. split; [intros H; right; now exists n|].
    intros [E|[m [E H]]]; [discriminate | now inversion E; subst].
  - split; auto.
Qed.

(** X21.  With at least one delivery row, the on-time rate is 100
    exactly when every row has a delivery difference of at least 0, and
    0 exactly when no row has; a row whose delivery difference is null
    counts as late. *)
Theorem on_time_rate_extremes (delivery_data : list Delivery.Row) :
  delivery_data <> [] ->
  exists rate,
    on_time_delivery_rate delivery_data = Some rate
    /\ ((rate == 100)%Q <->
        forall d, In d delivery_data ->
                  exists n, Delivery.delivery_difference d = Some n /\ 0 <= n)
    /\ ((rate == 0)%Q <->
        forall d, In d delivery_data ->
                  Delivery.delivery_difference d = None
                  \/ exists n, Delivery.delivery_difference d = Some n /\ n < 0).
Proof.
  intros Hne.
  destruct (on_time_rate_spec delivery_data Hne) as [rate [Erate [Heq _]]].
  exists rate. split; [exact Erate|].
  assert (Hn : 0 < Z.of_nat (List.length delivery_data))
    by (destruct delivery_data; [congruence | simpl List.length; lia]).
  destruct (ratio_extremes (Z.of_nat (List.length (on_time_rows delivery_data)))
                           _ Hn) as [H100 H0].
  rewrite Heq. split.
  - rewrite H100. rewrite Nat2Z.inj_iff. unfold on_time_rows.
    rewrite filter_length_all. split; intros H d Hd.
    + apply ge0_true. now apply H.
    + apply ge0_true. now apply H.
  - rewrite H0. change 0 with (Z.of_nat 0). rewrite Nat2Z.inj_iff.
    unfold on_time_rows. rewrite filter_length_none. split; intros H d Hd.
    + apply ge0_false. now apply H.
    + apply ge0_false. now apply H.
Qed.

Lemma on_time_rate_extremes_witness :
  prepare_delivery_data sample_df <> []
  /\ exists rate,
      on_time_delivery_rate (prepare_delivery_data sample_df) = Some rate
      /\ ~ (rate == 100)%Q.
Proof.
  assert (Hne : prepare_delivery_data sample_df <> [])
    by (vm_compute; discriminate).
  split; [exact Hne|].
  destruct (on_time_rate_extremes _ Hne) as [rate [Erate [H100 _]]].
  exists rate. split; [exact Erate|]. intros E.
  destruct (proj1 H100 E
              {| Delivery.line := line_O2;
                 Delivery.actual_delivery_time := Some 23;
                 Delivery.estimated_delivery_time := Some 14;
                 Delivery.delivery_difference := Some (-9) |})
    as [n [En Hn]].
  - find_row.
  - simpl in En. inversion En. subst. lia.
Defined.

Lemma days_of_ns_mono (a b : Z) :
  a <= b -> Calendar.days_of_ns a <= Calendar.days_of_ns b.
Proof.
  intros H. unfold Calendar.days_of_ns.
  apply Z.div_le_mono; [apply ns_per_day_pos | exact H].
Qed.

Lemma days_of_ns_le_inv (a b : Z) :
  Calendar.days_of_ns a <= Calendar.days_of_ns b ->
  a < b + Calendar.ns_per_day.
Proof.
  unfold Calendar.days_of_ns. intros H.
  pose proof ns_per_day_pos as Hd.
  pose proof (Z.mul_succ_div_gt a _ Hd) as Ha.
  pose proof (Z.mul_div_le b _ Hd) as Hb.
  nia.
Qed.

(** X22.  On a delivery row whose three timestamps are known, the
    delivery difference compares whole days counted from the purchase:
    an order delivered no later than its estimated date has a difference
    of at least 0, and a difference of at least 0 means the order arrived
    less than one day after the estimated date; a negative difference
    means it arrived after the estimated date. *)
Theorem delivery_difference_in_whole_days (df : DataFrame) (d : Delivery.Row) :
  In d (prepare_delivery_data df) ->
  forall purchase delivered estimated,
    order_purchase_timestamp (Delivery.line d) = Some purchase ->
    order_delivered_customer_date (Delivery.line d) = Some delivered ->
    order_estimated_delivery_date (Delivery.line d) = Some estimated ->
    exists diff,
      Delivery.delivery_difference d = Some diff
      /\ diff = Calendar.days_of_ns (estimated - purchase)
                - Calendar.days_of_ns (delivered - purchase)
      /\ (delivered <= estimated -> 0 <= diff)
      /\ (0 <= diff -> delivered < estimated + Calendar.ns_per_day)
      /\ (diff < 0 -> estimated < delivered).
Proof.
  intros Hin tp td te Hp Hd He.
  destruct (prepare_delivery_data_In df d Hin) as [_ [_ [Ha [Hest Hdiff]]]].
  rewrite Hd, Hp in Ha. rewrite He, Hp in Hest. simpl in Ha, Hest.
  rewrite Hest, Ha in Hdiff. simpl in Hdiff.
  eexists. split; [exact Hdiff|]. split; [reflexivity|].
  split; [|split].
  - intros H. pose proof (days_of_ns_mono (td - tp) (te - tp)). lia.
  - intros H. pose proof (days_of_ns_le_inv (td - tp) (te - tp)). lia.
  - intros H. pose proof (days_of_ns_mono (td - tp) (te - tp)). lia.
Qed.

Lemma delivery_difference_in_whole_days_witness :
  let d := {| Delivery.line := line_O1a;
              Delivery.actual_delivery_time := Some 7;
              Delivery.estimated_delivery_time := Some 14;
              Delivery.delivery_difference := Some 7 |} in
  In d (prepare_delivery_data sample_df)
  /\ exists diff, Delivery.delivery_difference d = Some diff /\ 0 <= diff.
Proof.
  intros d.
  assert (Hin : In d (prepare_delivery_data sample_df)) by find_row.
  split; [exact Hin|].
  destruct (delivery_difference_in_whole_days sample_df d Hin
              (Calendar.mk_ts 2017 1 5 10 0 0)
              (Calendar.mk_ts 2017 1 12 15 0 0)
              (Calendar.mk_ts 2017 1 20 0 0 0)
              eq_refl eq_refl eq_refl)
    as [diff [Ediff [_ [Hle _]]]].
  exists diff. split; [exact Ediff|].
  apply Hle. vm_compute. discriminate.
Defined.

(* ===================================================================== *)
(** ** Frames as objects: what a call of an aggregator changes *)
(* ===================================================================== *)

Section StoreFacts.

Lemma nth_error_kept (s l : Store) (r : Ref) (f : Frame) :
  nth_error s r = Some f -> nth_error (s ++ l) r = Some f.
Proof.
  intros H. rewrite nth_error_app1; [exact H|].
  apply nth_error_Some. congruence.
Qed.

Lemma nth_error_new (s l : Store) (k : nat) :
  nth_error (s ++ l) (List.length s + k)%nat = nth_error l k.
Proof.
  rewrite nth_error_app2 by lia. f_equal. lia.
Qed.

Lemma store_update_new (s l : Store) (k : nat) (f : Frame) :
  store_update (List.length s + k)%nat f (s ++ l)
  = option_map (app s) (store_update k f l).
Proof.
  induction s as [|g s IH]; simpl.
  - now destruct (store_update k f l).
  - rewrite IH. now destruct (store_update k f l).
Qed.

Lemma frames_kept_app (s l : Store) : frames_kept s (s ++ l).
Proof. intros r f. apply nth_error_kept. Qed.

Lemma bind_st_ok {A B : Type} (m : St A) (k : A -> St B) (s s' : Store) (a : A) :
  m s = Ok (a, s') -> bind_st m k s = k a s'.
Proof. unfold bind_st. now intros ->. Qed.

Lemma bind_st_raise {A B : Type} (m : St A) (k : A -> St B) (s : Store) (e : Exn) :
  m s = Raise e -> bind_st m k s = Raise e.
Proof. unfold bind_st. now intros ->. Qed.

(** A method called on a frame that existed before the call, and on a
    frame made during the call. *)
Lemma method_old (m : Frame -> Result Frame) (r : Ref) (f f' : Frame)
      (s l : Store) :
  nth_error s r = Some f -> m f = Ok f' ->
  method m r (s ++ l) = Ok ((List.length s + List.length l)%nat, s ++ (l ++ [f'])).
Proof.
  intros Hr Hm. unfold method, bind_st, get_frame, lift, new_frame.
  rewrite (nth_error_kept s l r f Hr), Hm.
  now rewrite length_app, app_assoc.
Qed.

Lemma method_old_raise (m : Frame -> Result Frame) (r : Ref) (f : Frame)
      (e : Exn) (s l : Store) :
  nth_error s r = Some f -> m f = Raise e -> method m r (s ++ l) = Raise e.
Proof.
  intros Hr Hm. unfold method, bind_st, get_frame, lift.
  now rewrite (nth_error_kept s l r f Hr), Hm.
Qed.

Lemma method_new (m : Frame -> Result Frame) (k : nat) (f f' : Frame)
      (s l : Store) :
  nth_error l k = Some f -> m f = Ok f' ->
  method m (List.length s + k)%nat (s ++ l)
  = Ok ((List.length s + List.length l)%nat, s ++ (l ++ [f'])).
Proof.
  intros Hr Hm. unfold method, bind_st, get_frame, lift, new_frame.
  rewrite nth_error_new, Hr, Hm.
  now rewrite length_app, app_assoc.
Qed.

Lemma in_place_new (m : Frame -> Result Frame) (k : nat) (f f' : Frame)
      (s l l' : Store) :
  nth_error l k = Some f -> m f = Ok f' -> store_update k f' l = Some l' ->
  in_place m (List.length s + k)%nat (s ++ l) = Ok (tt, s ++ l').
Proof.
  intros Hr Hm Hu. unfold in_place, bind_st, get_frame, lift, set_frame.
  now rewrite nth_error_new, Hr, Hm, store_update_new, Hu.
Qed.

Lemma scalar_old {A : Type} (m : Frame -> Result A) (r : Ref) (f : Frame)
      (a : A) (s l : Store) :
  nth_error s r = Some f -> m f = Ok a -> scalar m r (s ++ l) = Ok (a, s ++ l).
Proof.
  intros Hr Hm. unfold scalar, bind_st, get_frame, lift.
  now rewrite (nth_error_kept s l r f Hr), Hm.
Qed.

(** An aggregator that, on every store holding the input frame, returns
    after adding frames to the store, and whose table stays readable
    whatever is added later, returns the same table when called twice. *)
Lemma returns_same_table_twice_intro {R V : Type}
      (aggregator : Ref -> St R) (table : Store -> R -> option V)
      (df : Ref) (input : Frame) (t : V) :
  (forall s, nth_error s df = Some input ->
             exists out l,
               aggregator df s = Ok (out, s ++ l)
               /\ forall l', table ((s ++ l) ++ l') out = Some t) ->
  forall s, nth_error s df = Some input ->
            returns_same_table_twice aggregator table df s t.
Proof.
  intros Hrun s Hdf.
  destruct (Hrun s Hdf) as [out1 [l1 [E1 T1]]].
  destruct (Hrun (s ++ l1) (nth_error_kept s l1 df input Hdf))
    as [out2 [l2 [E2 T2]]].
  exists out1, (s ++ l1), out2, ((s ++ l1) ++ l2).
  split; [exact E1|]. split; [exact E2|].
  split; [specialize (T1 []); now rewrite app_nil_r in T1|].
  split; [specialize (T2 []); now rewrite app_nil_r in T2|].
  split; [apply T1|].
  split; apply frames_kept_app.
Qed.

End StoreFacts.

(** One statement of an aggregator, run on a store [s ++ l] whose part
    [l] was added by the call. *)
Ltac run_statement Hdf :=
  erewrite bind_st_ok
    by (first [ eapply method_old; [exact Hdf | reflexivity]
              | eapply scalar_old; [exact Hdf | reflexivity]
              | eapply method_new; [reflexivity | reflexivity]
              | eapply in_place_new; [reflexivity | reflexivity | reflexivity] ]);
  cbv beta; cbn [List.length app Nat.add].

Lemma combine_map_map {A B C : Type} (f : A -> B) (g : A -> C) (l : list A) :
  combine (map f l) (map g l) = map (fun x => (f x, g x)) l.
Proof. induction l as [|x l IH]; simpl; [reflexivity | now rewrite IH]. Qed.

Lemma combine_map_r {A B : Type} (g : A -> B) (l : list A) :
  combine l (map g l) = map (fun x => (x, g x)) l.
Proof. induction l as [|x l IH]; simpl; [reflexivity | now rewrite IH]. Qed.

Lemma prepare_delivery_data_st_run (s : Store) (df : Ref) (d : DataFrame) :
  nth_error s df = Some (OrderFrame d None None None) ->
  exists out l,
    prepare_delivery_data_st df s = Ok (out, s ++ l)
    /\ forall l', delivery_table ((s ++ l) ++ l') out
                  = Some (prepare_delivery_data d).
Proof.
  intros Hdf. eexists. eexists. split.
  - rewrite <- (app_nil_r s) at 1. unfold prepare_delivery_data_st.
    do 5 run_statement Hdf. reflexivity.
  - intros l'. unfold delivery_table.
    rewrite <- app_assoc, nth_error_new. cbn [nth_error app option_map rows].
    f_equal. unfold prepare_delivery_data.
    repeat (rewrite combine_map_map || rewrite map_map).
    rewrite combine_map_r, map_map. reflexivity.
Qed.

Lemma prepare_rfm_data_st_run (s : Store) (df : Ref) (d : DataFrame) :
  nth_error s df = Some (OrderFrame d None None None) ->
  exists out l,
    prepare_rfm_data_st df s = Ok (out, s ++ l)
    /\ forall l', rfm_table ((s ++ l) ++ l') out = Some (prepare_rfm_data d).
Proof.
  intros Hdf. eexists. eexists. split.
  - rewrite <- (app_nil_r s) at 1. unfold prepare_rfm_data_st.
    do 5 run_statement Hdf. reflexivity.
  - intros l'. unfold rfm_table.
    rewrite <- app_assoc, nth_error_new. cbn [nth_error app].
    f_equal. unfold prepare_rfm_data.
    rewrite combine_map_r, map_map. reflexivity.
Qed.

Lemma prepare_category_data_st_run (s : Store) (df : Ref) (d : DataFrame) :
  nth_error s df = Some (OrderFrame d None None None) ->
  exists out l,
    prepare_category_data_st df s = Ok (out, s ++ l)
    /\ forall l', category_tables ((s ++ l) ++ l') out
                  = Some (prepare_category_data d).
Proof.
  intros Hdf. eexists. eexists. split.
  - rewrite <- (app_nil_r s) at 1. unfold prepare_category_data_st.
    do 12 run_statement Hdf. reflexivity.
  - intros l'. unfold category_tables, price_table, stats_table.
    rewrite <- app_assoc, !nth_error_new. cbn [nth_error app].
    reflexivity.
Qed.

Lemma prepare_monthly_data_st_run (s : Store) (df : Ref) (d : DataFrame) :
  monthly_data_returns d = true ->
  nth_error s df = Some (OrderFrame d None None None) ->
  exists out l,
    prepare_monthly_data_st df s = Ok (out, s ++ l)
    /\ forall l', monthly_table ((s ++ l) ++ l') out
                  = Some (prepare_monthly_data d, month_name_column d).
Proof.
  intros Hret Hdf.
  assert (Hgroup : groupby_month_agg (OrderFrame d None None None)
                   = Ok (MonthlyFrame (prepare_monthly_data d) None))
    by (unfold groupby_month_agg; now rewrite Hret).
  eexists. eexists. split.
  - rewrite <- (app_nil_r s) at 1. unfold prepare_monthly_data_st.
    erewrite bind_st_ok by (eapply method_old; [exact Hdf | exact Hgroup]).
    cbv beta. cbn [List.length app Nat.add].
    do 3 run_statement Hdf. reflexivity.
  - intros l'. unfold monthly_table.
    rewrite <- app_assoc, nth_error_new. cbn [nth_error app].
    reflexivity.
Qed.

Lemma prepare_monthly_data_st_raises (s : Store) (df : Ref) (d : DataFrame) :
  monthly_data_returns d = false ->
  nth_error s df = Some (OrderFrame d None None None) ->
  prepare_monthly_data_st df s = Raise (exception "AttributeError").
Proof.
  intros Hret Hdf. unfold prepare_monthly_data_st.
  apply bind_st_raise. rewrite <- (app_nil_r s).
  eapply method_old_raise; [exact Hdf|].
  unfold groupby_month_agg. now rewrite Hret.
Qed.

(** C9.  Each aggregator is called on the loaded table, a frame to which
    no column has been added.  Called twice, it returns both times, and
    both times the frame it hands out holds the table of the input: the
    first call leaves the input frame, and every other frame that existed
    before it, as they were, so the second call starts from the same
    cells; the second call in turn leaves the table of the first call as
    it was.  The monthly aggregator does so on every table on which it
    returns at all. *)
Theorem aggregators_idempotent (s : Store) (df : Ref) (d : DataFrame) :
  nth_error s df = Some (OrderFrame d None None None) ->
  (monthly_data_returns d = true ->
   returns_same_table_twice prepare_monthly_data_st monthly_table df s
     (prepare_monthly_data d, month_name_column d))
  /\ (monthly_data_returns d = false ->
      prepare_monthly_data_st df s = Raise (exception "AttributeError"))
  /\ returns_same_table_twice prepare_category_data_st category_tables df s
       (prepare_category_data d)
  /\ returns_same_table_twice prepare_rfm_data_st rfm_table df s
       (prepare_rfm_data d)
  /\ returns_same_table_twice prepare_delivery_data_st delivery_table df s
       (prepare_delivery_data d).
Proof.
  intros Hdf. split; [|split; [|split; [|split]]].
  - intros Hret.
    apply (returns_same_table_twice_intro _ _ df (OrderFrame d None None None));
      [|exact Hdf].
    intros s0 H0. now apply prepare_monthly_data_st_run.
  - intros Hret. now apply (prepare_monthly_data_st_raises s df d).
  - apply (returns_same_table_twice_intro _ _ df (OrderFrame d None None None));
      [|exact Hdf].
    intros s0 H0. now apply prepare_category_data_st_run.
  - apply (returns_same_table_twice_intro _ _ df (OrderFrame d None None None));
      [|exact Hdf].
    intros s0 H0. now apply prepare_rfm_data_st_run.
  - apply (returns_same_table_twice_intro _ _ df (OrderFrame d None None None));
      [|exact Hdf].
    intros s0 H0. now apply prepare_delivery_data_st_run.
Qed.

Lemma aggregators_idempotent_witness :
  let s := [OrderFrame sample_df None None None] in
  nth_error s 0 = Some (OrderFrame sample_df None None None)
  /\ returns_same_table_twice prepare_delivery_data_st delivery_table 0%nat s
       (prepare_delivery_data sample_df)
  /\ returns_same_table_twice prepare_rfm_data_st rfm_table 0%nat s
       (prepare_rfm_data sample_df).
Proof.
  intros s.
  assert (Hdf : nth_error s 0 = Some (OrderFrame sample_df None None None))
    by reflexivity.
  destruct (aggregators_idempotent s 0%nat sample_df Hdf)
    as [_ [_ [_ [Hrfm Hdelivery]]]].
  split; [exact Hdf|]. split; [exact Hdelivery | exact Hrfm].
Defined.

(** The delivery aggregator run on the sample table: two frames are
    added to the store, the input frame stays without added columns. *)
Example prepare_delivery_data_st_sample :
  exists out delivered_df orders_delivery_df,
    prepare_delivery_data_st 0%nat [OrderFrame sample_df None None None]
    = Ok (out, [OrderFrame sample_df None None None;
                delivered_df; orders_delivery_df])
    /\ out = 2%nat.
Proof. eexists. eexists. eexists. split; reflexivity. Qed.

Example strftime_B_Y_checks :
  strftime_B_Y (Calendar.month_of_year_month 2017 1) = "January 2017"
  /\ strftime_B_Y (Calendar.month_of_year_month 2018 12) = "December 2018".
Proof. split; reflexivity. Qed.

(* ===================================================================== *)
(** ** Zero denominators *)
(* ===================================================================== *)




(** A table with a header and no row: the page stops after the title,
    the introduction and the navigation. *)
Example main_header_only_file :
  main header_only_file Overview
  = ([set_page_config; spinner; title; markdown; sidebar_radio],
     Raise (exception "ZeroDivisionError")).
Proof. reflexivity. Qed.

(** A table whose only line has no purchase timestamp. *)
Example main_undated_lines :
  main (Parsed {| has_review_score := true; rows := [line_O9] |}) Overview
  = ([set_page_config; spinner; title; markdown; sidebar_radio],
     Raise (exception "AttributeError")).
Proof. reflexivity. Qed.


(* ===================================================================== *)
(** ** A table without review column *)
(* ===================================================================== *)



(* ===================================================================== *)
(** ** Category aggregator: the sums and the two views *)
(* ===================================================================== *)

Lemma Forall2_rev_both {A B : Type} (R : A -> B -> Prop)
      (l1 : list A) (l2 : list B) :
  Forall2 R l1 l2 -> Forall2 R (rev l1) (rev l2).
Proof.
  induction 1 as [|x y l1 l2 Hxy H IH]; simpl; [constructor|].
  apply Forall2_app; [exact IH | repeat constructor; exact Hxy].
Qed.

Lemma Forall2_head {A B : Type} (R : A -> B -> Prop) (n : nat)
      (l1 : list A) (l2 : list B) :
  Forall2 R l1 l2 -> Forall2 R (head n l1) (head n l2).
Proof.
  unfold head. intros H. revert n.
  induction H as [|x y l1 l2 Hxy H IH]; intros [|n]; simpl;
    constructor; auto.
Qed.

Lemma Forall2_Qeq_sym (l1 l2 : list Q) :
  Forall2 Qeq l1 l2 -> Forall2 Qeq l2 l1.
Proof. induction 1; constructor; [now symmetry | assumption]. Qed.

Lemma head_map {A B : Type} (f : A -> B) (n : nat) (l : list A) :
  map f (head n l) = head n (map f l).
Proof. unfold head. symmetry. apply firstn_map. Qed.

(** A category that occurs in the table has an entry in the series of
    sums, with the sum of the prices of its lines. *)
Lemma category_price_sum_entry (df : DataFrame) (c : string) :
  (exists r, In r (rows df) /\ product_category_name_english r = c) ->
  In (c, qsum (map price (lines_of_category df c))) (category_price_sum df).
Proof.
  intros Hc. unfold category_price_sum.
  apply (groupby_map_In product_category_name_english
           (fun kg => (fst kg, qsum (map price (snd kg))))).
  exists c. split; [exact Hc | reflexivity].
Qed.

Lemma category_rankings_reverse_asc (df : DataFrame) :
  Forall2 Qeq (map snd (category_ranking df true))
              (rev (map snd (category_ranking df false))).
Proof.
  apply Forall2_Qeq_sym.
  rewrite <- (rev_involutive (map snd (category_ranking df true))).
  apply Forall2_rev_both. apply category_rankings_reverse.
Qed.

(** C4.  For every category of the table the full-stats table has
    exactly one row, whose [total_sales] is the sum of [price] over all
    order lines of that category.  The two views are drawn from one
    series of sums, which has an entry for a category exactly when the
    category occurs in the table, holding that same sum; every entry of
    a view is such an entry.  [top_categories] is the first ten entries
    of the descending ranking of the series and [bottom_categories] the
    first ten of the ascending ranking: an entry left out of the top view
    has a sum no larger than any entry in it, an entry left out of the
    bottom view a sum no smaller.  The two rankings list the same sums
    in opposite order, so the sums of each view are the last ten sums of
    the other ranking read backwards, and when no two categories have
    the same sum the two rankings are the same rows in opposite order.
    With at most ten categories both views hold every category and the
    sums of one view are those of the other read backwards. *)
Theorem category_sums_and_rankings (df : DataFrame) :
  (forall c,
      (exists r, In r (rows df) /\ product_category_name_english r = c) ->
      exists row,
        In row (category_stats df)
        /\ Category.product_category_name_english row = c
        /\ (forall row', In row' (category_stats df) ->
                         Category.product_category_name_english row' = c ->
                         row' = row)
        /\ Category.total_sales row = qsum (map price (lines_of_category df c)))
  /\ (forall c s,
         In (c, s) (category_price_sum df) <->
         (exists r, In r (rows df) /\ product_category_name_english r = c)
         /\ s = qsum (map price (lines_of_category df c)))
  /\ top_categories df = head 10 (category_ranking df false)
  /\ bottom_categories df = head 10 (category_ranking df true)
  /\ Permutation (category_ranking df false) (category_price_sum df)
  /\ Permutation (category_ranking df true) (category_price_sum df)
  /\ StronglySorted (fun a b => (snd b <= snd a)%Q) (category_ranking df false)
  /\ StronglySorted (fun a b => (snd a <= snd b)%Q) (category_ranking df true)
  /\ (forall c s,
         In (c, s) (top_categories df) \/ In (c, s) (bottom_categories df) ->
         (exists r, In r (rows df) /\ product_category_name_english r = c)
         /\ s = qsum (map price (lines_of_category df c)))
  /\ (forall x y,
         In x (top_categories df) -> In y (category_price_sum df) ->
         ~ In y (top_categories df) -> (snd y <= snd x)%Q)
  /\ (forall x y,
         In x (bottom_categories df) -> In y (category_price_sum df) ->
         ~ In y (bottom_categories df) -> (snd x <= snd y)%Q)
  /\ Forall2 Qeq (map snd (category_ranking df false))
                 (rev (map snd (category_ranking df true)))
  /\ Forall2 Qeq (map snd (top_categories df))
                 (head 10 (rev (map snd (category_ranking df true))))
  /\ Forall2 Qeq (map snd (bottom_categories df))
                 (head 10 (rev (map snd (category_ranking df false))))
  /\ ((forall c1 s1 c2 s2,
          In (c1, s1) (category_price_sum df) ->
          In (c2, s2) (category_price_sum df) ->
          (s1 == s2)%Q -> c1 = c2) ->
      category_ranking df false = rev (category_ranking df true))
  /\ ((List.length (category_price_sum df) <= 10)%nat ->
      (forall c,
          (exists r, In r (rows df) /\ product_category_name_english r = c) ->
          In (c, qsum (map price (lines_of_category df c))) (top_categories df)
          /\ In (c, qsum (map price (lines_of_category df c)))
                (bottom_categories df))
      /\ Forall2 Qeq (map snd (top_categories df))
                     (rev (map snd (bottom_categories df)))).
Proof.
  assert (Htop : top_categories df = head 10 (category_ranking df false))
    by reflexivity.
  assert (Hbottom : bottom_categories df = head 10 (category_ranking df true))
    by reflexivity.
  assert (Hin_top : forall x, In x (top_categories df) ->
                              In x (category_price_sum df)).
  { intros x Hx. rewrite Htop in Hx. apply head_In in Hx.
    now apply (Permutation_in _ (category_ranking_perm df false)). }
  assert (Hin_bottom : forall x, In x (bottom_categories df) ->
                                 In x (category_price_sum df)).
  { intros x Hx. rewrite Hbottom in Hx. apply head_In in Hx.
    now apply (Permutation_in _ (category_ranking_perm df true)). }
  split; [|split; [|split; [exact Htop|split; [exact Hbottom|]]]].
  - intros c Hc.
    set (f := fun kg : string * list OrderLine =>
                let prices := map price (snd kg) in
                {| Category.product_category_name_english := fst kg;
                   Category.order_count := nunique (map order_id (snd kg));
                   Category.item_count := List.length prices;
                   Category.min_price := qmin_list prices;
                   Category.avg_price := qmean prices;
                   Category.max_price := qmax_list prices;
                   Category.total_sales := qsum prices |}).
    assert (Hrow : In (f (c, lines_of_category df c)) (category_agg df)).
    { unfold category_agg. apply groupby_map_In. exists c. now split. }
    exists (f (c, lines_of_category df c)).
    split; [unfold category_stats; now apply sort_values_In|].
    split; [reflexivity|]. split; [|reflexivity].
    intros row' Hin' Hc'. unfold category_stats in Hin'.
    apply sort_values_In in Hin'.
    now apply (groupby_map_unique product_category_name_english f
                 Category.product_category_name_english (rows df)).
  - intros c s. split.
    + apply category_price_sum_row.
    + intros [Hc ->]. now apply category_price_sum_entry.
  - split; [apply category_ranking_perm|].
    split; [apply category_ranking_perm|].
    split; [apply category_ranking_descending|].
    split; [apply category_ranking_ascending|].
    split.
    { intros c s [H|H]; apply category_price_sum_row; auto. }
    split.
    { intros x y Hx Hy Hny. rewrite Htop in Hx, Hny.
      apply (head_dominates (fun a b => (snd b <= snd a)%Q) 10
                            (category_ranking df false)); try assumption.
      - apply category_ranking_descending.
      - now apply (Permutation_in _ (Permutation_sym
                                       (category_ranking_perm df false))). }
    split.
    { intros x y Hx Hy Hny. rewrite Hbottom in Hx, Hny.
      apply (head_dominates (fun a b => (snd a <= snd b)%Q) 10
                            (category_ranking df true)); try assumption.
      - apply category_ranking_ascending.
      - now apply (Permutation_in _ (Permutation_sym
                                       (category_ranking_perm df true))). }
    split; [apply category_rankings_reverse|].
    split.
    { rewrite Htop, head_map. apply Forall2_head.
      apply category_rankings_reverse. }
    split.
    { rewrite Hbottom, head_map. apply Forall2_head.
      apply category_rankings_reverse_asc. }
    split; [apply category_rankings_reverse_rows|].
    intros Hlen.
    assert (Etop : top_categories df = category_ranking df false).
    { rewrite Htop. apply head_all.
      now rewrite (Permutation_length (category_ranking_perm df false)). }
    assert (Ebottom : bottom_categories df = category_ranking df true).
    { rewrite Hbottom. apply head_all.
      now rewrite (Permutation_length (category_ranking_perm df true)). }
    split.
    + intros c Hc. pose proof (category_price_sum_entry df c Hc) as Hentry.
      rewrite Etop, Ebottom. split.
      * now apply (Permutation_in _ (Permutation_sym
                                       (category_ranking_perm df false))).
      * now apply (Permutation_in _ (Permutation_sym
                                       (category_ranking_perm df true))).
    + rewrite Etop, Ebottom. apply category_rankings_reverse.
Qed.

Lemma category_sums_and_rankings_witness :
  (exists r, In r (rows sample_df) /\ product_category_name_english r = "toys")
  /\ (List.length (category_price_sum sample_df) <= 10)%nat
  /\ (exists row,
         In row (category_stats sample_df)
         /\ Category.product_category_name_english row = "toys"
         /\ Category.total_sales row
            = qsum (map price (lines_of_category sample_df "toys")))
  /\ In ("toys", qsum (map price (lines_of_category sample_df "toys")))
        (top_categories sample_df)
  /\ In ("toys", qsum (map price (lines_of_category sample_df "toys")))
        (bottom_categories sample_df)
  /\ Forall2 Qeq (map snd (top_categories sample_df))
                 (rev (map snd (bottom_categories sample_df))).
Proof.
  assert (Hc : exists r, In r (rows sample_df)
                         /\ product_category_name_english r = "toys").
  { exists line_O1a. split; [left; reflexivity | reflexivity]. }
  assert (Hlen : (List.length (category_price_sum sample_df) <= 10)%nat)
    by (vm_compute; lia).
  destruct (category_sums_and_rankings sample_df)
    as [Hsum [_ [_ [_ [_ [_ [_ [_ [_ [_ [_ [_ [_ [_ [_ Hsmall]]]]]]]]]]]]]]].
  destruct (Hsmall Hlen) as [Hboth Hrev].
  destruct (Hboth "toys" Hc) as [Htop Hbottom].
  split; [exact Hc|]. split; [exact Hlen|].
  split; [|split; [exact Htop|split; [exact Hbottom | exact Hrev]]].
  destruct (Hsum "toys" Hc) as [row [Hin [Hname [_ Htotal]]]].
  exists row. repeat split; assumption.
Defined.

(** The two views of the sample table. *)
Example category_views_sample :
  top_categories sample_df = [("toys", 35%Q); ("books", 30%Q)]
  /\ bottom_categories sample_df = [("books", 30%Q); ("toys", 35%Q)].
Proof. split; vm_compute; reflexivity. Qed.
